(** * GridData: daily grid-demand aggregation and model loading

    A shallow embedding of [src/grid/griddata_bkh.py].

    Conventions of the embedding.
    - numpy float64 values are idealised as exact rationals ([Q]); the
      results numpy reports as [inf]/[nan] (a division by zero) are the
      [None] of [np_div].
    - a two-dimensional numpy array is a list of rows; a column vector
      (shape [(n,1)]) is a list of one-element rows.
    - the attributes of a [GridData] object that are set by the
      constructor are the fields of a record; those set later by the two
      loaders are entries of an attribute dictionary keyed by name, so
      that "no such attribute" is a failed lookup.
    - [pd.read_csv] and [pd.to_datetime] are library calls: the embedding
      starts from the frame they produce, one row per CSV line with its
      parsed [DATE] and its [ND] reading. *)

From Stdlib Require Import ZArith QArith Lqa Sorting.Sorted.
From stdpp Require Import gmap strings list fin_maps sorting pretty.

Open Scope Z_scope.

(** ** Calendar dates, as [pandas] timestamps at midnight expose them *)

Module Calendar.

Record date := mkDate { year : Z; month : Z; day : Z }.

#[global] Instance date_eq_dec : EqDecision date.
Proof. solve_decision. Defined.

Definition is_leap_year (y : Z) : bool :=
  (y mod 4 =? 0) && (negb (y mod 100 =? 0) || (y mod 400 =? 0)).

Definition days_in_month (y m : Z) : Z :=
  match m with
  | 1 | 3 | 5 | 7 | 8 | 10 | 12 => 31
  | 4 | 6 | 9 | 11 => 30
  | 2 => if is_leap_year y then 29 else 28
  | _ => 0
  end.

(** Number of days of year [y] that precede the first day of month [m]. *)
Definition days_before_month (y m : Z) : Z :=
  foldr (fun k acc => days_in_month y (Z.of_nat k) + acc) 0
        (seq 1 (Z.to_nat m - 1)).

(** [Timestamp.dayofyear]: 1-based index of the day within its year. *)
Definition dayofyear (d : date) : Z :=
  days_before_month (year d) (month d) + day d.

Definition valid_date (d : date) : Prop :=
  1 <= month d <= 12 /\ 1 <= day d <= days_in_month (year d) (month d).

(** Chronological order. *)
Definition date_lt (a b : date) : Prop :=
  year a < year b
  \/ (year a = year b /\ (month a < month b
                          \/ (month a = month b /\ day a < day b))).

Definition date_ltb (a b : date) : bool :=
  (year a <? year b)
  || ((year a =? year b)
      && ((month a <? month b) || ((month a =? month b) && (day a <? day b)))).

End Calendar.
Export Calendar.

(** ** Frames *)

(** A line of the frame [self.grid]: the parsed [DATE] and the [ND] column. *)
Record grid_row := mkGridRow { DATE : date; ND : Q }.

(** A line of [self.grid_average]. *)
Record average_row := mkAverageRow {
  avg_DATE : date;
  DEMAND_AVERAGE : Q;
  YEAR : Z;
  DOY : Z
}.

(** ** Exceptions *)

Inductive exn :=
| ValueError
| IndexError
| KeyError (key : string)
| AttributeError (name : string)
| FileNotFoundError (path : string)
| TypeError
| ModuleNotFoundError (module : string)
| ImportError (module : string).

Inductive result (A : Type) :=
| Ok (a : A)
| Raise (e : exn).
Arguments Ok {A} a.
Arguments Raise {A} e.

Definition bind {A B} (r : result A) (k : A -> result B) : result B :=
  match r with
  | Ok a => k a
  | Raise e => Raise e
  end.

Notation "x <-! r ; k" := (bind r (fun x => k))
  (at level 100, r at next level, right associativity).

(** ** The aggregation of line 14: [groupby('DATE').agg(mean).reset_index()] *)

(** Groups are kept ordered by key; a reading joins the group of its date,
    at the end, or opens a new group at the place of its date. *)
Fixpoint insert_group (d : date) (v : Q) (gs : list (date * list Q))
  : list (date * list Q) :=
  match gs with
  | [] => [(d, [v])]
  | (k, vs) :: gs' =>
      if date_ltb d k then (d, [v]) :: (k, vs) :: gs'
      else if decide (d = k) then (k, vs ++ [v]) :: gs'
      else (k, vs) :: insert_group d v gs'
  end.

Definition groupby_DATE (grid : list grid_row) : list (date * list Q) :=
  fold_left (fun gs r => insert_group (DATE r) (ND r) gs) grid [].

Definition Qsum (vs : list Q) : Q := foldr Qplus 0%Q vs.

(** [np.mean] of a non-empty one-dimensional array. *)
Definition np_mean (vs : list Q) : Q :=
  (Qsum vs / inject_Z (Z.of_nat (length vs)))%Q.

(** Lines 14 to 16: the aggregate with its [YEAR] and [DOY] columns. *)
Definition make_grid_average (grid : list grid_row) : list average_row :=
  map (fun g : date * list Q =>
         {| avg_DATE := g.1;
            DEMAND_AVERAGE := np_mean g.2;
            YEAR := year g.1;
            DOY := dayofyear g.1 |})
      (groupby_DATE grid).

(** ** The time axis of lines 19 to 24 *)

(** [np.unique]: the distinct values, ascending. *)
Fixpoint insert_unique (y : Z) (l : list Z) : list Z :=
  match l with
  | [] => [y]
  | x :: l' =>
      if y <? x then y :: x :: l'
      else if y =? x then x :: l'
      else x :: insert_unique y l'
  end.

Definition np_unique (l : list Z) : list Z :=
  fold_left (fun acc y => insert_unique y acc) l [].

(** The builtin [max] on a sequence: a [ValueError] on an empty one. *)
Definition py_max (l : list Z) : result Z :=
  match l with
  | [] => Raise ValueError
  | x :: l' => Ok (fold_left Z.max l' x)
  end.

(** [self.grid_average.DOY[self.grid_average.YEAR.values==year]] *)
Definition DOY_of_year (ga : list average_row) (y : Z) : list Z :=
  map DOY (List.filter (fun r => YEAR r =? y) ga).

(** The loop of lines 21 to 24, with its two variables. *)
Fixpoint X_loop (ga : list average_row) (years : list Z)
         (OFFSET : Z) (X : list Z) : result (list Z) :=
  match years with
  | [] => Ok X
  | y :: years' =>
      let sel := DOY_of_year ga y in
      let X' := X ++ map (fun i => OFFSET + i) sel in
      m <-! py_max sel;
      X_loop ga years' (OFFSET + m) X'
  end.

Definition pseudo_days (ga : list average_row) : result (list Z) :=
  X_loop ga (np_unique (map YEAR ga)) 0 [].

(** [np.expand_dims(v, axis=1)] and [ndarray.flatten]. *)
Definition expand_dims_1 {A} (v : list A) : list (list A) :=
  map (fun x => [x]) v.

Definition flatten {A} (m : list (list A)) : list A := concat m.

Definition to_years (X : list Z) : list Q :=
  map (fun i => (inject_Z i / 365)%Q) X.

Definition to_GW (v : list Q) : list Q :=
  map (fun q => (q / 1000)%Q) v.

(** ** Python values held by the attributes the loaders set *)

Abbreviation array := (list (list Q)).

(** What [pickle.load] can give back: a fitted model, seen through its
    [predict(X) -> (mean, confidence)] contract, or a dictionary of
    arrays. *)
Inductive pyobj :=
| PModel (predict : array -> array * array)
| PDict (d : gmap string array).

Inductive value :=
| VInt (n : Z)
| VNum (q : Q)
| VArray (a : array)
| VObj (o : pyobj).

(** ** The object *)

(** [grid], [grid_average], [X] and [Y] are set by [__init__]; [attrs]
    holds every attribute set afterwards. *)
Record GridData := mkGridData {
  grid : list grid_row;
  grid_average : list average_row;
  X : list (list Q);
  Y : list (list Q);
  attrs : gmap string value
}.

Definition init (grid_frame : list grid_row) : result GridData :=
  let ga := make_grid_average grid_frame in
  X <-! pseudo_days ga;
  Ok {| grid := grid_frame;
        grid_average := ga;
        X := expand_dims_1 (to_years X);
        Y := expand_dims_1 (to_GW (map DEMAND_AVERAGE ga));
        attrs := ∅ |}.

Definition get_data (g : GridData) : list grid_row := grid g.
Definition get_data_average (g : GridData) : list average_row := grid_average g.

(** ** Methods: a computation on [self] that returns or raises *)

Inductive outcome (A : Type) :=
| Return (a : A) (self : GridData)
| Raises (e : exn) (self : GridData).
Arguments Return {A} a self.
Arguments Raises {A} e self.

Definition method (A : Type) := GridData -> outcome A.

Definition ret {A} (a : A) : method A := fun self => Return a self.

Definition raise {A} (e : exn) : method A := fun self => Raises e self.

Definition then_ {A B} (m : method A) (k : A -> method B) : method B :=
  fun self =>
    match m self with
    | Return a self' => k a self'
    | Raises e self' => Raises e self'
    end.

Notation "x <~ m ;; k" := (then_ m (fun x => k))
  (at level 100, m at next level, right associativity).
Notation "m ;; k" := (then_ m (fun _ => k))
  (at level 100, right associativity).

Definition lift {A} (r : result A) : method A :=
  match r with
  | Ok a => ret a
  | Raise e => raise e
  end.

Definition with_attrs (self : GridData) (a : gmap string value) : GridData :=
  {| grid := grid self;
     grid_average := grid_average self;
     X := X self;
     Y := Y self;
     attrs := a |}.

Definition set_attr (name : string) (v : value) : method unit :=
  fun self => Return tt (with_attrs self (<[name := v]> (attrs self))).

Definition get_attr (name : string) : method value :=
  fun self =>
    match attrs self !! name with
    | Some v => Return v self
    | None => Raises (AttributeError name) self
    end.

Definition get_X : method array := fun self => Return (X self) self.
Definition get_Y : method array := fun self => Return (Y self) self.

Definition as_int (v : value) : result Z :=
  match v with VInt n => Ok n | _ => Raise TypeError end.

Definition as_num (v : value) : result Q :=
  match v with
  | VNum q => Ok q
  | VInt n => Ok (inject_Z n)
  | _ => Raise TypeError
  end.

Definition as_array (v : value) : result array :=
  match v with VArray a => Ok a | _ => Raise TypeError end.

(** ** numpy helpers *)

(** [a[n:]] for an integer [n]; a negative [n] counts from the end. *)
Definition slice_from {A} (n : Z) (a : list A) : list A :=
  if n <? 0 then drop (length a - Z.to_nat (- n)) a
  else drop (Z.to_nat n) a.

(** [np.linspace(start, stop, num)] with its default [endpoint=True]:
    [arange(num) * step + start], the last sample overwritten by [stop]. *)
Definition np_linspace (start stop : Q) (num : nat) : list Q :=
  let div := inject_Z (Z.of_nat (num - 1)) in
  let step := ((stop - start) / div)%Q in
  let y :=
    map (fun i => (inject_Z (Z.of_nat i) * step + start)%Q) (seq 0 num) in
  if (1 <? num)%nat then <[(num - 1)%nat := stop]> y else y.

(** Elementwise operation on one-dimensional arrays, with numpy's
    broadcasting of a one-element operand; other length mismatches are a
    [ValueError]. *)
Definition broadcast {A B C} (f : A -> B -> C) (a : list A) (b : list B)
  : result (list C) :=
  if decide (length a = length b) then Ok (zip_with f a b)
  else match a, b with
       | [x], _ => Ok (map (f x) b)
       | _, [y] => Ok (map (fun x => f x y) a)
       | _, _ => Raise ValueError
       end.

(** Float division: a zero divisor gives [inf] or [nan] (and a warning),
    which is [None] here; no exception is raised. *)
Definition np_div (x y : Q) : option Q :=
  if Qeq_bool y 0 then None else Some (x / y)%Q.

Definition np_add := broadcast Qplus.
Definition np_subtract := broadcast Qminus.
Definition np_divide := broadcast np_div.

Definition np_ones (n : nat) : list Q := replicate n 1%Q.

(** ** The environment of a call: importable modules and pickled files *)

Record environment := mkEnv {
  import_GPy : result unit;
  files : gmap string pyobj
}.

(** [with open(path, 'rb') as f: pickle.load(f)] *)
Definition load_pickle (env : environment) (path : string) : result pyobj :=
  match files env !! path with
  | Some o => Ok o
  | None => Raise (FileNotFoundError path)
  end.

(** [obj.predict(X)] *)
Definition call_predict (o : value) (x : array) : result (array * array) :=
  match o with
  | VObj (PModel predict) => Ok (predict x)
  | _ => Raise (AttributeError "predict")
  end.

(** [obj[key]] *)
Definition subscript (o : value) (key : string) : result array :=
  match o with
  | VObj (PDict d) =>
      match d !! key with
      | Some a => Ok a
      | None => Raise (KeyError key)
      end
  | _ => Raise TypeError
  end.

(** ** [load_model] (lines 62 to 88) *)

Definition load_model (env : environment) (model_file : string)
           (forecast_limit : option Q) : method unit :=
  let forecast_limit := default 7%Q forecast_limit in
  match import_GPy env with
  | Raise (ModuleNotFoundError _) => ret tt
  | Raise e => raise e
  | Ok _ =>
      set_attr "COVID_CUTOFF" (VInt 1881) ;;
      set_attr "forecast_limit" (VNum forecast_limit) ;;
      m <~ lift (load_pickle env model_file) ;;
      set_attr "model" (VObj m) ;;
      limit <~ get_attr "forecast_limit" ;;
      limit <~ lift (as_num limit) ;;
      set_attr "X_PREDICT" (VArray (expand_dims_1 (np_linspace 0 limit 1000))) ;;
      model <~ get_attr "model" ;;
      x_predict <~ get_attr "X_PREDICT" ;;
      x_predict <~ lift (as_array x_predict) ;;
      p <~ lift (call_predict model x_predict) ;;
      set_attr "Y_PREDICT_mean" (VArray p.1) ;;
      set_attr "Y_PREDICT_conf" (VArray p.2) ;;
      x <~ get_X ;;
      cutoff <~ get_attr "COVID_CUTOFF" ;;
      cutoff <~ lift (as_int cutoff) ;;
      set_attr "X_COVID" (VArray (slice_from cutoff x)) ;;
      y <~ get_Y ;;
      cutoff <~ get_attr "COVID_CUTOFF" ;;
      cutoff <~ lift (as_int cutoff) ;;
      set_attr "Y_COVID" (VArray (slice_from cutoff y)) ;;
      model <~ get_attr "model" ;;
      x_covid <~ get_attr "X_COVID" ;;
      x_covid <~ lift (as_array x_covid) ;;
      p <~ lift (call_predict model x_covid) ;;
      set_attr "Y_COVID_PREDICT_mean" (VArray p.1) ;;
      set_attr "Y_COVID_PREDICT_conf" (VArray p.2)
  end.

(** ** [load_model_output] (lines 90 to 109) *)

Definition copy_key (attr key : string) : method unit :=
  d <~ get_attr "output_dict" ;;
  a <~ lift (subscript d key) ;;
  set_attr attr (VArray a).

Definition load_model_output (env : environment) (output_file : string)
  : method unit :=
  set_attr "COVID_CUTOFF" (VInt 1881) ;;
  set_attr "forecast_limit" (VInt 7) ;;
  o <~ lift (load_pickle env output_file) ;;
  set_attr "output_dict" (VObj o) ;;
  copy_key "X_PREDICT" "X_PREDICT" ;;
  d <~ get_attr "output_dict" ;;
  mean <~ lift (subscript d "Y_PREDICT_mean") ;;
  d <~ get_attr "output_dict" ;;
  conf <~ lift (subscript d "Y_PREDICT_conf") ;;
  set_attr "Y_PREDICT_mean" (VArray mean) ;;
  set_attr "Y_PREDICT_conf" (VArray conf) ;;
  copy_key "X_COVID" "X_COVID" ;;
  copy_key "Y_COVID" "Y_COVID" ;;
  d <~ get_attr "output_dict" ;;
  mean <~ lift (subscript d "Y_COVID_PREDICT_mean") ;;
  d <~ get_attr "output_dict" ;;
  conf <~ lift (subscript d "Y_COVID_PREDICT_conf") ;;
  set_attr "Y_COVID_PREDICT_mean" (VArray mean) ;;
  set_attr "Y_COVID_PREDICT_conf" (VArray conf).

(** The arrays both loaders leave on the object. *)
Definition prediction_attributes : list string :=
  ["X_PREDICT"; "Y_PREDICT_mean"; "Y_PREDICT_conf"; "X_COVID"; "Y_COVID";
   "Y_COVID_PREDICT_mean"; "Y_COVID_PREDICT_conf"].

(** ** Figures: what a plotting method hands to [bkh.show] *)

Inductive column :=
| Dates (c : list date)
| Ints (c : list Z)
| Floats (c : list Q)
| Quotients (c : list (option Q)).

Inductive glyph_kind := line | varea.

Record glyph := mkGlyph {
  kind : glyph_kind;
  x_data : column;
  y_data : column;       (* [y] of a line, [y1] of an area *)
  y2_data : option column;
  line_width : option Z;
  alpha : option Q;
  legend_label : option string;
  color : option string;
  line_dash : option string
}.

Record figure := mkFigure {
  x_axis_type : option string;
  plot_width : Z;
  plot_height : Z;
  glyphs : list glyph;
  xaxis_label : string;
  yaxis_label : string;
  xaxis_formatter : option string
}.

Definition add_glyph (g : glyph) (p : figure) : figure :=
  {| x_axis_type := x_axis_type p;
     plot_width := plot_width p;
     plot_height := plot_height p;
     glyphs := glyphs p ++ [g];
     xaxis_label := xaxis_label p;
     yaxis_label := yaxis_label p;
     xaxis_formatter := xaxis_formatter p |}.

Definition add_glyph_list (gl : list glyph) (p : figure) : figure :=
  {| x_axis_type := x_axis_type p;
     plot_width := plot_width p;
     plot_height := plot_height p;
     glyphs := glyphs p ++ gl;
     xaxis_label := xaxis_label p;
     yaxis_label := yaxis_label p;
     xaxis_formatter := xaxis_formatter p |}.

Definition set_labels (xl yl : string) (fmt : option string) (p : figure)
  : figure :=
  {| x_axis_type := x_axis_type p;
     plot_width := plot_width p;
     plot_height := plot_height p;
     glyphs := glyphs p;
     xaxis_label := xl;
     yaxis_label := yl;
     xaxis_formatter := fmt |}.

Definition new_figure (axis : option string) (figsize : Z * Z) : figure :=
  {| x_axis_type := axis;
     plot_width := figsize.1;
     plot_height := figsize.2;
     glyphs := [];
     xaxis_label := "";
     yaxis_label := "";
     xaxis_formatter := None |}.

(** ** [plot_demand_bkh] (lines 38 to 59) *)

Definition colors : list string :=
  ["darkgreen"; "darkkhaki"; "darkmagenta"; "darksalmon"; "darkred"; "gold"].

(** [seq[i]] for a non-negative [i]. *)
Definition py_index {A} (l : list A) (i : nat) : result A :=
  match l !! i with
  | Some a => Ok a
  | None => Raise IndexError
  end.

Definition rows_of_year (ga : list average_row) (y : Z) : list average_row :=
  List.filter (fun r => YEAR r =? y) ga.

(** The loop of lines 44 to 48, with its counter [i]. *)
Fixpoint year_lines (ga : list average_row) (years : list Z) (i : nat)
         (p : figure) : result figure :=
  match years with
  | [] => Ok p
  | y :: years' =>
      c <-! py_index colors i;
      let g := {| kind := line;
                  x_data := Ints (map DOY (rows_of_year ga y));
                  y_data := Floats (map DEMAND_AVERAGE (rows_of_year ga y));
                  y2_data := None;
                  line_width := Some 2;
                  alpha := Some ((4 # 10) + (1 # 10) * inject_Z (Z.of_nat i))%Q;
                  legend_label := Some (pretty y);
                  color := Some c;
                  line_dash := None |} in
      year_lines ga years' (S i) (add_glyph g p)
  end.

Definition plot_demand_bkh (collapse : bool) (color : string)
           (figsize : Z * Z) (self : GridData) : result figure :=
  let p := new_figure (Some "datetime") figsize in
  let ga := grid_average self in
  p <-! (if collapse then
           p <-! year_lines ga (np_unique (map YEAR ga)) 0 p;
           Ok (set_labels "Day of the Year" "" None p)
         else
           let g := {| kind := line;
                       x_data := Dates (map avg_DATE ga);
                       y_data := Floats (map DEMAND_AVERAGE ga);
                       y2_data := None;
                       line_width := None;
                       alpha := None;
                       legend_label := None;
                       color := Some color;
                       line_dash := None |} in
           Ok (set_labels "Year" "" None (add_glyph g p)));
  Ok (set_labels (xaxis_label p) "Demand (MW)" None p).

(** ** [plot_demand_discrepancy_bkh] (lines 132 to 149) *)

Definition read_attr {A} (self : GridData) (name : string)
           (cast : value -> result A) : result A :=
  match attrs self !! name with
  | Some v => cast v
  | None => Raise (AttributeError name)
  end.

(** [self.grid_average.DATE[self.COVID_CUTOFF:]] *)
Definition post_cutoff_dates (self : GridData) : result (list date) :=
  cutoff <-! read_attr self "COVID_CUTOFF" as_int;
  Ok (slice_from cutoff (map avg_DATE (grid_average self))).

Definition confidence_band (self : GridData) : result glyph :=
  dates <-! post_cutoff_dates self;
  y_covid <-! read_attr self "Y_COVID" as_array;
  mean <-! read_attr self "Y_COVID_PREDICT_mean" as_array;
  conf <-! read_attr self "Y_COVID_PREDICT_conf" as_array;
  upper <-! np_add (flatten mean) (flatten conf);
  y1 <-! np_divide (flatten y_covid) upper;
  y_covid <-! read_attr self "Y_COVID" as_array;
  mean <-! read_attr self "Y_COVID_PREDICT_mean" as_array;
  conf <-! read_attr self "Y_COVID_PREDICT_conf" as_array;
  lower <-! np_subtract (flatten mean) (flatten conf);
  y2 <-! np_divide (flatten y_covid) lower;
  Ok {| kind := varea;
        x_data := Dates dates;
        y_data := Quotients y1;
        y2_data := Some (Quotients y2);
        line_width := None;
        alpha := Some (2 # 10)%Q;
        legend_label := Some "Confidence";
        color := None;
        line_dash := None |}.

Definition reference_line (self : GridData) : result glyph :=
  dates <-! post_cutoff_dates self;
  dates' <-! post_cutoff_dates self;
  Ok {| kind := line;
        x_data := Dates dates;
        y_data := Floats (np_ones (length dates'));
        y2_data := None;
        line_width := None;
        alpha := None;
        legend_label := None;
        color := Some "black";
        line_dash := Some "dashed" |}.

Definition mean_line (self : GridData) : result glyph :=
  dates <-! post_cutoff_dates self;
  y_covid <-! read_attr self "Y_COVID" as_array;
  mean <-! read_attr self "Y_COVID_PREDICT_mean" as_array;
  ratio <-! np_divide (flatten y_covid) (flatten mean);
  Ok {| kind := line;
        x_data := Dates dates;
        y_data := Quotients ratio;
        y2_data := None;
        line_width := None;
        alpha := None;
        legend_label := Some "Mean";
        color := None;
        line_dash := None |}.

Definition plot_demand_discrepancy_bkh (figsize : Z * Z)
           (plot_confidence : bool) (self : GridData) : result figure :=
  let p := new_figure (Some "datetime") figsize in
  p <-! (if plot_confidence then
           g <-! confidence_band self; Ok (add_glyph g p)
         else Ok p);
  g <-! reference_line self;
  let p := add_glyph g p in
  g <-! mean_line self;
  let p := add_glyph g p in
  Ok (set_labels "Date" "Net Demand (True) / Net Demand (Expected)"
                 (Some "%d/%m") p).

(** ** [plot_model_bkh] (lines 111 to 130) *)

(** [a[:n]] for an integer [n]; a negative [n] counts from the end. *)
Definition slice_to {A} (n : Z) (a : list A) : list A :=
  if n <? 0 then take (length a - Z.to_nat (- n)) a
  else take (Z.to_nat n) a.

(** All the results, or the first exception. *)
Definition sequence {A} (l : list (result A)) : result (list A) :=
  foldr (fun r acc => x <-! r; xs <-! acc; Ok (x :: xs)) (Ok []) l.

(** Elementwise operation on two-dimensional arrays: rows are paired as
    [broadcast] pairs elements, and so are the entries of paired rows. *)
Definition broadcast_2d (f : Q -> Q -> Q) (a b : array) : result array :=
  rows <-! broadcast (broadcast f) a b;
  sequence rows.

(** [v + c] for a one-dimensional array and a number. *)
Definition np_add_scalar (v : list Q) (c : Q) : list Q :=
  map (fun q => (q + c)%Q) v.

(** What [p.x] draws: a cross at each point. *)
Record scatter := mkScatter {
  marker_x : list Q;
  marker_y : list Q;
  marker_color : string;
  marker_alpha : Q;
  marker_label : string
}.

Inductive renderer :=
| Glyph (g : glyph)
| CrossMarkers (s : scatter).

Record model_figure := mkModelFigure {
  model_width : Z;
  model_height : Z;
  renderers : list renderer;
  model_xaxis_label : string;
  model_yaxis_label : string
}.

Definition prediction_band (self : GridData) : result glyph :=
  x_predict <-! read_attr self "X_PREDICT" as_array;
  mean <-! read_attr self "Y_PREDICT_mean" as_array;
  conf <-! read_attr self "Y_PREDICT_conf" as_array;
  lower <-! broadcast_2d Qminus mean conf;
  mean <-! read_attr self "Y_PREDICT_mean" as_array;
  conf <-! read_attr self "Y_PREDICT_conf" as_array;
  upper <-! broadcast_2d Qplus mean conf;
  Ok {| kind := varea;
        x_data := Floats (np_add_scalar (flatten x_predict) 2015);
        y_data := Floats (flatten lower);
        y2_data := Some (Floats (flatten upper));
        line_width := None;
        alpha := Some (2 # 10)%Q;
        legend_label := Some "Confidence";
        color := None;
        line_dash := None |}.

Definition prediction_line (self : GridData) : result glyph :=
  x_predict <-! read_attr self "X_PREDICT" as_array;
  mean <-! read_attr self "Y_PREDICT_mean" as_array;
  Ok {| kind := line;
        x_data := Floats (np_add_scalar (flatten x_predict) 2015);
        y_data := Floats (flatten mean);
        y2_data := None;
        line_width := None;
        alpha := None;
        legend_label := Some "Mean";
        color := None;
        line_dash := None |}.

(** The points before the cutoff ([a[:cutoff]]) or from it on. *)
Definition data_points (slice : Z -> array -> array) (c label : string)
           (self : GridData) : result scatter :=
  cutoff <-! read_attr self "COVID_CUTOFF" as_int;
  let xs := np_add_scalar (flatten (slice cutoff (X self))) 2015 in
  cutoff <-! read_attr self "COVID_CUTOFF" as_int;
  let ys := flatten (slice cutoff (Y self)) in
  Ok {| marker_x := xs;
        marker_y := ys;
        marker_color := c;
        marker_alpha := (5 # 10)%Q;
        marker_label := label |}.

Definition plot_model_bkh (figsize : Z * Z) (self : GridData)
  : result model_figure :=
  band <-! prediction_band self;
  curve <-! prediction_line self;
  before <-! data_points slice_to "black" "Before Lockdown" self;
  after <-! data_points slice_from "red" "After Lockdown" self;
  Ok {| model_width := figsize.1;
        model_height := figsize.2;
        renderers := [Glyph band; Glyph curve;
                      CrossMarkers before; CrossMarkers after];
        model_xaxis_label := "Year";
        model_yaxis_label := "Net Demand (GW)" |}.

(** ** Notions used to state the properties *)

(** The [ND] readings of the frame taken on date [k], in file order. *)
Definition readings (grid : list grid_row) (k : date) : list Q :=
  map ND (List.filter (fun r => bool_decide (DATE r = k)) grid).

(** What lines 14 to 16 guarantee about [self.grid_average] when the
    dates of the frame are calendar dates. *)
Definition aggregated (ga : list average_row) : Prop :=
  StronglySorted date_lt (map avg_DATE ga)
  /\ Forall (fun r => valid_date (avg_DATE r)
                      /\ YEAR r = year (avg_DATE r)
                      /\ DOY r = dayofyear (avg_DATE r)) ga.

(** The attributes [load_model] leaves when it runs to its end. *)
Definition load_model_attrs (predict : array -> array * array)
           (limit : Q) (self : GridData) : gmap string value :=
  let x_predict := expand_dims_1 (np_linspace 0 limit 1000) in
  let x_covid := slice_from 1881 (X self) in
  <["Y_COVID_PREDICT_conf" := VArray (predict x_covid).2]>
  (<["Y_COVID_PREDICT_mean" := VArray (predict x_covid).1]>
  (<["Y_COVID" := VArray (slice_from 1881 (Y self))]>
  (<["X_COVID" := VArray x_covid]>
  (<["Y_PREDICT_conf" := VArray (predict x_predict).2]>
  (<["Y_PREDICT_mean" := VArray (predict x_predict).1]>
  (<["X_PREDICT" := VArray x_predict]>
  (<["model" := VObj (PModel predict)]>
  (<["forecast_limit" := VNum limit]>
  (<["COVID_CUTOFF" := VInt 1881]> (attrs self)))))))))).

(** The attributes [load_model_output] leaves when it runs to its end. *)
Definition load_model_output_attrs (d : gmap string array)
           (a : string -> array) (self : GridData) : gmap string value :=
  <["Y_COVID_PREDICT_conf" := VArray (a "Y_COVID_PREDICT_conf")]>
  (<["Y_COVID_PREDICT_mean" := VArray (a "Y_COVID_PREDICT_mean")]>
  (<["Y_COVID" := VArray (a "Y_COVID")]>
  (<["X_COVID" := VArray (a "X_COVID")]>
  (<["Y_PREDICT_conf" := VArray (a "Y_PREDICT_conf")]>
  (<["Y_PREDICT_mean" := VArray (a "Y_PREDICT_mean")]>
  (<["X_PREDICT" := VArray (a "X_PREDICT")]>
  (<["output_dict" := VObj (PDict d)]>
  (<["forecast_limit" := VInt 7]>
  (<["COVID_CUTOFF" := VInt 1881]> (attrs self)))))))))).

(** Attribute [name] of the object is set, and holds an array. *)
Definition holds_array (s : GridData) (name : string) : Prop :=
  exists a, attrs s !! name = Some (VArray a).

(** Six array attributes: the arrays on the object are those of some
    list of six distinct names. *)
Definition populates_six (s : GridData) : Prop :=
  exists names : list string,
    length names = 6%nat /\ NoDup names
    /\ forall name, holds_array s name <-> name ∈ names.

(** The dictionary of the arrays an object holds under [names]. *)
Definition arrays_of (s : GridData) (names : list string)
  : gmap string array :=
  foldr (fun name d => match attrs s !! name with
                       | Some (VArray a) => <[name := a]> d
                       | _ => d
                       end) ∅ names.

(** The dictionary of the prediction arrays held by an object. *)
Definition output_of (s : GridData) : gmap string array :=
  arrays_of s prediction_attributes.

(** Dictionary [d] holds, under each prediction attribute, the array the
    object holds under that name. *)
Definition corresponds (d : gmap string array) (s : GridData) : Prop :=
  forall name, name ∈ prediction_attributes ->
    VArray <$> d !! name = attrs s !! name.


(** ** Sample inputs *)

Definition next_day (d : date) : date :=
  if day d <? days_in_month (year d) (month d) then
    mkDate (year d) (month d) (day d + 1)
  else if month d <? 12 then mkDate (year d) (month d + 1) 1
  else mkDate (year d + 1) 1 1.

(** One reading of [nd] MW on each of [n] consecutive days from [d] on. *)
Fixpoint daily_frame (d : date) (nd : Q) (n : nat) : list grid_row :=
  match n with
  | O => []
  | S n' => mkGridRow d nd :: daily_frame (next_day d) nd n'
  end.

Definition sample_frame : list grid_row :=
  [ mkGridRow (mkDate 2016 12 31) 30000;
    mkGridRow (mkDate 2015 12 31) 29000;
    mkGridRow (mkDate 2015 12 31) 31000;
    mkGridRow (mkDate 2016 1 1) 20000 ].

Definition long_frame : list grid_row :=
  daily_frame (mkDate 2015 1 1) 30000 2000.

Definition sample_predict (a : array) : array * array :=
  (map (map (fun q => 2 * q + 1)%Q) a, map (map (fun _ => 1 # 2)%Q) a).

Definition sample_env : environment :=
  {| import_GPy := Ok tt;
     files := {[ "gp_model.pkl" := PModel sample_predict ]} |}.

Definition no_GPy_env : environment :=
  {| import_GPy := Raise (ModuleNotFoundError "GPy");
     files := {[ "gp_model.pkl" := PModel sample_predict ]} |}.


Definition the_object (r : result GridData) : GridData :=
  match r with
  | Ok g => g
  | Raise _ => mkGridData [] [] [] [] ∅
  end.

Definition sample_object : GridData := the_object (init sample_frame).
Definition long_object : GridData := the_object (init long_frame).

(** The sample object after [load_model], and an environment whose
    output file holds the dictionary of its prediction arrays. *)
Definition sample_state : GridData :=
  with_attrs sample_object
    (load_model_attrs sample_predict (default 7%Q None) sample_object).

Definition dictionary_env : environment :=
  {| import_GPy := Raise (ModuleNotFoundError "GPy");
     files := {[ "gp_output.pkl" := PDict (output_of sample_state) ]} |}.

(** The sample object after [load_model_output] in that environment. *)
Definition sample_output_state : GridData :=
  with_attrs sample_object
    (load_model_output_attrs
       (output_of sample_state)
       (fun name => default [] (output_of sample_state !! name))
       sample_object).

(** One reading on the first of January of [n] consecutive years. *)
Fixpoint new_year_frame (y : Z) (n : nat) : list grid_row :=
  match n with
  | O => []
  | S n' => mkGridRow (mkDate y 1 1) 30000 :: new_year_frame (y + 1) n'
  end.

(** The last day of a common year and the last day of the leap year
    after it, each with a mean demand of 30000 MW. *)
Definition year_end_frame : list grid_row :=
  [ mkGridRow (mkDate 2015 12 31) 30000;
    mkGridRow (mkDate 2016 12 31) 30000 ].

Definition column_of (n : nat) (q : Q) : array := replicate n [q].

(** The arrays of the dictionary: 119 post-cutoff days at 30 GW against a
    prediction of 32 GW with confidence [conf]. *)
Definition sample_arrays (conf : Q) (key : string) : array :=
  if decide (key = "Y_COVID"%string) then column_of 119 30
  else if decide (key = "Y_COVID_PREDICT_mean"%string) then column_of 119 32
  else if decide (key = "Y_COVID_PREDICT_conf"%string) then column_of 119 conf
  else if decide (key = "X_COVID"%string) then column_of 119 6
  else column_of 3 0.

Definition sample_output (conf : Q) : gmap string array :=
  list_to_map (map (fun key => (key, sample_arrays conf key))
                   prediction_attributes).

Definition output_env (conf : Q) : environment :=
  {| import_GPy := Raise (ModuleNotFoundError "GPy");
     files := {[ "gp_output.pkl" := PDict (sample_output conf) ]} |}.

Definition loaded_object (conf : Q) : GridData :=
  with_attrs long_object
    (load_model_output_attrs (sample_output conf) (sample_arrays conf)
                             long_object).

(** The object a method call leaves behind, whether it returned or
    raised. *)
Definition outcome_state {A} (o : outcome A) : GridData :=
  match o with
  | Return _ s => s
  | Raises _ s => s
  end.

(** What [__init__] computed: the two frames and the two axes. *)
Definition data_of (s : GridData)
  : list grid_row * list average_row * array * array :=
  (get_data s, get_data_average s, X s, Y s).

(** A method that leaves the frames and the axes alone. *)
Definition keeps_data {A} (m : method A) : Prop :=
  forall self, data_of (outcome_state (m self)) = data_of self.

(** The first key of the output schema that dictionary [d] lacks. *)
Definition first_missing (d : gmap string array) : option string :=
  List.find (fun key => match d !! key with
                        | None => true
                        | Some _ => false
                        end) prediction_attributes.

(** An environment whose model file holds a dictionary by mistake. *)
Definition swapped_env : environment :=
  {| import_GPy := Ok tt;
     files := {[ "gp_model.pkl" := PDict (sample_output 2) ]} |}.

(** An output file whose dictionary lacks [Y_PREDICT_conf]. *)
Definition truncated_env : environment :=
  {| import_GPy := Raise (ModuleNotFoundError "GPy");
     files := {[ "gp_output.pkl"
                 := PDict (delete "Y_PREDICT_conf" (sample_output 2)) ]} |}.

(** The sample object after [load_model] with a forecast limit of 5. *)
Definition short_state : GridData :=
  with_attrs sample_object
    (load_model_attrs sample_predict (default 7%Q (Some 5%Q)) sample_object).

Definition short_dictionary_env : environment :=
  {| import_GPy := Raise (ModuleNotFoundError "GPy");
     files := {[ "gp_output.pkl" := PDict (output_of short_state) ]} |}.

(** The greatest day-of-year among the rows of year [y] (0 if none):
    what [max] returns in the loop of the constructor. *)
Definition last_DOY (ga : list average_row) (y : Z) : Z :=
  match DOY_of_year ga y with
  | [] => 0
  | i :: l => fold_left Z.max l i
  end.

(** The greatest days of the years of [years] that precede [y], added
    up. *)
Definition offset_among (ga : list average_row) (years : list Z) (y : Z)
  : Z :=
  foldr (fun y' acc => if y' <? y then last_DOY ga y' + acc else acc) 0 years.

(** The value of [OFFSET] when the loop of the constructor reaches year
    [y]. *)
Definition offset_before (ga : list average_row) (y : Z) : Z :=
  offset_among ga (np_unique (map YEAR ga)) y.

(** Rows in ascending order of year. *)
Definition year_sorted (ga : list average_row) : Prop :=
  StronglySorted (fun r1 r2 => YEAR r1 <= YEAR r2) ga.

(** The line [plot_demand_bkh] draws for year [y], [k]-th in its loop. *)
Definition year_line (ga : list average_row) (k : nat) (y : Z) : glyph :=
  {| kind := line;
     x_data := Ints (map DOY (rows_of_year ga y));
     y_data := Floats (map DEMAND_AVERAGE (rows_of_year ga y));
     y2_data := None;
     line_width := Some 2;
     alpha := Some ((4 # 10) + (1 # 10) * inject_Z (Z.of_nat k))%Q;
     legend_label := Some (pretty y);
     color := colors !! k;
     line_dash := None |}.

(** The numbers of a column. *)
Definition ints_of (c : column) : list Z :=
  match c with Ints l => l | _ => [] end.

Definition floats_of (c : column) : list Q :=
  match c with Floats l => l | _ => [] end.

Definition quotients_of (c : column) : list (option Q) :=
  match c with Quotients l => l | _ => [] end.

Definition dates_of (c : column) : list date :=
  match c with Dates l => l | _ => [] end.

(** A column vector: every row holds one value. *)
Definition is_column (a : array) : Prop :=
  Forall (fun row => length row = 1%nat) a.

(** A model whose predictions on a column vector are column vectors with
    one row per input row, as a Gaussian-process regression with one
    output gives. *)
Definition column_model (predict : array -> array * array) : Prop :=
  forall a,
    is_column a ->
    length (predict a).1 = length a /\ is_column (predict a).1
    /\ length (predict a).2 = length a /\ is_column (predict a).2.

(** The number of values a column holds. *)
Definition column_length (c : column) : nat :=
  match c with
  | Dates l => length l
  | Ints l => length l
  | Floats l => length l
  | Quotients l => length l
  end.

(** The sample object with the small arrays of an output dictionary. *)
Definition small_output_state : GridData :=
  with_attrs sample_object
    (load_model_output_attrs (sample_output 2) (sample_arrays 2)
                             sample_object).

(** * Properties *)

(** ** The calendar *)

Section calendar_facts.

Lemma date_ltb_spec (a b : date) : date_ltb a b = true <-> date_lt a b.
Proof.
  unfold date_ltb, date_lt.
  rewrite !orb_true_iff, !andb_true_iff, !orb_true_iff, !andb_true_iff.
  rewrite !Z.ltb_lt, !Z.eqb_eq. tauto.
Qed.

Lemma date_lt_irrefl (a : date) : ~ date_lt a a.
Proof. unfold date_lt. lia. Qed.

Lemma date_lt_trans (a b c : date) : date_lt a b -> date_lt b c -> date_lt a c.
Proof. unfold date_lt. lia. Qed.

Lemma date_lt_total (a b : date) : date_lt a b \/ a = b \/ date_lt b a.
Proof.
  destruct a as [ya ma da], b as [yb mb db]. unfold date_lt. simpl.
  destruct (Z.lt_total ya yb) as [?|[->|?]]; [lia| |lia].
  destruct (Z.lt_total ma mb) as [?|[->|?]]; [lia| |lia].
  destruct (Z.lt_total da db) as [?|[->|?]]; [lia| |lia].
  right; left; reflexivity.
Qed.

Lemma month_cases (m : Z) :
  1 <= m <= 12 ->
  m = 1 \/ m = 2 \/ m = 3 \/ m = 4 \/ m = 5 \/ m = 6 \/ m = 7 \/ m = 8
  \/ m = 9 \/ m = 10 \/ m = 11 \/ m = 12.
Proof. lia. Qed.

Lemma days_in_month_bounds (y m : Z) :
  1 <= m <= 12 -> 28 <= days_in_month y m <= 31.
Proof.
  intros Hm. apply month_cases in Hm.
  repeat (destruct Hm as [-> | Hm]); try subst m;
    unfold days_in_month; try destruct (is_leap_year y); lia.
Qed.

Lemma days_before_month_succ (y m : Z) :
  1 <= m <= 11 ->
  days_before_month y (m + 1) = days_before_month y m + days_in_month y m.
Proof.
  intros Hm.
  assert (Hc : 1 <= m <= 12) by lia. apply month_cases in Hc.
  repeat (destruct Hc as [-> | Hc]); try subst m; try lia;
    unfold days_before_month, days_in_month; simpl;
    destruct (is_leap_year y); lia.
Qed.

Lemma days_before_month_nonneg (y m : Z) :
  1 <= m <= 12 -> 0 <= days_before_month y m.
Proof.
  intros Hm. apply month_cases in Hm.
  repeat (destruct Hm as [-> | Hm]); try subst m;
    unfold days_before_month, days_in_month; simpl;
    destruct (is_leap_year y); lia.
Qed.

(** Within a year, a later month starts after the earlier month ends. *)
Lemma days_before_month_mono (y m m' : Z) :
  1 <= m -> m < m' -> m' <= 12 ->
  days_before_month y m + days_in_month y m <= days_before_month y m'.
Proof.
  intros H1 Hlt H12.
  assert (Hc : 1 <= m <= 12) by lia. apply month_cases in Hc.
  assert (Hc' : 1 <= m' <= 12) by lia. apply month_cases in Hc'.
  repeat (destruct Hc as [-> | Hc]); try subst m;
    repeat (destruct Hc' as [-> | Hc']); try subst m'; try lia;
    unfold days_before_month, days_in_month; simpl;
    destruct (is_leap_year y); lia.
Qed.

Lemma dayofyear_pos (d : date) : valid_date d -> 1 <= dayofyear d.
Proof.
  intros [Hm Hd]. unfold dayofyear.
  pose proof (days_before_month_nonneg (year d) (month d) Hm). lia.
Qed.

Lemma dayofyear_mono (a b : date) :
  valid_date a -> valid_date b -> year a = year b -> date_lt a b ->
  dayofyear a < dayofyear b.
Proof.
  intros [Hma Hda] [Hmb Hdb] Hy Hlt. unfold dayofyear.
  destruct Hlt as [Hlt | [_ [Hlt | [Hm Hlt]]]]; [lia | |].
  - pose proof (days_before_month_mono (year a) (month a) (month b)) as H.
    rewrite <- Hy. lia.
  - rewrite <- Hy, <- Hm. lia.
Qed.

End calendar_facts.

(** ** The aggregation *)

Section groupby_facts.

Implicit Types (gs : list (date * list Q)) (d k : date) (v : Q).

Lemma date_ltb_false d k : date_ltb d k = false -> d <> k -> date_lt k d.
Proof.
  intros Hf Hne. destruct (date_lt_total d k) as [H | [H | H]]; [|done|done].
  apply date_ltb_spec in H. congruence.
Qed.

Lemma insert_group_keys d v gs k :
  k ∈ (insert_group d v gs).*1 <-> k = d \/ k ∈ gs.*1.
Proof.
  induction gs as [|[k0 vs] gs IH]; simpl.
  - rewrite list_elem_of_singleton, elem_of_nil. tauto.
  - destruct (date_ltb d k0); simpl.
    + rewrite !elem_of_cons. tauto.
    + destruct (decide (d = k0)) as [->|]; simpl.
      * rewrite !elem_of_cons. tauto.
      * rewrite !elem_of_cons, IH. tauto.
Qed.

Lemma insert_group_sorted d v gs :
  StronglySorted date_lt gs.*1 ->
  StronglySorted date_lt (insert_group d v gs).*1.
Proof.
  induction gs as [|[k0 vs] gs IH]; simpl; intros Hs.
  - repeat constructor.
  - inversion Hs as [|? ? Hs' Hall]; subst.
    destruct (date_ltb d k0) eqn:Hlt.
    + apply date_ltb_spec in Hlt. simpl. constructor; [done|].
      constructor; [done|].
      eapply Forall_impl; [exact Hall|]. intros; by eapply date_lt_trans.
    + destruct (decide (d = k0)) as [->|Hne]; simpl; [done|].
      constructor; [by apply IH|].
      apply Forall_forall. intros k Hk.
      apply insert_group_keys in Hk as [->|Hk].
      * by apply date_ltb_false.
      * rewrite Forall_forall in Hall. by apply Hall.
Qed.

(** Where the groups of [insert_group d v gs] come from. *)
Lemma insert_group_elem d v gs k vs :
  StronglySorted date_lt gs.*1 ->
  (k, vs) ∈ insert_group d v gs ->
  (k <> d /\ (k, vs) ∈ gs)
  \/ (k = d /\ ((exists vs0, (d, vs0) ∈ gs /\ vs = vs0 ++ [v])
               \/ ((d ∉ gs.*1) /\ vs = [v]))).
Proof.
  induction gs as [|[k0 vs0] gs IH]; simpl; intros Hs Hin.
  - apply list_elem_of_singleton in Hin. injection Hin as -> ->.
    right. split; [done|]. right. split; [|done]. apply not_elem_of_nil.
  - inversion Hs as [|? ? Hs' Hall]; subst. rewrite Forall_forall in Hall.
    destruct (date_ltb d k0) eqn:Hlt.
    + apply date_ltb_spec in Hlt.
      apply elem_of_cons in Hin as [Hin|Hin].
      * injection Hin as -> ->. right. split; [done|]. right. split; [|done].
        intros Hd. apply elem_of_cons in Hd as [->|Hd].
        -- by apply date_lt_irrefl in Hlt.
        -- apply Hall in Hd. eapply date_lt_irrefl, date_lt_trans; eauto.
      * left. split; [|done]. intros ->.
        assert (Hd : d ∈ ((k0, vs0) :: gs).*1).
        { apply list_elem_of_fmap. by exists (d, vs). }
        simpl in Hd. apply elem_of_cons in Hd as [->|Hd].
        -- by apply date_lt_irrefl in Hlt.
        -- apply Hall in Hd. eapply date_lt_irrefl, date_lt_trans; eauto.
    + destruct (decide (d = k0)) as [->|Hne].
      * apply elem_of_cons in Hin as [Hin|Hin].
        -- injection Hin as -> ->. right. split; [done|]. left.
           exists vs0. split; [left|done].
        -- left. split; [|by right]. intros ->.
           assert (Hd : k0 ∈ gs.*1).
           { apply list_elem_of_fmap. by exists (k0, vs). }
           apply Hall in Hd. by apply date_lt_irrefl in Hd.
      * apply elem_of_cons in Hin as [Hin|Hin].
        -- injection Hin as -> ->. left. split; [done|left].
        -- destruct (IH Hs' Hin) as [[Hk Hg] | [-> [[vs1 [Hg ->]] | [Hg ->]]]].
           ++ left. split; [done|by right].
           ++ right. split; [done|]. left. exists vs1. split; [by right|done].
           ++ right. split; [done|]. right. split; [|done].
              simpl. intros Hd. apply elem_of_cons in Hd as [?|?]; done.
Qed.

Lemma groupby_DATE_snoc (l : list grid_row) (r : grid_row) :
  groupby_DATE (l ++ [r]) = insert_group (DATE r) (ND r) (groupby_DATE l).
Proof. unfold groupby_DATE. by rewrite fold_left_app. Qed.

Lemma readings_snoc (l : list grid_row) (r : grid_row) k :
  readings (l ++ [r]) k
  = readings l k ++ (if decide (DATE r = k) then [ND r] else []).
Proof.
  unfold readings. rewrite List.filter_app, map_app. simpl.
  unfold bool_decide. by destruct (decide_rel eq (DATE r) k).
Qed.

Lemma readings_nil_iff (l : list grid_row) k :
  readings l k = [] <-> k ∉ map DATE l.
Proof.
  unfold readings. induction l as [|r l IH]; simpl.
  - split; [intros _; apply not_elem_of_nil|done].
  - rewrite not_elem_of_cons. case_bool_decide; simpl.
    + split; [done|]. intros [? _]. congruence.
    + rewrite IH. split; [|tauto]. intros; split; [congruence|done].
Qed.

Lemma groupby_DATE_sorted (l : list grid_row) :
  StronglySorted date_lt (groupby_DATE l).*1.
Proof.
  induction l as [|r l IH] using rev_ind; [constructor|].
  rewrite groupby_DATE_snoc. by apply insert_group_sorted.
Qed.

Lemma groupby_DATE_keys (l : list grid_row) k :
  k ∈ (groupby_DATE l).*1 <-> k ∈ map DATE l.
Proof.
  induction l as [|r l IH] using rev_ind; [done|].
  rewrite groupby_DATE_snoc, insert_group_keys, IH, map_app.
  simpl. rewrite elem_of_app, list_elem_of_singleton. tauto.
Qed.

Lemma groupby_DATE_values (l : list grid_row) k vs :
  (k, vs) ∈ groupby_DATE l -> vs = readings l k.
Proof.
  revert k vs. induction l as [|r l IH] using rev_ind; intros k vs Hin.
  - by apply elem_of_nil in Hin.
  - rewrite groupby_DATE_snoc in Hin. rewrite readings_snoc.
    apply insert_group_elem in Hin; [|apply groupby_DATE_sorted].
    destruct Hin as [[Hk Hg] | [-> [[vs1 [Hg ->]] | [Hg ->]]]].
    + rewrite decide_False by done. rewrite app_nil_r. by apply IH.
    + rewrite decide_True by done. f_equal. by apply IH.
    + rewrite decide_True by done.
      rewrite groupby_DATE_keys in Hg. apply readings_nil_iff in Hg.
      by rewrite Hg.
Qed.

Lemma date_sorted_NoDup (ks : list date) :
  StronglySorted date_lt ks -> NoDup ks.
Proof.
  induction 1 as [|k ks Hs IH Hall]; constructor; [|done].
  intros Hin. rewrite Forall_forall in Hall.
  by apply Hall, date_lt_irrefl in Hin.
Qed.

End groupby_facts.

(** ** [np.unique] *)

Section unique_facts.

Implicit Types (l : list Z) (y x : Z).

Lemma insert_unique_elem y l x : x ∈ insert_unique y l <-> x = y \/ x ∈ l.
Proof.
  induction l as [|x0 l IH]; simpl.
  - rewrite list_elem_of_singleton, elem_of_nil. tauto.
  - destruct (Z.ltb_spec y x0); [rewrite !elem_of_cons; tauto|].
    destruct (Z.eqb_spec y x0) as [->|].
    + rewrite !elem_of_cons. tauto.
    + rewrite !elem_of_cons, IH. tauto.
Qed.

Lemma insert_unique_sorted y l :
  StronglySorted Z.lt l -> StronglySorted Z.lt (insert_unique y l).
Proof.
  induction l as [|x0 l IH]; simpl; intros Hs.
  - repeat constructor.
  - inversion Hs as [|? ? Hs' Hall]; subst.
    destruct (Z.ltb_spec y x0).
    + constructor; [done|]. constructor; [done|].
      eapply Forall_impl; [exact Hall|]. simpl. lia.
    + destruct (Z.eqb_spec y x0) as [->|]; [done|].
      constructor; [by apply IH|].
      apply Forall_forall. intros x Hx. rewrite Forall_forall in Hall.
      apply insert_unique_elem in Hx as [->|Hx]; [lia|by apply Hall].
Qed.

Lemma np_unique_snoc l y : np_unique (l ++ [y]) = insert_unique y (np_unique l).
Proof. unfold np_unique. by rewrite fold_left_app. Qed.

Lemma np_unique_elem l x : x ∈ np_unique l <-> x ∈ l.
Proof.
  induction l as [|y l IH] using rev_ind; [done|].
  rewrite np_unique_snoc, insert_unique_elem, IH, elem_of_app,
    list_elem_of_singleton. tauto.
Qed.

Lemma np_unique_sorted l : StronglySorted Z.lt (np_unique l).
Proof.
  induction l as [|y l IH] using rev_ind; [constructor|].
  rewrite np_unique_snoc. by apply insert_unique_sorted.
Qed.

Lemma np_unique_NoDup l : NoDup (np_unique l).
Proof.
  generalize (np_unique_sorted l).
  induction 1 as [|k ks Hs IH Hall]; constructor; [|done].
  intros Hin. rewrite Forall_forall in Hall. apply Hall in Hin. lia.
Qed.

(** [np.unique] returns as many values as there are distinct ones. *)
Lemma np_unique_length l : length (np_unique l) = length (remove_dups l).
Proof.
  apply Permutation_length, NoDup_Permutation.
  - apply np_unique_NoDup.
  - apply NoDup_remove_dups.
  - intros x. by rewrite np_unique_elem, elem_of_remove_dups.
Qed.

End unique_facts.

(** ** The loop that builds the pseudo-day index *)

Section time_axis_facts.

Implicit Types (ga : list average_row) (years sel : list Z).

Lemma py_max_ok sel :
  sel <> [] -> exists m, py_max sel = Ok m /\ m ∈ sel /\ Forall (fun i => i <= m) sel.
Proof.
  destruct sel as [|i0 sel]; [done|]. intros _. simpl.
  exists (fold_left Z.max sel i0). split; [done|].
  revert i0. induction sel as [|i sel IH]; intros i0; simpl.
  - split; [left|]. constructor; [lia|constructor].
  - destruct (IH (Z.max i0 i)) as [Hin Hall].
    inversion Hall as [|? ? Hle Hall']; subst. split.
    + apply elem_of_cons in Hin as [Hin|Hin].
      * rewrite Hin. destruct (Z.max_spec i0 i) as [[_ ->]|[_ ->]];
          [right; left|left].
      * right; by right.
    + constructor; [lia|]. constructor; [lia|done].
Qed.

Lemma DOY_of_year_nonempty ga y : y ∈ map YEAR ga -> DOY_of_year ga y <> [].
Proof.
  unfold DOY_of_year. induction ga as [|r ga IH]; simpl.
  - intros H. by apply elem_of_nil in H.
  - intros H. destruct (Z.eqb_spec (YEAR r) y) as [Heq|Hne]; [done|].
    apply elem_of_cons in H as [->|H]; [done|by apply IH].
Qed.

(** The loop never raises when every year it visits has a row. *)
Lemma X_loop_ok ga years OFFSET X0 :
  Forall (fun y => y ∈ map YEAR ga) years ->
  exists X1, X_loop ga years OFFSET X0 = Ok X1.
Proof.
  revert OFFSET X0. induction years as [|y years IH]; intros OFFSET X0 Hy.
  - by exists X0.
  - inversion Hy as [|? ? Hin Hy']; subst. simpl.
    destruct (py_max_ok (DOY_of_year ga y)) as (m & -> & _).
    { by apply DOY_of_year_nonempty. }
    simpl. by apply IH.
Qed.

Lemma pseudo_days_ok ga : exists X1, pseudo_days ga = Ok X1.
Proof.
  apply X_loop_ok, Forall_forall. intros y. by rewrite np_unique_elem.
Qed.

Lemma init_ok (grid_frame : list grid_row) :
  exists g, init grid_frame = Ok g.
Proof.
  unfold init.
  destruct (pseudo_days_ok (make_grid_average grid_frame)) as [X1 ->].
  simpl. eauto.
Qed.

End time_axis_facts.

(** ** Well-formed aggregates and the order of the time axis *)

Section increasing_facts.

Implicit Types (ga : list average_row) (years sel : list Z).

Lemma StronglySorted_lookup {A} (R : relation A) (l : list A) i j a b :
  StronglySorted R l -> (i < j)%nat ->
  l !! i = Some a -> l !! j = Some b -> R a b.
Proof.
  intros Hs. revert i j. induction Hs as [|x l Hs IH Hall]; intros i j Hij Hi Hj.
  - done.
  - destruct j as [|j]; [lia|]. simpl in Hj. destruct i as [|i].
    + simpl in Hi. injection Hi as ->. rewrite Forall_forall in Hall.
      apply Hall. by eapply list_elem_of_lookup_2.
    + simpl in Hi. apply (IH i j); [lia|done|done].
Qed.

Lemma make_grid_average_dates (l : list grid_row) :
  map avg_DATE (make_grid_average l) = (groupby_DATE l).*1.
Proof.
  unfold make_grid_average. rewrite map_map. simpl. done.
Qed.

Lemma make_grid_average_aggregated (l : list grid_row) :
  Forall (fun r => valid_date (DATE r)) l -> aggregated (make_grid_average l).
Proof.
  intros Hv. split.
  - rewrite make_grid_average_dates. apply groupby_DATE_sorted.
  - unfold make_grid_average. apply Forall_forall. intros r Hr.
    apply list_elem_of_fmap in Hr as ([k vs] & -> & Hin). simpl.
    split; [|done].
    assert (Hk : k ∈ map DATE l).
    { apply groupby_DATE_keys, list_elem_of_fmap. by exists (k, vs). }
    apply list_elem_of_fmap in Hk as (r & -> & Hr).
    rewrite Forall_forall in Hv. by apply Hv.
Qed.

Lemma aggregated_tail r ga : aggregated (r :: ga) -> aggregated ga.
Proof.
  intros [Hs Hv]. simpl in Hs. apply StronglySorted_inv in Hs as [Hs _].
  apply Forall_cons in Hv as [_ Hv]. done.
Qed.

Lemma elem_of_DOY_of_year ga y i :
  i ∈ DOY_of_year ga y <-> exists r, r ∈ ga /\ YEAR r = y /\ DOY r = i.
Proof.
  unfold DOY_of_year. rewrite list_elem_of_In, in_map_iff. split.
  - intros (r & <- & Hr). apply filter_In in Hr as [Hr Hy].
    exists r. rewrite list_elem_of_In. split; [done|]. split; [lia|done].
  - intros (r & Hr & Hy & <-). exists r. split; [done|].
    apply filter_In. rewrite <- list_elem_of_In. split; [done|lia].
Qed.

(** The days of one year come out ascending, and start at 1 or later. *)
Lemma DOY_of_year_sorted ga y :
  aggregated ga ->
  StronglySorted Z.lt (DOY_of_year ga y)
  /\ Forall (fun i => 1 <= i) (DOY_of_year ga y).
Proof.
  induction ga as [|r ga IH]; intros Hagg.
  - split; constructor.
  - destruct (IH (aggregated_tail _ _ Hagg)) as [IHs IHp].
    destruct Hagg as [Hs Hv]. simpl in Hs.
    apply StronglySorted_inv in Hs as [Hs Hall].
    apply Forall_cons in Hv as [(Hvr & Hyr & Hdr) Hv].
    unfold DOY_of_year in *. simpl.
    destruct (Z.eqb_spec (YEAR r) y) as [Hy|Hy]; [|done]. simpl. split.
    + constructor; [done|]. apply Forall_forall. intros i Hi.
      apply (elem_of_DOY_of_year ga y i) in Hi as (r' & Hr' & Hy' & <-).
      rewrite Forall_forall in Hv. destruct (Hv _ Hr') as (Hvr' & Hyr' & Hdr').
      rewrite Hdr, Hdr'. apply dayofyear_mono; [done|done|congruence|].
      rewrite Forall_forall in Hall. apply Hall.
      apply list_elem_of_fmap. by exists r'.
    + constructor; [|done]. rewrite Hdr. by apply dayofyear_pos.
Qed.

(** Invariant of the loop: [X] is ascending and bounded by [OFFSET]. *)
Lemma X_loop_increasing ga years OFFSET X0 X1 :
  aggregated ga ->
  StronglySorted Z.lt X0 ->
  Forall (fun i => i <= OFFSET) X0 ->
  X_loop ga years OFFSET X0 = Ok X1 ->
  StronglySorted Z.lt X1.
Proof.
  intros Hagg. revert OFFSET X0.
  induction years as [|y years IH]; intros OFFSET X0 Hs Hb Hrun; simpl in Hrun.
  - by injection Hrun as <-.
  - destruct (DOY_of_year_sorted ga y Hagg) as [Hsel Hpos].
    destruct (decide (DOY_of_year ga y = [])) as [He|Hne].
    { rewrite He in Hrun. done. }
    destruct (py_max_ok _ Hne) as (m & Hm & Hin & Hmax).
    rewrite Hm in Hrun. simpl in Hrun.
    rewrite Forall_forall in Hb, Hpos, Hmax.
    apply IH in Hrun; [done| |].
    + apply StronglySorted_app_2; [|done|].
      * intros i j Hi Hj. apply list_elem_of_fmap in Hj as (k & -> & Hk).
        apply Hb in Hi. apply Hpos in Hk. lia.
      * eapply (StronglySorted_fmap _ Z.lt Z.lt); [|exact Hsel].
        intros; lia.
    + apply Forall_app. split; apply Forall_forall.
      * intros i Hi. apply Hb in Hi. apply Hpos in Hin. lia.
      * intros j Hj. apply list_elem_of_fmap in Hj as (k & -> & Hk).
        apply Hmax in Hk. lia.
Qed.

Lemma to_years_increasing (l : list Z) :
  StronglySorted Z.lt l -> StronglySorted Qlt (to_years l).
Proof.
  unfold to_years. apply (StronglySorted_fmap _ Z.lt Qlt).
  intros a b Hab. apply Qmult_lt_compat_r; [reflexivity|].
  by rewrite <- Zlt_Qlt.
Qed.

Lemma flatten_expand_dims_1 {A} (v : list A) : flatten (expand_dims_1 v) = v.
Proof.
  unfold flatten, expand_dims_1. induction v as [|a v IH]; [done|].
  simpl. by rewrite IH.
Qed.

End increasing_facts.

(** ** The axes have one entry per aggregated row *)

Section length_facts.

Implicit Types (ga : list average_row) (years : list Z).

Lemma X_loop_length ga years OFFSET X0 X1 :
  X_loop ga years OFFSET X0 = Ok X1 ->
  length X1
  = (length X0 + sum_list (map (fun y => length (DOY_of_year ga y)) years))%nat.
Proof.
  revert OFFSET X0. induction years as [|y years IH]; intros OFFSET X0 Hrun;
    simpl in Hrun.
  - injection Hrun as <-. simpl. lia.
  - destruct (py_max (DOY_of_year ga y)) as [m|e]; [|done]. simpl in Hrun.
    apply IH in Hrun. rewrite Hrun, length_app, length_map. simpl. lia.
Qed.

Lemma sum_list_indicator (f : Z -> nat) years (y0 : Z) :
  NoDup years ->
  sum_list (map (fun y => ((if (y0 =? y)%Z then 1 else 0) + f y)%nat) years)
  = ((if bool_decide (y0 ∈ years) then 1 else 0)
     + sum_list (map f years))%nat.
Proof.
  induction 1 as [|y years Hy Hnd IH]; [done|]. simpl. rewrite IH.
  destruct (Z.eqb_spec y0 y) as [->|Hne].
  - rewrite (bool_decide_eq_false_2 (y ∈ years)) by done.
    rewrite bool_decide_eq_true_2 by left. lia.
  - destruct (decide (y0 ∈ years)) as [Hin|Hin].
    + rewrite !bool_decide_eq_true_2; [lia|by right|done].
    + rewrite !bool_decide_eq_false_2; [lia| |done].
      rewrite not_elem_of_cons. done.
Qed.

(** Selecting the rows year by year, over distinct years that cover the
    table, visits every row once. *)
Lemma DOY_of_year_partition ga years :
  NoDup years ->
  (forall r, r ∈ ga -> YEAR r ∈ years) ->
  sum_list (map (fun y => length (DOY_of_year ga y)) years) = length ga.
Proof.
  intros Hnd. induction ga as [|r ga IH]; intros Hcov.
  - unfold DOY_of_year. simpl. clear. induction years; [done|]. by simpl.
  - assert (Hin : bool_decide (YEAR r ∈ years) = true).
    { apply bool_decide_eq_true_2, Hcov. left. }
    change (length (r :: ga)) with (1 + length ga)%nat.
    rewrite <- IH by (intros; apply Hcov; by right).
    transitivity ((if bool_decide (YEAR r ∈ years) then 1 else 0)
       + sum_list (map (fun y => length (DOY_of_year ga y)) years))%nat;
      [|by rewrite Hin].
    rewrite <- sum_list_indicator by done. f_equal.
    apply map_ext. intros y. unfold DOY_of_year. simpl.
    destruct (Z.eqb_spec (YEAR r) y); simpl; lia.
Qed.

Lemma pseudo_days_length ga X1 :
  pseudo_days ga = Ok X1 -> length X1 = length ga.
Proof.
  intros Hrun. apply X_loop_length in Hrun. rewrite Hrun. simpl.
  apply DOY_of_year_partition; [apply np_unique_NoDup|].
  intros r Hr. apply np_unique_elem, list_elem_of_fmap. by exists r.
Qed.

Lemma init_lengths (grid_frame : list grid_row) (g : GridData) :
  init grid_frame = Ok g ->
  length (X g) = length (grid_average g)
  /\ length (Y g) = length (grid_average g).
Proof.
  unfold init. intros Hinit.
  destruct (pseudo_days (make_grid_average grid_frame)) as [X1|e] eqn:HX;
    [|done].
  simpl in Hinit. injection Hinit as <-. simpl.
  unfold expand_dims_1, to_years, to_GW. rewrite !length_map.
  split; [by apply pseudo_days_length|done].
Qed.

End length_facts.

(** C2. Whenever every date of the frame is a calendar date, the
    constructor completes and the time axis [self.X] it builds runs over
    the whole dataset, one element per row of the daily aggregate, and is
    strictly increasing: each element is strictly greater than the
    previous one, and so strictly smaller than every later one, within a
    year and across years. *)
Theorem X_strictly_increasing (grid_frame : list grid_row) :
  Forall (fun r => valid_date (DATE r)) grid_frame ->
  exists g, init grid_frame = Ok g
    /\ length (X g) = length (grid_average g)
    /\ length (flatten (X g)) = length (grid_average g)
    /\ (forall (i : nat) (a b : Q),
          flatten (X g) !! i = Some a -> flatten (X g) !! S i = Some b ->
          (a < b)%Q)
    /\ forall (i j : nat) (a b : Q),
         (i < j)%nat ->
         flatten (X g) !! i = Some a -> flatten (X g) !! j = Some b ->
         (a < b)%Q.
Proof.
  intros Hv. unfold init.
  destruct (pseudo_days_ok (make_grid_average grid_frame)) as [X1 HX].
  rewrite HX. simpl. eexists. split; [reflexivity|]. simpl.
  rewrite flatten_expand_dims_1.
  assert (Hlen : length (to_years X1)
                 = length (make_grid_average grid_frame)).
  { unfold to_years. rewrite length_map. by apply pseudo_days_length. }
  assert (Hall : forall (i j : nat) (a b : Q),
             (i < j)%nat ->
             to_years X1 !! i = Some a -> to_years X1 !! j = Some b ->
             (a < b)%Q).
  { intros i j a b Hij Hi Hj.
    eapply StronglySorted_lookup; [|exact Hij|exact Hi|exact Hj].
    apply to_years_increasing.
    eapply X_loop_increasing; [|constructor|constructor|exact HX].
    by apply make_grid_average_aggregated. }
  split; [by unfold expand_dims_1; rewrite length_map|].
  split; [exact Hlen|].
  split; [|exact Hall].
  intros i a b Hi Hj. apply (Hall i (S i) a b); [lia|exact Hi|exact Hj].
Qed.

(** ** Running the loaders *)

Section loader_facts.

Implicit Types (env : environment) (self : GridData).

Ltac run_step :=
  cbv beta iota zeta
      delta [then_ set_attr get_attr lift ret raise get_X get_Y with_attrs
             attrs X Y grid grid_average as_num as_int as_array
             call_predict subscript copy_key fst snd].

Ltac run_method :=
  run_step;
  repeat (first [ rewrite lookup_insert_eq
                | rewrite lookup_insert_ne by done ];
          run_step).

Lemma load_model_run env model_file forecast_limit self predict u :
  import_GPy env = Ok u ->
  files env !! model_file = Some (PModel predict) ->
  load_model env model_file forecast_limit self
  = Return tt (with_attrs self
                 (load_model_attrs predict (default 7%Q forecast_limit) self)).
Proof.
  intros Himp Hfile. unfold load_model, load_pickle. rewrite Himp.
  run_method. rewrite Hfile. run_method. reflexivity.
Qed.

(** With GPy imported, [load_model] returns only if the file holds a
    model, and then in the state of [load_model_run]. *)
Lemma load_model_returns env model_file forecast_limit self u s' :
  import_GPy env = Ok u ->
  load_model env model_file forecast_limit self = Return tt s' ->
  exists predict,
    files env !! model_file = Some (PModel predict)
    /\ s' = with_attrs self
              (load_model_attrs predict (default 7%Q forecast_limit) self).
Proof.
  intros Himp Hrun.
  destruct (files env !! model_file) as [[predict|d]|] eqn:Hfile.
  - exists predict. split; [done|].
    rewrite (load_model_run _ _ _ _ predict u) in Hrun by done.
    by injection Hrun as <-.
  - revert Hrun. unfold load_model, load_pickle. rewrite Himp.
    run_method. rewrite Hfile. run_method. done.
  - revert Hrun. unfold load_model, load_pickle. rewrite Himp.
    run_method. rewrite Hfile. run_method. done.
Qed.

Lemma load_model_output_run env output_file self d (a : string -> array) :
  files env !! output_file = Some (PDict d) ->
  (forall k, k ∈ prediction_attributes -> d !! k = Some (a k)) ->
  load_model_output env output_file self
  = Return tt (with_attrs self (load_model_output_attrs d a self)).
Proof.
  intros Hfile Hd. unfold load_model_output, load_pickle.
  run_method. rewrite Hfile. run_method.
  assert (Hk : Forall (fun k => d !! k = Some (a k)) prediction_attributes).
  { by apply Forall_forall. }
  unfold prediction_attributes in Hk.
  repeat (apply Forall_cons in Hk as [-> Hk]; run_method).
  reflexivity.
Qed.

Lemma lookup_load_model_attrs predict limit self :
  load_model_attrs predict limit self !! "COVID_CUTOFF" = Some (VInt 1881)
  /\ load_model_attrs predict limit self !! "forecast_limit"
     = Some (VNum limit)
  /\ load_model_attrs predict limit self !! "X_PREDICT"
     = Some (VArray (expand_dims_1 (np_linspace 0 limit 1000)))
  /\ load_model_attrs predict limit self !! "X_COVID"
     = Some (VArray (slice_from 1881 (X self)))
  /\ load_model_attrs predict limit self !! "Y_COVID"
     = Some (VArray (slice_from 1881 (Y self))).
Proof.
  unfold load_model_attrs.
  repeat split; repeat (rewrite lookup_insert_ne by done);
    by rewrite lookup_insert_eq.
Qed.

Lemma load_model_attrs_arrays predict limit self name :
  name ∈ prediction_attributes ->
  exists a, load_model_attrs predict limit self !! name = Some (VArray a).
Proof.
  intros Hin. unfold prediction_attributes in Hin. unfold load_model_attrs.
  repeat (apply elem_of_cons in Hin as [->|Hin];
          [eexists; repeat (rewrite lookup_insert_ne by done);
           by rewrite lookup_insert_eq|]).
  by apply elem_of_nil in Hin.
Qed.

Lemma lookup_load_model_output_attrs d (a : string -> array) self :
  load_model_output_attrs d a self !! "COVID_CUTOFF" = Some (VInt 1881)
  /\ forall name, name ∈ prediction_attributes ->
       load_model_output_attrs d a self !! name = Some (VArray (a name)).
Proof.
  unfold load_model_output_attrs. split.
  - repeat (rewrite lookup_insert_ne by done). by rewrite lookup_insert_eq.
  - intros name Hin. unfold prediction_attributes in Hin.
    repeat (apply elem_of_cons in Hin as [->|Hin];
            [repeat (rewrite lookup_insert_ne by done);
             by rewrite lookup_insert_eq|]).
    by apply elem_of_nil in Hin.
Qed.

End loader_facts.

Ltac in_prediction_attributes :=
  unfold prediction_attributes;
  repeat first [ apply list_elem_of_here | apply list_elem_of_further ].

(** ** [np.linspace] *)

Section linspace_facts.

Implicit Types (start stop : Q) (num i : nat).

Lemma np_linspace_length start stop num :
  length (np_linspace start stop num) = num.
Proof.
  unfold np_linspace. destruct (1 <? num)%nat;
    rewrite ?length_insert, length_map, length_seq; done.
Qed.

Lemma np_linspace_last start stop num :
  (1 < num)%nat -> np_linspace start stop num !! (num - 1)%nat = Some stop.
Proof.
  intros Hn. unfold np_linspace.
  destruct (Nat.ltb_spec 1 num) as [_|?]; [|lia].
  apply list_lookup_insert_eq. rewrite length_map, length_seq. lia.
Qed.

Lemma np_linspace_inner start stop num i :
  (S i < num)%nat ->
  np_linspace start stop num !! i
  = Some (inject_Z (Z.of_nat i)
          * ((stop - start) / inject_Z (Z.of_nat (num - 1))) + start)%Q.
Proof.
  intros Hi. unfold np_linspace.
  destruct (Nat.ltb_spec 1 num) as [_|?]; [|lia].
  rewrite list_lookup_insert_ne by lia.
  rewrite list_lookup_fmap, lookup_seq_lt by lia. done.
Qed.

Lemma np_linspace_first start stop num :
  (1 < num)%nat ->
  exists x0, np_linspace start stop num !! 0%nat = Some x0 /\ (x0 == start)%Q.
Proof.
  intros Hn. rewrite np_linspace_inner by lia. eexists. split; [done|].
  simpl. ring.
Qed.

(** Consecutive samples are [(stop - start) / (num - 1)] apart. *)
Lemma np_linspace_spacing start stop num i a b :
  np_linspace start stop num !! i = Some a ->
  np_linspace start stop num !! S i = Some b ->
  (b - a == (stop - start) / inject_Z (Z.of_nat (num - 1)))%Q.
Proof.
  intros Ha Hb.
  assert (Hlt : (S i < num)%nat).
  { apply lookup_lt_Some in Hb. by rewrite np_linspace_length in Hb. }
  rewrite np_linspace_inner in Ha by done. injection Ha as <-.
  assert (Hk : ~ (inject_Z (Z.of_nat (num - 1)) == 0)%Q).
  { change 0%Q with (inject_Z 0). rewrite inject_Z_injective. lia. }
  destruct (decide (S i = num - 1)%nat) as [Heq|Hne].
  - rewrite Heq, np_linspace_last in Hb by lia. injection Hb as <-.
    replace (Z.of_nat i) with (Z.of_nat (num - 1) - 1) by lia.
    unfold Zminus. rewrite inject_Z_plus, inject_Z_opp.
    change (inject_Z 1) with 1%Q.
    revert Hk. generalize (inject_Z (Z.of_nat (num - 1))). intros k Hk.
    field. done.
  - rewrite np_linspace_inner in Hb by lia. injection Hb as <-.
    rewrite Nat2Z.inj_succ. unfold Z.succ. rewrite inject_Z_plus.
    change (inject_Z 1) with 1%Q.
    revert Hk. generalize (inject_Z (Z.of_nat (num - 1))). intros k Hk.
    field. done.
Qed.

End linspace_facts.




(** C7. A [load_model] call that runs to its end sets [X_PREDICT] to a
    column vector of exactly 1000 points, the first equal to 0, the last
    equal to the forecast limit, consecutive points [limit / 999] apart;
    a call that omits [forecast_limit] is a call with the limit 7. *)
Theorem X_PREDICT_is_linspace
        (env : environment) (model_file : string) (forecast_limit : option Q)
        (self s' : GridData) (u : unit) :
  import_GPy env = Ok u ->
  load_model env model_file forecast_limit self = Return tt s' ->
  let limit := default 7%Q forecast_limit in
  load_model env model_file None self = load_model env model_file (Some 7%Q) self
  /\ attrs s' !! "forecast_limit" = Some (VNum limit)
  /\ exists x_predict,
      attrs s' !! "X_PREDICT" = Some (VArray x_predict)
      /\ length x_predict = 1000%nat
      /\ Forall (fun row => length row = 1%nat) x_predict
      /\ (exists x0, flatten x_predict !! 0%nat = Some x0 /\ (x0 == 0)%Q)
      /\ flatten x_predict !! 999%nat = Some limit
      /\ forall (i : nat) (a b : Q),
           flatten x_predict !! i = Some a ->
           flatten x_predict !! S i = Some b ->
           (b - a == limit / 999)%Q.
Proof.
  intros Himp Hrun limit. split; [reflexivity|].
  destruct (load_model_returns _ _ _ _ _ _ Himp Hrun) as (predict & _ & ->).
  destruct (lookup_load_model_attrs predict limit self)
    as (_ & Hlimit & Hx & _).
  split; [exact Hlimit|].
  exists (expand_dims_1 (np_linspace 0 limit 1000)).
  split; [exact Hx|].
  rewrite flatten_expand_dims_1. unfold expand_dims_1.
  rewrite length_map, np_linspace_length. split; [done|]. split.
  { apply Forall_forall. intros row Hrow.
    apply list_elem_of_fmap in Hrow as (q & -> & _). done. }
  split; [apply np_linspace_first; lia|].
  split; [apply (np_linspace_last 0 limit 1000); lia|].
  intros i a b Ha Hb.
  rewrite (np_linspace_spacing _ _ _ _ _ _ Ha Hb).
  change (inject_Z (Z.of_nat (1000 - 1))) with 999%Q.
  unfold Qminus. by rewrite Qplus_0_r.
Qed.

Lemma X_PREDICT_is_linspace_witness :
  exists s',
    import_GPy sample_env = Ok tt
    /\ load_model sample_env "gp_model.pkl" None sample_object = Return tt s'
    /\ exists x_predict,
        attrs s' !! "X_PREDICT" = Some (VArray x_predict)
        /\ length x_predict = 1000%nat
        /\ flatten x_predict !! 999%nat = Some 7%Q.
Proof.
  pose proof (load_model_run sample_env "gp_model.pkl" None sample_object
                sample_predict tt eq_refl eq_refl) as Hrun.
  eexists. split; [reflexivity|]. split; [exact Hrun|].
  destruct (X_PREDICT_is_linspace sample_env "gp_model.pkl" None sample_object
              _ tt eq_refl Hrun)
    as (_ & _ & x_predict & Hx & Hlen & _ & _ & Hlast & _).
  exists x_predict. split; [exact Hx|]. split; [exact Hlen|exact Hlast].
Defined.

Lemma slice_from_nonneg {A} (n : Z) (a : list A) :
  0 <= n -> slice_from n a = drop (Z.to_nat n) a.
Proof. intros Hn. unfold slice_from. by destruct (Z.ltb_spec n 0); [lia|]. Qed.

(** C3. After a [load_model] call that runs to its end on a constructed
    object, [X_COVID] and [Y_COVID] both have as many rows as the daily
    aggregate has beyond row 1881: [total - 1881] rows when the aggregate
    has at least 1881 rows, none when it has at most 1881. *)
Theorem post_cutoff_slice_lengths
        (grid_frame : list grid_row) (g s' : GridData)
        (env : environment) (model_file : string) (forecast_limit : option Q)
        (u : unit) :
  init grid_frame = Ok g ->
  import_GPy env = Ok u ->
  load_model env model_file forecast_limit g = Return tt s' ->
  let total := length (grid_average g) in
  attrs s' !! "COVID_CUTOFF" = Some (VInt 1881)
  /\ exists x_covid y_covid,
      attrs s' !! "X_COVID" = Some (VArray x_covid)
      /\ attrs s' !! "Y_COVID" = Some (VArray y_covid)
      /\ length x_covid = length y_covid
      /\ Z.of_nat (length x_covid) = Z.max 0 (Z.of_nat total - 1881)
      /\ (x_covid = [] <-> (total <= 1881)%nat)
      /\ (y_covid = [] <-> (total <= 1881)%nat).
Proof.
  intros Hinit Himp Hrun total.
  destruct (load_model_returns _ _ _ _ _ _ Himp Hrun) as (predict & _ & ->).
  destruct (init_lengths _ _ Hinit) as [HX HY]. fold total in HX, HY.
  destruct (lookup_load_model_attrs predict (default 7%Q forecast_limit) g)
    as (Hcut & _ & _ & Hxc & Hyc).
  split; [exact Hcut|].
  exists (slice_from 1881 (X g)), (slice_from 1881 (Y g)).
  split; [exact Hxc|]. split; [exact Hyc|].
  rewrite !slice_from_nonneg by lia.
  rewrite !length_drop, HX, HY.
  split; [done|]. split; [lia|].
  split; (split; [intros H; apply (f_equal length) in H;
                  rewrite length_drop in H; simpl in H; lia
                 |intros H; apply drop_ge; lia]).
Qed.

(** ** The daily aggregate *)

Section aggregate_facts.

Lemma make_grid_average_length (l : list grid_row) :
  length (make_grid_average l) = length (remove_dups (map DATE l)).
Proof.
  rewrite <- (length_map avg_DATE), make_grid_average_dates.
  apply Permutation_length, NoDup_Permutation.
  - apply date_sorted_NoDup, groupby_DATE_sorted.
  - apply NoDup_remove_dups.
  - intros k. by rewrite groupby_DATE_keys, elem_of_remove_dups.
Qed.

Lemma make_grid_average_row (l : list grid_row) (r : average_row) :
  r ∈ make_grid_average l ->
  avg_DATE r ∈ map DATE l
  /\ DEMAND_AVERAGE r = np_mean (readings l (avg_DATE r))
  /\ YEAR r = year (avg_DATE r)
  /\ DOY r = dayofyear (avg_DATE r).
Proof.
  unfold make_grid_average. intros Hr.
  apply list_elem_of_fmap in Hr as ([k vs] & -> & Hin). simpl.
  split.
  - apply groupby_DATE_keys, list_elem_of_fmap. by exists (k, vs).
  - by rewrite (groupby_DATE_values _ _ _ Hin).
Qed.

Lemma init_grid_average (grid_frame : list grid_row) (g : GridData) :
  init grid_frame = Ok g -> grid_average g = make_grid_average grid_frame.
Proof.
  unfold init. intros Hinit.
  destruct (pseudo_days (make_grid_average grid_frame)); [|done].
  simpl in Hinit. by injection Hinit as <-.
Qed.

End aggregate_facts.

(** C5. The constructor completes on every frame, and the daily
    aggregate [self.grid_average] it builds has one row per distinct date
    of the frame, in strictly ascending date order, each row carrying the
    mean of the [ND] readings taken on its date. *)
Theorem grid_average_is_daily_mean (grid_frame : list grid_row) :
  exists g,
    init grid_frame = Ok g
    /\ length (grid_average g) = length (remove_dups (map DATE grid_frame))
    /\ StronglySorted date_lt (map avg_DATE (grid_average g))
    /\ (forall d, d ∈ map avg_DATE (grid_average g) <-> d ∈ map DATE grid_frame)
    /\ forall r, r ∈ grid_average g ->
         readings grid_frame (avg_DATE r) <> []
         /\ DEMAND_AVERAGE r
            = (Qsum (readings grid_frame (avg_DATE r))
               / inject_Z (Z.of_nat (length (readings grid_frame (avg_DATE r)))))%Q.
Proof.
  destruct (init_ok grid_frame) as [g Hg]. exists g. split; [done|].
  rewrite (init_grid_average _ _ Hg). split; [apply make_grid_average_length|].
  rewrite make_grid_average_dates.
  split; [apply groupby_DATE_sorted|]. split; [apply groupby_DATE_keys|].
  intros r Hr. apply make_grid_average_row in Hr as (Hin & Hmean & _).
  split; [|exact Hmean].
  rewrite readings_nil_iff. tauto.
Qed.

(** ** A frame of consecutive days *)

Section daily_frame_facts.

Lemma next_day_valid (d : date) : valid_date d -> valid_date (next_day d).
Proof.
  intros [Hm Hd]. unfold next_day.
  destruct (Z.ltb_spec (day d) (days_in_month (year d) (month d))).
  - split; simpl; lia.
  - destruct (Z.ltb_spec (month d) 12); split; simpl; try lia.
    pose proof (days_in_month_bounds (year d) (month d + 1)). lia.
Qed.

Lemma next_day_lt (d : date) : valid_date d -> date_lt d (next_day d).
Proof.
  intros [Hm Hd]. unfold next_day, date_lt.
  destruct (Z.ltb_spec (day d) (days_in_month (year d) (month d)));
    [simpl; lia|].
  destruct (Z.ltb_spec (month d) 12); simpl; lia.
Qed.

Lemma daily_frame_length (d : date) (nd : Q) (n : nat) :
  length (daily_frame d nd n) = n.
Proof. revert d. induction n as [|n IH]; intros d; simpl; [done|by rewrite IH]. Qed.

Lemma daily_frame_after (d : date) (nd : Q) (n : nat) :
  valid_date d ->
  Forall (date_lt d) (map DATE (daily_frame (next_day d) nd n)).
Proof.
  revert d. induction n as [|n IH]; intros d Hd; simpl; constructor.
  - by apply next_day_lt.
  - eapply Forall_impl; [apply IH; by apply next_day_valid|].
    intros d'. apply date_lt_trans. by apply next_day_lt.
Qed.

Lemma daily_frame_sorted (d : date) (nd : Q) (n : nat) :
  valid_date d -> StronglySorted date_lt (map DATE (daily_frame d nd n)).
Proof.
  revert d. induction n as [|n IH]; intros d Hd; simpl; constructor.
  - by apply IH, next_day_valid.
  - by apply daily_frame_after.
Qed.

(** A frame with one reading a day aggregates to one row a day. *)
Lemma daily_frame_average_length (d : date) (nd : Q) (n : nat) :
  valid_date d -> length (make_grid_average (daily_frame d nd n)) = n.
Proof.
  intros Hd. rewrite make_grid_average_length.
  rewrite <- (daily_frame_length d nd n) at 2.
  rewrite <- (length_map DATE (daily_frame d nd n)).
  apply Permutation_length, NoDup_Permutation.
  - apply NoDup_remove_dups.
  - by apply date_sorted_NoDup, daily_frame_sorted.
  - intros k. by rewrite elem_of_remove_dups.
Qed.

Lemma the_object_init (grid_frame : list grid_row) :
  init grid_frame = Ok (the_object (init grid_frame)).
Proof. by destruct (init_ok grid_frame) as [g ->]. Qed.

Lemma long_object_rows : length (grid_average long_object) = 2000%nat.
Proof.
  rewrite (init_grid_average long_frame) by apply the_object_init.
  apply daily_frame_average_length. split; simpl; lia.
Qed.

End daily_frame_facts.

Lemma post_cutoff_slice_lengths_witness :
  init long_frame = Ok long_object
  /\ import_GPy sample_env = Ok tt
  /\ length (grid_average long_object) = 2000%nat
  /\ exists s' x_covid y_covid,
      load_model sample_env "gp_model.pkl" None long_object = Return tt s'
      /\ attrs s' !! "X_COVID" = Some (VArray x_covid)
      /\ attrs s' !! "Y_COVID" = Some (VArray y_covid)
      /\ Z.of_nat (length x_covid) = 119
      /\ Z.of_nat (length y_covid) = 119.
Proof.
  pose proof (the_object_init long_frame) as Hinit.
  pose proof long_object_rows as Htotal.
  pose proof (load_model_run sample_env "gp_model.pkl" None long_object
                sample_predict tt eq_refl eq_refl) as Hrun.
  destruct (post_cutoff_slice_lengths long_frame long_object _ sample_env
              "gp_model.pkl" None tt Hinit eq_refl Hrun)
    as (_ & x_covid & y_covid & Hx & Hy & Hxy & Hlen & _).
  split; [exact Hinit|]. split; [reflexivity|]. split; [exact Htotal|].
  eexists; exists x_covid, y_covid.
  split; [exact Hrun|]. split; [exact Hx|]. split; [exact Hy|].
  rewrite <- Hxy, Hlen, Htotal. split; reflexivity.
Defined.

Lemma X_strictly_increasing_witness :
  Forall (fun r => valid_date (DATE r)) sample_frame
  /\ exists g, init sample_frame = Ok g
      /\ length (flatten (X g)) = 3%nat
      /\ (forall (i : nat) (a b : Q),
            flatten (X g) !! i = Some a -> flatten (X g) !! S i = Some b ->
            (a < b)%Q)
      /\ forall (i j : nat) (a b : Q),
           (i < j)%nat ->
           flatten (X g) !! i = Some a -> flatten (X g) !! j = Some b ->
           (a < b)%Q.
Proof.
  assert (Hv : Forall (fun r => valid_date (DATE r)) sample_frame).
  { repeat constructor; simpl; lia. }
  split; [exact Hv|].
  destruct (X_strictly_increasing sample_frame Hv)
    as (g & Hg & _ & Hlen & Hstep & Hall).
  exists g. split; [exact Hg|].
  split; [by rewrite Hlen, (init_grid_average _ _ Hg)|].
  split; [exact Hstep|exact Hall].
Defined.

(** ** The per-year palette of [plot_demand_bkh] *)

Section palette_facts.

Implicit Types (ga : list average_row) (years : list Z) (p : figure).

Lemma py_index_ok {A} (l : list A) (i : nat) :
  (i < length l)%nat -> exists a, py_index l i = Ok a /\ l !! i = Some a.
Proof.
  intros Hi. unfold py_index.
  destruct (lookup_lt_is_Some_2 l i Hi) as [a ->]. eauto.
Qed.

Lemma py_index_out_of_range {A} (l : list A) (i : nat) :
  (length l <= i)%nat -> py_index l i = Raise IndexError.
Proof. intros Hi. unfold py_index. by rewrite lookup_ge_None_2. Qed.

(** Past the end of the palette, the loop raises. *)
Lemma year_lines_raises ga years i p :
  (i <= length colors)%nat ->
  (length colors < i + length years)%nat ->
  year_lines ga years i p = Raise IndexError.
Proof.
  revert i p. induction years as [|y years IH]; intros i p Hle Hi;
    simpl in *.
  - lia.
  - destruct (decide (i < length colors)%nat) as [Hlt|Hge].
    + destruct (py_index_ok colors i Hlt) as (c & -> & _). simpl.
      apply IH; simpl in *; lia.
    + rewrite py_index_out_of_range by (simpl in *; lia). done.
Qed.

(** Within the palette, the loop adds one line per year, the [k]-th of
    them in the colour of position [i + k]. *)
Lemma year_lines_ok ga years i p :
  (i + length years <= length colors)%nat ->
  exists gl,
    year_lines ga years i p = Ok (add_glyph_list gl p)
    /\ length gl = length years
    /\ forall k g, gl !! k = Some g ->
         kind g = line /\ color g = colors !! (i + k)%nat.
Proof.
  revert i p. induction years as [|y years IH]; intros i p Hi; simpl in *.
  - exists []. split; [|done]. unfold add_glyph_list. simpl.
    rewrite app_nil_r. by destruct p.
  - destruct (py_index_ok colors i) as (c & -> & Hc); [simpl in *; lia|].
    simpl.
    edestruct (IH (S i)) as (gl & -> & Hlen & Hcol); [simpl in *; lia|].
    eexists (_ :: gl). split; [|split].
    + unfold add_glyph_list, add_glyph. simpl. by rewrite <- app_assoc.
    + simpl. by rewrite Hlen.
    + intros [|k] g Hg; simpl in Hg.
      * injection Hg as <-. simpl. by rewrite Nat.add_0_r.
      * apply Hcol in Hg. by rewrite Nat.add_succ_r.
Qed.

End palette_facts.

(** C9. [plot_demand_bkh] with [collapse=True] draws one line per
    distinct year, the [k]-th in the [k]-th colour of a palette of exactly
    six: with more than six distinct years the call raises [IndexError]
    and shows nothing, with at most six it completes. *)
Theorem plot_demand_palette_bound
        (self : GridData) (c : string) (figsize : Z * Z) :
  let distinct_years := length (remove_dups (map YEAR (grid_average self))) in
  length colors = 6%nat
  /\ ((6 < distinct_years)%nat
      <-> plot_demand_bkh true c figsize self = Raise IndexError)
  /\ ((distinct_years <= 6)%nat
      <-> exists p, plot_demand_bkh true c figsize self = Ok p)
  /\ forall p, plot_demand_bkh true c figsize self = Ok p ->
       length (glyphs p) = distinct_years
       /\ forall k g, glyphs p !! k = Some g ->
            kind g = line /\ color g = colors !! k.
Proof.
  intros distinct_years. split; [reflexivity|].
  assert (Hn : length (np_unique (map YEAR (grid_average self)))
               = distinct_years) by apply np_unique_length.
  unfold plot_demand_bkh.
  destruct (decide (distinct_years <= 6)%nat) as [Hle|Hgt].
  - destruct (year_lines_ok (grid_average self)
                (np_unique (map YEAR (grid_average self))) 0
                (new_figure (Some "datetime"%string) figsize))
      as (gl & -> & Hlen & Hcol).
    { rewrite Hn. simpl. lia. }
    simpl. split; [split; [lia|done]|]. split; [split; [eauto|done]|].
    intros p Hp. injection Hp as <-. simpl. split; [congruence|done].
  - rewrite year_lines_raises by (rewrite ?Hn; simpl; lia). simpl.
    split; [split; [done|lia]|]. split; [split; [lia|by intros [p ?]]|].
    intros p Hp. done.
Qed.

(** ** The discrepancy plot *)

Section discrepancy_facts.

Implicit Types (self : GridData) (cutoff : Z) (y_covid mean conf : array).

Lemma broadcast_same_length {A B C} (f : A -> B -> C) (a : list A) (b : list B) :
  length a = length b -> broadcast f a b = Ok (zip_with f a b).
Proof. intros H. unfold broadcast. by rewrite decide_True. Qed.

Lemma np_div_None (a d : Q) : np_div a d = None <-> (d == 0)%Q.
Proof.
  unfold np_div. destruct (Qeq_bool d 0) eqn:Hd.
  - apply Qeq_bool_iff in Hd. tauto.
  - apply Qeq_bool_neq in Hd. split; [done|tauto].
Qed.

Lemma np_div_Some (a d : Q) : ~ (d == 0)%Q -> np_div a d = Some (a / d)%Q.
Proof.
  intros Hd. unfold np_div. destruct (Qeq_bool d 0) eqn:Hb; [|done].
  apply Qeq_bool_iff in Hb. tauto.
Qed.

Lemma read_attr_int self name n :
  attrs self !! name = Some (VInt n) -> read_attr self name as_int = Ok n.
Proof. intros H. unfold read_attr. by rewrite H. Qed.

Lemma read_attr_array self name a :
  attrs self !! name = Some (VArray a) -> read_attr self name as_array = Ok a.
Proof. intros H. unfold read_attr. by rewrite H. Qed.

Lemma post_cutoff_dates_run self cutoff :
  attrs self !! "COVID_CUTOFF" = Some (VInt cutoff) ->
  post_cutoff_dates self
  = Ok (slice_from cutoff (map avg_DATE (grid_average self))).
Proof.
  intros H. unfold post_cutoff_dates. by rewrite (read_attr_int _ _ _ H).
Qed.

Lemma reference_line_run self cutoff :
  attrs self !! "COVID_CUTOFF" = Some (VInt cutoff) ->
  let window := slice_from cutoff (map avg_DATE (grid_average self)) in
  reference_line self
  = Ok {| kind := line;
          x_data := Dates window;
          y_data := Floats (replicate (length window) 1%Q);
          y2_data := None;
          line_width := None;
          alpha := None;
          legend_label := None;
          color := Some "black"%string;
          line_dash := Some "dashed"%string |}.
Proof.
  intros H window. unfold reference_line.
  by rewrite (post_cutoff_dates_run _ _ H).
Qed.

Lemma mean_line_run self cutoff y_covid mean :
  attrs self !! "COVID_CUTOFF" = Some (VInt cutoff) ->
  attrs self !! "Y_COVID" = Some (VArray y_covid) ->
  attrs self !! "Y_COVID_PREDICT_mean" = Some (VArray mean) ->
  length (flatten y_covid) = length (flatten mean) ->
  mean_line self
  = Ok {| kind := line;
          x_data := Dates (slice_from cutoff (map avg_DATE (grid_average self)));
          y_data := Quotients (zip_with np_div (flatten y_covid) (flatten mean));
          y2_data := None;
          line_width := None;
          alpha := None;
          legend_label := Some "Mean"%string;
          color := None;
          line_dash := None |}.
Proof.
  intros Hc Hy Hm Hlen. unfold mean_line.
  rewrite (post_cutoff_dates_run _ _ Hc). simpl.
  rewrite (read_attr_array _ _ _ Hy). simpl.
  rewrite (read_attr_array _ _ _ Hm). simpl.
  unfold np_divide. by rewrite broadcast_same_length.
Qed.

Lemma confidence_band_run self cutoff y_covid mean conf :
  attrs self !! "COVID_CUTOFF" = Some (VInt cutoff) ->
  attrs self !! "Y_COVID" = Some (VArray y_covid) ->
  attrs self !! "Y_COVID_PREDICT_mean" = Some (VArray mean) ->
  attrs self !! "Y_COVID_PREDICT_conf" = Some (VArray conf) ->
  length (flatten y_covid) = length (flatten mean) ->
  length (flatten conf) = length (flatten mean) ->
  confidence_band self
  = Ok {| kind := varea;
          x_data := Dates (slice_from cutoff (map avg_DATE (grid_average self)));
          y_data := Quotients (zip_with np_div (flatten y_covid)
                            (zip_with Qplus (flatten mean) (flatten conf)));
          y2_data := Some (Quotients (zip_with np_div (flatten y_covid)
                            (zip_with Qminus (flatten mean) (flatten conf))));
          line_width := None;
          alpha := Some (2 # 10)%Q;
          legend_label := Some "Confidence"%string;
          color := None;
          line_dash := None |}.
Proof.
  intros Hc Hy Hm Hf Hlen Hlen'. unfold confidence_band.
  rewrite (post_cutoff_dates_run _ _ Hc). simpl.
  rewrite (read_attr_array _ _ _ Hy). simpl.
  rewrite (read_attr_array _ _ _ Hm). simpl.
  rewrite (read_attr_array _ _ _ Hf). simpl.
  unfold np_add, np_subtract, np_divide.
  rewrite (broadcast_same_length Qplus) by done. simpl.
  rewrite (broadcast_same_length np_div)
    by (rewrite length_zip_with; lia). simpl.
  rewrite (broadcast_same_length Qminus) by done. simpl.
  rewrite (broadcast_same_length np_div)
    by (rewrite length_zip_with; lia). simpl.
  done.
Qed.

End discrepancy_facts.

Lemma loaded_object_run (conf : Q) :
  load_model_output (output_env conf) "gp_output.pkl" long_object
  = Return tt (loaded_object conf).
Proof.
  apply load_model_output_run; [reflexivity|].
  intros k Hk. unfold prediction_attributes in Hk.
  repeat (apply elem_of_cons in Hk as [->|Hk]; [reflexivity|]).
  by apply elem_of_nil in Hk.
Qed.

Lemma loaded_object_array (conf : Q) (name : string) :
  name ∈ prediction_attributes ->
  attrs (loaded_object conf) !! name = Some (VArray (sample_arrays conf name)).
Proof. apply lookup_load_model_output_attrs. Qed.

(** C8. When the object carries the cutoff and matching [Y_COVID] and
    [Y_COVID_PREDICT_mean] arrays (and a matching confidence array if the
    band is requested), [plot_demand_discrepancy_bkh] completes; its last
    two glyphs are a dashed reference line whose y-values are all 1 and
    the mean line whose y-value at every point is [Y_COVID] divided by
    [Y_COVID_PREDICT_mean] at that point; the x-values of both are the
    dates of the rows from index [COVID_CUTOFF] on. *)
Theorem discrepancy_mean_line
        (self : GridData) (figsize : Z * Z) (plot_confidence : bool)
        (cutoff : Z) (y_covid mean : array) :
  attrs self !! "COVID_CUTOFF" = Some (VInt cutoff) ->
  0 <= cutoff ->
  attrs self !! "Y_COVID" = Some (VArray y_covid) ->
  attrs self !! "Y_COVID_PREDICT_mean" = Some (VArray mean) ->
  length (flatten y_covid) = length (flatten mean) ->
  (plot_confidence = true ->
   exists conf, attrs self !! "Y_COVID_PREDICT_conf" = Some (VArray conf)
                /\ length (flatten conf) = length (flatten mean)) ->
  exists p band reference mean_l ones ratio,
    plot_demand_discrepancy_bkh figsize plot_confidence self = Ok p
    /\ glyphs p = band ++ [reference; mean_l]
    /\ length band = (if plot_confidence then 1 else 0)%nat
    /\ x_data reference
       = Dates (drop (Z.to_nat cutoff) (map avg_DATE (grid_average self)))
    /\ x_data mean_l = x_data reference
    /\ kind reference = line /\ line_dash reference = Some "dashed"%string
    /\ y_data reference = Floats ones
    /\ length ones
       = length (drop (Z.to_nat cutoff) (map avg_DATE (grid_average self)))
    /\ Forall (fun v => v = 1%Q) ones
    /\ kind mean_l = line /\ legend_label mean_l = Some "Mean"%string
    /\ y_data mean_l = Quotients ratio
    /\ length ratio = length (flatten y_covid)
    /\ forall (i : nat) (a m : Q),
         flatten y_covid !! i = Some a -> flatten mean !! i = Some m ->
         ratio !! i = Some (np_div a m)
         /\ (~ (m == 0)%Q -> ratio !! i = Some (Some (a / m)%Q)).
Proof.
  intros Hc Hpos Hy Hm Hlen Hconf.
  pose proof (reference_line_run _ _ Hc) as Href.
  pose proof (mean_line_run _ _ _ _ Hc Hy Hm Hlen) as Hmean.
  rewrite slice_from_nonneg in Href, Hmean by done. simpl in Href.
  assert (Hband : exists band,
             (if plot_confidence
              then g <-! confidence_band self;
                   Ok (add_glyph g (new_figure (Some "datetime"%string) figsize))
              else Ok (new_figure (Some "datetime"%string) figsize))
             = Ok (add_glyph_list band
                     (new_figure (Some "datetime"%string) figsize))
             /\ length band = (if plot_confidence then 1 else 0)%nat).
  { destruct plot_confidence.
    - destruct Hconf as (conf & Hf & Hlen'); [done|].
      rewrite (confidence_band_run _ _ _ _ _ Hc Hy Hm Hf Hlen Hlen').
      eexists [_]. split; [reflexivity|done].
    - exists []. split; [reflexivity|done]. }
  destruct Hband as (band & Hband & Hblen).
  unfold plot_demand_discrepancy_bkh. rewrite Hband. simpl.
  rewrite Href. simpl. rewrite Hmean. simpl.
  eexists _, band, _, _, _, _. split; [reflexivity|]. simpl.
  split; [by rewrite <- app_assoc|]. split; [done|].
  split; [reflexivity|]. split; [reflexivity|]. split; [reflexivity|].
  split; [reflexivity|]. split; [reflexivity|].
  split; [by rewrite length_replicate|].
  split; [apply Forall_forall; intros v Hv;
          by apply elem_of_replicate in Hv as [-> _]|].
  split; [reflexivity|]. split; [reflexivity|]. split; [reflexivity|].
  split; [rewrite length_zip_with; lia|].
  intros i a m Ha Hmi.
  assert (Hr : zip_with np_div (flatten y_covid) (flatten mean) !! i
               = Some (np_div a m)).
  { rewrite lookup_zip_with, Ha. simpl. by rewrite Hmi. }
  split; [exact Hr|]. intros Hne. by rewrite Hr, np_div_Some.
Qed.

Lemma discrepancy_mean_line_witness :
  load_model_output (output_env 2) "gp_output.pkl" long_object
  = Return tt (loaded_object 2)
  /\ exists p band reference mean_l ones ratio,
      plot_demand_discrepancy_bkh (600, 300) true (loaded_object 2) = Ok p
      /\ glyphs p = band ++ [reference; mean_l]
      /\ x_data reference
         = Dates (drop (Z.to_nat 1881)
                       (map avg_DATE (grid_average (loaded_object 2))))
      /\ y_data reference = Floats ones
      /\ Forall (fun v => v = 1%Q) ones
      /\ y_data mean_l = Quotients ratio
      /\ length ratio = 119%nat
      /\ ratio !! 0%nat = Some (Some (30 / 32)%Q).
Proof.
  split; [apply loaded_object_run|].
  destruct (discrepancy_mean_line (loaded_object 2) (600, 300) true 1881
              (column_of 119 30) (column_of 119 32))
    as (p & band & reference & mean_l & ones & ratio & Hp & Hg & _ & Hx & _
        & _ & _ & Hy & _ & Hones & _ & _ & Hr & Hrl & Hri).
  - apply lookup_load_model_output_attrs.
  - lia.
  - apply (loaded_object_array 2 "Y_COVID"). in_prediction_attributes.
  - apply (loaded_object_array 2 "Y_COVID_PREDICT_mean").
    in_prediction_attributes.
  - reflexivity.
  - intros _. exists (column_of 119 2). split; [|reflexivity].
    apply (loaded_object_array 2 "Y_COVID_PREDICT_conf").
    in_prediction_attributes.
  - exists p, band, reference, mean_l, ones, ratio.
    split; [exact Hp|]. split; [exact Hg|]. split; [exact Hx|].
    split; [exact Hy|]. split; [exact Hones|]. split; [exact Hr|].
    split; [exact Hrl|].
    destruct (Hri 0%nat 30%Q 32%Q eq_refl eq_refl) as [_ H0].
    apply H0. discriminate.
Defined.

(** C10. With [plot_confidence=True] the band is computed by dividing
    [Y_COVID] pointwise by [mean + conf] and by [mean - conf], whatever
    those divisors are: the call completes, and a quotient of the band is
    a number exactly where its divisor is not zero, that is where [conf]
    differs from [-mean] (upper edge) and from [mean] (lower edge); where
    [conf] equals [mean] the lower divisor is zero and the quotient is
    not a number. *)
Theorem confidence_band_divisors
        (self : GridData) (figsize : Z * Z)
        (cutoff : Z) (y_covid mean conf : array) :
  attrs self !! "COVID_CUTOFF" = Some (VInt cutoff) ->
  attrs self !! "Y_COVID" = Some (VArray y_covid) ->
  attrs self !! "Y_COVID_PREDICT_mean" = Some (VArray mean) ->
  attrs self !! "Y_COVID_PREDICT_conf" = Some (VArray conf) ->
  length (flatten y_covid) = length (flatten mean) ->
  length (flatten conf) = length (flatten mean) ->
  exists p band rest upper lower,
    plot_demand_discrepancy_bkh figsize true self = Ok p
    /\ glyphs p = band :: rest
    /\ kind band = varea
    /\ y_data band = Quotients upper
    /\ y2_data band = Some (Quotients lower)
    /\ (forall (i : nat) (a m c : Q),
          flatten y_covid !! i = Some a ->
          flatten mean !! i = Some m ->
          flatten conf !! i = Some c ->
          upper !! i = Some (np_div a (m + c))
          /\ lower !! i = Some (np_div a (m - c))
          /\ (np_div a (m + c) = None <-> (m + c == 0)%Q)
          /\ (np_div a (m - c) = None <-> (m - c == 0)%Q)
          /\ ((m + c == 0)%Q <-> (c == - m)%Q)
          /\ ((m - c == 0)%Q <-> (c == m)%Q))
    /\ ((forall q, q ∈ upper ++ lower -> is_Some q)
        <-> forall (i : nat) (m c : Q),
              flatten mean !! i = Some m -> flatten conf !! i = Some c ->
              ~ (c == - m)%Q /\ ~ (c == m)%Q).
Proof.
  intros Hc Hy Hm Hf Hlen Hlen'.
  pose proof (confidence_band_run _ _ _ _ _ Hc Hy Hm Hf Hlen Hlen') as Hband.
  pose proof (reference_line_run _ _ Hc) as Href. simpl in Href.
  pose proof (mean_line_run _ _ _ _ Hc Hy Hm Hlen) as Hmean.
  unfold plot_demand_discrepancy_bkh.
  rewrite Hband. simpl. rewrite Href. simpl. rewrite Hmean. simpl.
  eexists _, _, _, _, _. split; [reflexivity|]. simpl.
  split; [reflexivity|]. split; [reflexivity|]. split; [reflexivity|].
  split; [reflexivity|].
  assert (Hpoint : forall (i : nat) (a m c : Q),
    flatten y_covid !! i = Some a ->
    flatten mean !! i = Some m ->
    flatten conf !! i = Some c ->
    zip_with np_div (flatten y_covid)
      (zip_with Qplus (flatten mean) (flatten conf)) !! i
    = Some (np_div a (m + c))
    /\ zip_with np_div (flatten y_covid)
         (zip_with Qminus (flatten mean) (flatten conf)) !! i
       = Some (np_div a (m - c))).
  { intros i a m c Ha Hmi Hci.
    rewrite !lookup_zip_with, Ha. simpl. by rewrite Hmi, Hci. }
  assert (Hzero : forall m c : Q,
    ((m + c == 0)%Q <-> (c == - m)%Q) /\ ((m - c == 0)%Q <-> (c == m)%Q)).
  { intros m c. split; split; intros H; lra. }
  split.
  { intros i a m c Ha Hmi Hci.
    destruct (Hpoint i a m c Ha Hmi Hci) as [Hu Hl].
    destruct (Hzero m c) as [Hz1 Hz2].
    split; [exact Hu|]. split; [exact Hl|].
    split; [apply np_div_None|]. split; [apply np_div_None|]. done. }
  split.
  - intros Hall i m c Hmi Hci.
    destruct (lookup_lt_is_Some_2 (flatten y_covid) i) as [a Ha].
    { rewrite Hlen. by eapply lookup_lt_Some. }
    destruct (Hpoint i a m c Ha Hmi Hci) as [Hu Hl].
    destruct (Hzero m c) as [Hz1 Hz2]. split.
    + rewrite <- Hz1, <- (np_div_None a). intros Hnone.
      destruct (Hall (np_div a (m + c))) as [q Hq]; [|congruence].
      apply elem_of_app. left. by eapply list_elem_of_lookup_2.
    + rewrite <- Hz2, <- (np_div_None a). intros Hnone.
      destruct (Hall (np_div a (m - c))) as [q Hq]; [|congruence].
      apply elem_of_app. right. by eapply list_elem_of_lookup_2.
  - intros Hne q Hq.
    assert (Hcase : exists (i : nat) (a m c : Q),
      flatten y_covid !! i = Some a /\ flatten mean !! i = Some m
      /\ flatten conf !! i = Some c
      /\ (q = np_div a (m + c) \/ q = np_div a (m - c))).
    { apply elem_of_app in Hq as [Hq|Hq];
        apply list_elem_of_lookup in Hq as [i Hi];
        apply lookup_zip_with_Some in Hi as (a & d & -> & Ha & Hd);
        apply lookup_zip_with_Some in Hd as (m & c & -> & Hmi & Hci);
        exists i, a, m, c; tauto. }
    destruct Hcase as (i & a & m & c & Ha & Hmi & Hci & Hq').
    destruct (Hne i m c Hmi Hci) as [Hn1 Hn2].
    destruct (Hzero m c) as [Hz1 Hz2].
    destruct Hq' as [-> | ->].
    + rewrite np_div_Some; [done|]. by rewrite Hz1.
    + rewrite np_div_Some; [done|]. by rewrite Hz2.
Qed.

Lemma confidence_band_divisors_witness :
  load_model_output (output_env 32) "gp_output.pkl" long_object
  = Return tt (loaded_object 32)
  /\ exists p band rest upper lower,
      plot_demand_discrepancy_bkh (600, 300) true (loaded_object 32) = Ok p
      /\ glyphs p = band :: rest
      /\ y_data band = Quotients upper
      /\ y2_data band = Some (Quotients lower)
      /\ upper !! 0%nat = Some (Some (30 / (32 + 32))%Q)
      /\ lower !! 0%nat = Some None.
Proof.
  split; [apply loaded_object_run|].
  destruct (confidence_band_divisors (loaded_object 32) (600, 300) 1881
              (column_of 119 30) (column_of 119 32) (column_of 119 32))
    as (p & band & rest & upper & lower & Hp & Hg & _ & Hu & Hl & Hpt & _).
  - apply lookup_load_model_output_attrs.
  - apply (loaded_object_array 32 "Y_COVID"). in_prediction_attributes.
  - apply (loaded_object_array 32 "Y_COVID_PREDICT_mean").
    in_prediction_attributes.
  - apply (loaded_object_array 32 "Y_COVID_PREDICT_conf").
    in_prediction_attributes.
  - reflexivity.
  - reflexivity.
  - exists p, band, rest, upper, lower.
    split; [exact Hp|]. split; [exact Hg|]. split; [exact Hu|].
    split; [exact Hl|].
    destruct (Hpt 0%nat 30%Q 32%Q 32%Q eq_refl eq_refl eq_refl)
      as (H1 & H2 & _).
    split; [exact H1|exact H2].
Defined.

(** ** Unit conversions *)

Section conversion_facts.

Lemma pseudo_days_two_years (ga : list average_row) (y1 y2 m1 : Z) :
  np_unique (map YEAR ga) = [y1; y2] ->
  py_max (DOY_of_year ga y1) = Ok m1 ->
  pseudo_days ga
  = Ok (DOY_of_year ga y1 ++ map (fun i => m1 + i) (DOY_of_year ga y2)).
Proof.
  intros Hy Hm. unfold pseudo_days. rewrite Hy. simpl. rewrite Hm. simpl.
  destruct (py_max_ok (DOY_of_year ga y2)) as (m2 & -> & _).
  { apply DOY_of_year_nonempty, np_unique_elem. rewrite Hy.
    right; left. }
  simpl. f_equal. f_equal. by rewrite map_id.
Qed.

Lemma init_axes (grid_frame : list grid_row) (g : GridData) :
  init grid_frame = Ok g ->
  exists days,
    pseudo_days (grid_average g) = Ok days
    /\ X g = expand_dims_1 (to_years days)
    /\ Y g = expand_dims_1 (to_GW (map DEMAND_AVERAGE (grid_average g))).
Proof.
  unfold init. intros Hinit.
  destruct (pseudo_days (make_grid_average grid_frame)) as [days|] eqn:Hd;
    [|done].
  simpl in Hinit. injection Hinit as <-. simpl. eauto.
Qed.

End conversion_facts.

(** C6. The constructor divides every pseudo-day index by 365 to get
    [self.X] and every mean demand by 1000 to get [self.Y]; a mean of
    30000 MW gives 30 GW; and when the table spans two years, the first
    with a greatest day-of-year of 365, a day-of-year 366 of the second
    has pseudo-day 731 and [X = 731/365], between 2.0027 and 2.0028. *)
Theorem unit_conversions (grid_frame : list grid_row) :
  exists g days,
    init grid_frame = Ok g
    /\ pseudo_days (grid_average g) = Ok days
    /\ length days = length (grid_average g)
    /\ (forall i : nat,
          X g !! i = (fun d => [(inject_Z d / 365)%Q]) <$> days !! i)
    /\ (forall i : nat,
          Y g !! i
          = (fun r => [(DEMAND_AVERAGE r / 1000)%Q]) <$> grid_average g !! i)
    /\ (forall (i : nat) (r : average_row),
          grid_average g !! i = Some r ->
          (DEMAND_AVERAGE r == 30000)%Q ->
          exists y, Y g !! i = Some [y] /\ (y == 30)%Q)
    /\ (forall (y1 y2 : Z) (i : nat),
          np_unique (map YEAR (grid_average g)) = [y1; y2] ->
          py_max (DOY_of_year (grid_average g) y1) = Ok 365 ->
          DOY_of_year (grid_average g) y2 !! i = Some 366 ->
          let row := (length (DOY_of_year (grid_average g) y1) + i)%nat in
          days !! row = Some 731
          /\ exists x, X g !! row = Some [x]
               /\ (x == 731 / 365)%Q
               /\ (20027 # 10000 < x)%Q /\ (x < 20028 # 10000)%Q).
Proof.
  destruct (init_ok grid_frame) as [g Hg].
  destruct (init_axes _ _ Hg) as (days & Hdays & HX & HY).
  exists g, days. split; [done|]. split; [done|].
  split; [by apply pseudo_days_length|].
  assert (HXi : forall i : nat,
    X g !! i = (fun d => [(inject_Z d / 365)%Q]) <$> days !! i).
  { intros i. rewrite HX. unfold expand_dims_1, to_years.
    rewrite !list_lookup_fmap. by destruct (days !! i). }
  assert (HYi : forall i : nat,
    Y g !! i
    = (fun r => [(DEMAND_AVERAGE r / 1000)%Q]) <$> grid_average g !! i).
  { intros i. rewrite HY. unfold expand_dims_1, to_GW.
    rewrite !list_lookup_fmap. by destruct (grid_average g !! i). }
  split; [exact HXi|]. split; [exact HYi|]. split.
  - intros i r Hr Hmean. rewrite HYi, Hr. simpl. eexists. split; [done|].
    rewrite Hmean. reflexivity.
  - intros y1 y2 i Hy Hm Hi row.
    assert (Hrow : days !! row = Some 731).
    { rewrite (pseudo_days_two_years _ _ _ _ Hy Hm) in Hdays.
      injection Hdays as <-. unfold row.
      rewrite lookup_app_r by lia.
      replace (length (DOY_of_year (grid_average g) y1) + i
               - length (DOY_of_year (grid_average g) y1))%nat with i by lia.
      rewrite list_lookup_fmap, Hi. reflexivity. }
    split; [exact Hrow|]. rewrite HXi, Hrow. simpl.
    eexists. split; [done|]. split; [reflexivity|]. split; reflexivity.
Qed.

Lemma unit_conversions_witness :
  exists g days,
    init year_end_frame = Ok g
    /\ pseudo_days (grid_average g) = Ok days
    /\ (exists r y, grid_average g !! 1%nat = Some r
                    /\ (DEMAND_AVERAGE r == 30000)%Q
                    /\ Y g !! 1%nat = Some [y] /\ (y == 30)%Q)
    /\ DOY_of_year (grid_average g) 2016 !! 0%nat = Some 366
    /\ days !! 1%nat = Some 731
    /\ exists x, X g !! 1%nat = Some [x]
         /\ (x == 731 / 365)%Q
         /\ (20027 # 10000 < x)%Q /\ (x < 20028 # 10000)%Q.
Proof.
  destruct (unit_conversions year_end_frame)
    as (g & days & Hg & Hdays & _ & _ & _ & HGW & Hyears).
  exists g, days. split; [exact Hg|]. split; [exact Hdays|].
  vm_compute in Hg. injection Hg as <-.
  split.
  - destruct (HGW 1%nat _ eq_refl) as (y & Hy & Hy30); [reflexivity|].
    eexists _, y. split; [reflexivity|]. split; [reflexivity|].
    split; [exact Hy|exact Hy30].
  - split; [reflexivity|].
    exact (Hyears 2015 2016 0%nat eq_refl eq_refl eq_refl).
Defined.

(** The year-end frame, run through the constructor. *)
Example year_end_axes :
  exists g,
    init year_end_frame = Ok g
    /\ map DOY (grid_average g) = [365; 366]
    /\ np_unique (map YEAR (grid_average g)) = [2015; 2016]
    /\ py_max (DOY_of_year (grid_average g) 2015) = Ok 365
    /\ pseudo_days (grid_average g) = Ok [365; 731]
    /\ X g = [[(365 / 365)%Q]; [(731 / 365)%Q]]
    /\ Y g = [[(30000 / 1 / 1000)%Q]; [(30000 / 1 / 1000)%Q]].
Proof. eexists. split; [vm_compute; reflexivity|]. repeat split. Qed.

(** ** The two loaders *)

Section equivalence_facts.

Implicit Types (self : GridData) (name : string).

Lemma prediction_attributes_NoDup : NoDup prediction_attributes.
Proof. apply (bool_decide_unpack _). reflexivity. Qed.

Ltac split_insert H :=
  rewrite lookup_insert in H;
  case_decide;
  [ subst; first [ by in_prediction_attributes | discriminate H ] | ].

(** On an object without attributes, [load_model] leaves arrays under
    the names of [prediction_attributes] and under no other name. *)
Lemma holds_array_load_model self predict limit name :
  attrs self = ∅ ->
  holds_array (with_attrs self (load_model_attrs predict limit self)) name
  <-> name ∈ prediction_attributes.
Proof.
  intros Hfresh. unfold holds_array, with_attrs, load_model_attrs.
  cbn [attrs]. rewrite Hfresh. split.
  - intros [a Ha]. do 10 (split_insert Ha). by rewrite lookup_empty in Ha.
  - intros Hin. rewrite <- Hfresh. by apply load_model_attrs_arrays.
Qed.

Lemma holds_array_load_model_output self d (a : string -> array) name :
  attrs self = ∅ ->
  holds_array (with_attrs self (load_model_output_attrs d a self)) name
  <-> name ∈ prediction_attributes.
Proof.
  intros Hfresh. unfold holds_array, with_attrs, load_model_output_attrs.
  cbn [attrs]. rewrite Hfresh. split.
  - intros [b Hb]. do 10 (split_insert Hb). by rewrite lookup_empty in Hb.
  - intros Hin. rewrite <- Hfresh. eexists.
    by apply lookup_load_model_output_attrs.
Qed.

(** Seven names, not six. *)
Lemma not_populates_six (s : GridData) :
  (forall name, holds_array s name <-> name ∈ prediction_attributes) ->
  ~ populates_six s.
Proof.
  intros Hs (names & Hlen & Hnd & Hnames).
  assert (Hperm : names ≡ₚ prediction_attributes).
  { apply NoDup_Permutation; [done|apply prediction_attributes_NoDup|].
    intros name. by rewrite <- Hnames, Hs. }
  apply Permutation_length in Hperm. rewrite Hlen in Hperm. done.
Qed.

Lemma arrays_of_lookup (s : GridData) (names : list string) name a :
  name ∈ names ->
  attrs s !! name = Some (VArray a) ->
  arrays_of s names !! name = Some a.
Proof.
  intros Hin Ha. induction names as [|n names IH]; simpl.
  - by apply elem_of_nil in Hin.
  - destruct (decide (n = name)) as [->|Hne].
    + rewrite Ha. apply lookup_insert_eq.
    + apply elem_of_cons in Hin as [?|Hin]; [congruence|].
      destruct (attrs s !! n) as [[]|]; rewrite ?lookup_insert_ne by done;
        by apply IH.
Qed.

Lemma output_of_corresponds (s : GridData) :
  (forall name, name ∈ prediction_attributes -> holds_array s name) ->
  corresponds (output_of s) s.
Proof.
  intros Hs name Hin. destruct (Hs name Hin) as [a Ha].
  unfold output_of. by rewrite (arrays_of_lookup _ _ _ a), Ha.
Qed.

End equivalence_facts.

(** C1, as amended. When [load_model] has run to its end with GPy
    imported, and [load_model_output] is given a file holding a dictionary
    of the arrays that run produced, [load_model_output] runs to its end
    too and each of the seven prediction attributes holds the same array
    on both objects, [X_PREDICT] and [Y_PREDICT_mean] among them; on
    objects that had no attribute before, these seven names are exactly
    the names under which either loader leaves an array. *)
Theorem loaders_agree
        (env env' : environment) (model_file output_file : string)
        (forecast_limit : option Q) (self self' s1 : GridData) (u : unit)
        (d : gmap string array) :
  import_GPy env = Ok u ->
  load_model env model_file forecast_limit self = Return tt s1 ->
  files env' !! output_file = Some (PDict d) ->
  corresponds d s1 ->
  exists s2,
    load_model_output env' output_file self' = Return tt s2
    /\ length prediction_attributes = 7%nat
    /\ NoDup prediction_attributes
    /\ (forall name, name ∈ prediction_attributes ->
          exists a, attrs s1 !! name = Some (VArray a)
                    /\ attrs s2 !! name = Some (VArray a))
    /\ (attrs self = ∅ ->
        forall name, holds_array s1 name <-> name ∈ prediction_attributes)
    /\ (attrs self' = ∅ ->
        forall name, holds_array s2 name <-> name ∈ prediction_attributes).
Proof.
  intros Himp Hrun Hfile Hd.
  destruct (load_model_returns _ _ _ _ _ _ Himp Hrun) as (predict & _ & ->).
  set (limit := default 7%Q forecast_limit) in *.
  assert (Hs1 : forall name, name ∈ prediction_attributes ->
            exists a, attrs (with_attrs self
                               (load_model_attrs predict limit self)) !! name
                      = Some (VArray a)).
  { intros name Hin. by apply load_model_attrs_arrays. }
  set (a := fun name : string => default [] (d !! name)).
  assert (Hda : forall name, name ∈ prediction_attributes ->
            d !! name = Some (a name)).
  { intros name Hin. destruct (Hs1 name Hin) as [b Hb].
    specialize (Hd name Hin). rewrite Hb in Hd. unfold a.
    destruct (d !! name); [done|discriminate Hd]. }
  exists (with_attrs self' (load_model_output_attrs d a self')).
  split; [by apply load_model_output_run|].
  split; [reflexivity|]. split; [apply prediction_attributes_NoDup|].
  split; [|split].
  - intros name Hin. destruct (Hs1 name Hin) as [b Hb]. exists b.
    split; [exact Hb|].
    assert (Hab : a name = b).
    { specialize (Hd name Hin). rewrite Hb, (Hda name Hin) in Hd.
      simpl in Hd. congruence. }
    rewrite <- Hab. by apply lookup_load_model_output_attrs.
  - intros Hfresh name. by apply holds_array_load_model.
  - intros Hfresh name. by apply holds_array_load_model_output.
Qed.

Lemma sample_state_run :
  load_model sample_env "gp_model.pkl" None sample_object
  = Return tt sample_state.
Proof.
  exact (load_model_run sample_env "gp_model.pkl" None sample_object
                        sample_predict tt eq_refl eq_refl).
Qed.

Lemma sample_state_corresponds : corresponds (output_of sample_state) sample_state.
Proof.
  apply output_of_corresponds. intros name.
  by apply holds_array_load_model.
Qed.

Lemma sample_output_state_run :
  load_model_output dictionary_env "gp_output.pkl" sample_object
  = Return tt sample_output_state.
Proof.
  apply load_model_output_run; [reflexivity|].
  intros name Hin. pose proof (sample_state_corresponds name Hin) as Hd.
  destruct (holds_array_load_model sample_object sample_predict
              (default 7%Q None) name eq_refl) as [_ Hs].
  destruct (Hs Hin) as [a Ha]. fold sample_state in Ha.
  rewrite Ha in Hd. by destruct (output_of sample_state !! name).
Qed.

Lemma loaders_agree_witness :
  import_GPy sample_env = Ok tt
  /\ load_model sample_env "gp_model.pkl" None sample_object
     = Return tt sample_state
  /\ files dictionary_env !! "gp_output.pkl"
     = Some (PDict (output_of sample_state))
  /\ corresponds (output_of sample_state) sample_state
  /\ exists s2,
      load_model_output dictionary_env "gp_output.pkl" sample_object
      = Return tt s2
      /\ (forall name, name ∈ prediction_attributes ->
            exists a, attrs sample_state !! name = Some (VArray a)
                      /\ attrs s2 !! name = Some (VArray a))
      /\ (forall name,
            holds_array sample_state name <-> name ∈ prediction_attributes)
      /\ (forall name,
            holds_array s2 name <-> name ∈ prediction_attributes).
Proof.
  split; [reflexivity|]. split; [exact sample_state_run|].
  split; [reflexivity|]. split; [exact sample_state_corresponds|].
  destruct (loaders_agree sample_env dictionary_env "gp_model.pkl"
              "gp_output.pkl" None sample_object sample_object sample_state
              tt (output_of sample_state) eq_refl sample_state_run eq_refl
              sample_state_corresponds)
    as (s2 & Hs2 & _ & _ & Hsame & Hfirst & Hsecond).
  exists s2. split; [exact Hs2|]. split; [exact Hsame|].
  split; [exact (Hfirst eq_refl)|exact (Hsecond eq_refl)].
Defined.

(** C1, as stated, fails on the count: after the two loaders have run on
    the sample object, with the dictionary of the first run given to the
    second, the arrays on either object are not those of six names. *)
Lemma six_prediction_attributes_counterexample :
  load_model sample_env "gp_model.pkl" None sample_object
  = Return tt sample_state
  /\ corresponds (output_of sample_state) sample_state
  /\ load_model_output dictionary_env "gp_output.pkl" sample_object
     = Return tt sample_output_state
  /\ ~ populates_six sample_state
  /\ ~ populates_six sample_output_state.
Proof.
  split; [exact sample_state_run|]. split; [exact sample_state_corresponds|].
  split; [exact sample_output_state_run|]. split.
  - apply not_populates_six. intros name. by apply holds_array_load_model.
  - apply not_populates_six. intros name.
    by apply holds_array_load_model_output.
Qed.

(** ** Worked examples *)

Example sample_daily_aggregate :
  map (fun r => (avg_DATE r, Qred (DEMAND_AVERAGE r), YEAR r, DOY r))
      (grid_average sample_object)
  = [ (mkDate 2015 12 31, 30000%Q, 2015, 365);
      (mkDate 2016 1 1, 20000%Q, 2016, 1);
      (mkDate 2016 12 31, 30000%Q, 2016, 366) ].
Proof. vm_compute. reflexivity. Qed.

Example sample_axes :
  map (map Qred) (X sample_object) = [[1%Q]; [(366 # 365)%Q]; [(731 # 365)%Q]]
  /\ map (map Qred) (Y sample_object) = [[30%Q]; [20%Q]; [30%Q]].
Proof. vm_compute. split; reflexivity. Qed.

Example linspace_five :
  map Qred (np_linspace 0 7 5)
  = [0%Q; (7 # 4)%Q; (7 # 2)%Q; (21 # 4)%Q; 7%Q].
Proof. vm_compute. reflexivity. Qed.

Example six_years_plot :
  exists p,
    plot_demand_bkh true "black" (600, 300)
                    (the_object (init (new_year_frame 2015 6))) = Ok p
    /\ map color (glyphs p) = map Some colors
    /\ map legend_label (glyphs p)
       = map Some ["2015"; "2016"; "2017"; "2018"; "2019"; "2020"]%string.
Proof. eexists. split; [vm_compute; reflexivity|]. split; reflexivity. Qed.

Example seven_years_plot :
  plot_demand_bkh true "black" (600, 300)
                  (the_object (init (new_year_frame 2015 7)))
  = Raise IndexError.
Proof. vm_compute. reflexivity. Qed.

Example seven_years_continuous_plot :
  exists p,
    plot_demand_bkh false "black" (600, 300)
                    (the_object (init (new_year_frame 2015 7))) = Ok p
    /\ length (glyphs p) = 1%nat.
Proof. eexists. split; [vm_compute; reflexivity|]. reflexivity. Qed.

Example other_import_failure (self : GridData) :
  load_model {| import_GPy := Raise (ImportError "GPy"); files := ∅ |}
             "gp_model.pkl" None self
  = Raises (ImportError "GPy") self.
Proof. reflexivity. Qed.

Example no_model_file :
  exists s,
    load_model sample_env "missing.pkl" (Some 5%Q) sample_object
    = Raises (FileNotFoundError "missing.pkl") s
    /\ attrs s !! "COVID_CUTOFF" = Some (VInt 1881)
    /\ attrs s !! "forecast_limit" = Some (VNum 5)
    /\ attrs s !! "X_PREDICT" = None.
Proof. eexists. split; [vm_compute; reflexivity|]. repeat split. Qed.

(** * Further properties *)

(** ** What the loaders leave alone *)

Section frame_facts.

Context {A B : Type}.

Lemma keeps_data_ret (a : A) : keeps_data (ret a).
Proof. done. Qed.

Lemma keeps_data_raise (e : exn) : keeps_data (raise (A := A) e).
Proof. done. Qed.

Lemma keeps_data_lift (r : result A) : keeps_data (lift r).
Proof. by destruct r. Qed.

Lemma keeps_data_set_attr (name : string) (v : value) :
  keeps_data (set_attr name v).
Proof. done. Qed.

Lemma keeps_data_get_attr (name : string) : keeps_data (get_attr name).
Proof. intros self. unfold get_attr. by destruct (attrs self !! name). Qed.

Lemma keeps_data_get_X : keeps_data get_X.
Proof. done. Qed.

Lemma keeps_data_get_Y : keeps_data get_Y.
Proof. done. Qed.

Lemma keeps_data_then (m : method A) (k : A -> method B) :
  keeps_data m -> (forall a, keeps_data (k a)) -> keeps_data (then_ m k).
Proof.
  intros Hm Hk self. unfold then_. specialize (Hm self).
  destruct (m self) as [a s|e s]; simpl in *.
  - by rewrite Hk.
  - done.
Qed.

End frame_facts.

Create HintDb keeps_data.
#[export] Hint Resolve keeps_data_ret keeps_data_raise keeps_data_lift
  keeps_data_set_attr keeps_data_get_attr keeps_data_get_X keeps_data_get_Y
  keeps_data_then : keeps_data.

Lemma keeps_data_copy_key (attr key : string) : keeps_data (copy_key attr key).
Proof. unfold copy_key. eauto 10 with keeps_data. Qed.

#[export] Hint Resolve keeps_data_copy_key : keeps_data.


(** ** Where the loaders stop *)

Ltac exec_step :=
  cbv beta iota zeta
      delta [then_ set_attr get_attr lift ret raise get_X get_Y with_attrs
             attrs X Y grid grid_average as_num as_int as_array
             call_predict subscript copy_key fst snd].

Ltac exec_method :=
  exec_step;
  repeat (first [ rewrite lookup_insert_eq
                | rewrite lookup_insert_ne by done ];
          exec_step).

Section loader_failures.

Implicit Types (env : environment) (self : GridData).

(** Both files missing: what either loader has set when [open] fails. *)
Lemma load_model_no_file env model_file forecast_limit self u :
  import_GPy env = Ok u ->
  files env !! model_file = None ->
  load_model env model_file forecast_limit self
  = Raises (FileNotFoundError model_file)
      (with_attrs self
         (<["forecast_limit" := VNum (default 7%Q forecast_limit)]>
            (<["COVID_CUTOFF" := VInt 1881]> (attrs self)))).
Proof.
  intros Himp Hfile. unfold load_model, load_pickle. rewrite Himp.
  exec_method. rewrite Hfile. exec_method. reflexivity.
Qed.

Lemma load_model_output_no_file env output_file self :
  files env !! output_file = None ->
  load_model_output env output_file self
  = Raises (FileNotFoundError output_file)
      (with_attrs self
         (<["forecast_limit" := VInt 7]>
            (<["COVID_CUTOFF" := VInt 1881]> (attrs self)))).
Proof.
  intros Hfile. unfold load_model_output, load_pickle.
  exec_method. rewrite Hfile. exec_method. reflexivity.
Qed.

Lemma load_model_not_a_model env model_file forecast_limit self u d :
  import_GPy env = Ok u ->
  files env !! model_file = Some (PDict d) ->
  load_model env model_file forecast_limit self
  = Raises (AttributeError "predict")
      (with_attrs self
         (<["X_PREDICT" := VArray (expand_dims_1
                             (np_linspace 0 (default 7%Q forecast_limit)
                                          1000))]>
         (<["model" := VObj (PDict d)]>
         (<["forecast_limit" := VNum (default 7%Q forecast_limit)]>
         (<["COVID_CUTOFF" := VInt 1881]> (attrs self)))))).
Proof.
  intros Himp Hfile. unfold load_model, load_pickle. rewrite Himp.
  exec_method. rewrite Hfile. exec_method. reflexivity.
Qed.

Lemma load_model_output_not_a_dict env output_file self predict :
  files env !! output_file = Some (PModel predict) ->
  load_model_output env output_file self
  = Raises TypeError
      (with_attrs self
         (<["output_dict" := VObj (PModel predict)]>
         (<["forecast_limit" := VInt 7]>
         (<["COVID_CUTOFF" := VInt 1881]> (attrs self))))).
Proof.
  intros Hfile. unfold load_model_output, load_pickle.
  exec_method. rewrite Hfile. exec_method. reflexivity.
Qed.

End loader_failures.

(** X2. With GPy imported and no file at [model_file], [load_model]
    raises [FileNotFoundError] having set [COVID_CUTOFF] to 1881 and
    [forecast_limit] to its argument, and nothing else: every other
    attribute, [model] and the prediction arrays included, is as
    before. *)
Theorem load_model_missing_file
        (env : environment) (model_file : string) (forecast_limit : option Q)
        (self : GridData) (u : unit) :
  import_GPy env = Ok u ->
  files env !! model_file = None ->
  exists s',
    load_model env model_file forecast_limit self
    = Raises (FileNotFoundError model_file) s'
    /\ attrs s' !! "COVID_CUTOFF" = Some (VInt 1881)
    /\ attrs s' !! "forecast_limit"
       = Some (VNum (default 7%Q forecast_limit))
    /\ forall name : string,
         name <> "COVID_CUTOFF"%string -> name <> "forecast_limit"%string ->
         attrs s' !! name = attrs self !! name.
Proof.
  intros Himp Hfile. eexists.
  split; [by apply (load_model_no_file _ _ _ _ u)|]. cbn [attrs with_attrs].
  split; [by rewrite lookup_insert_ne, lookup_insert_eq|].
  split; [by rewrite lookup_insert_eq|].
  intros name H1 H2. by rewrite !lookup_insert_ne.
Qed.

Lemma load_model_missing_file_witness :
  import_GPy sample_env = Ok tt
  /\ files sample_env !! "missing.pkl" = None
  /\ exists s',
      load_model sample_env "missing.pkl" (Some 5%Q) sample_object
      = Raises (FileNotFoundError "missing.pkl") s'
      /\ attrs s' !! "forecast_limit" = Some (VNum 5)
      /\ attrs s' !! "model" = attrs sample_object !! "model".
Proof.
  split; [reflexivity|]. split; [reflexivity|].
  destruct (load_model_missing_file sample_env "missing.pkl" (Some 5%Q)
              sample_object tt eq_refl eq_refl)
    as (s' & Hrun & _ & Hlimit & Hrest).
  exists s'. split; [exact Hrun|]. split; [exact Hlimit|].
  by apply Hrest.
Defined.

(** X3. With GPy imported and a pickled dictionary (not a model) at
    [model_file], [load_model] raises [AttributeError] at its first
    [predict] call: by then [model] holds the dictionary and [X_PREDICT]
    the 1000-point grid, while [Y_PREDICT_mean], [Y_PREDICT_conf] and
    the post-cutoff attributes are as before. *)
Theorem load_model_on_a_dictionary
        (env : environment) (model_file : string) (forecast_limit : option Q)
        (self : GridData) (u : unit) (d : gmap string array) :
  import_GPy env = Ok u ->
  files env !! model_file = Some (PDict d) ->
  exists s',
    load_model env model_file forecast_limit self
    = Raises (AttributeError "predict") s'
    /\ attrs s' !! "model" = Some (VObj (PDict d))
    /\ (exists x_predict, attrs s' !! "X_PREDICT" = Some (VArray x_predict)
                          /\ length x_predict = 1000%nat)
    /\ Forall (fun name => attrs s' !! name = attrs self !! name)
         ["Y_PREDICT_mean"; "Y_PREDICT_conf"; "X_COVID"; "Y_COVID";
          "Y_COVID_PREDICT_mean"; "Y_COVID_PREDICT_conf"]%string.
Proof.
  intros Himp Hfile. eexists.
  split; [by apply (load_model_not_a_model _ _ _ _ u)|].
  cbn [attrs with_attrs].
  split; [by rewrite lookup_insert_ne, lookup_insert_eq|].
  split.
  - eexists. split; [by rewrite lookup_insert_eq|].
    unfold expand_dims_1. by rewrite length_map, np_linspace_length.
  - repeat (constructor; [by rewrite !lookup_insert_ne|]). constructor.
Qed.

Lemma load_model_on_a_dictionary_witness :
  import_GPy swapped_env = Ok tt
  /\ files swapped_env !! "gp_model.pkl" = Some (PDict (sample_output 2))
  /\ exists s',
      load_model swapped_env "gp_model.pkl" None sample_object
      = Raises (AttributeError "predict") s'
      /\ attrs s' !! "model" = Some (VObj (PDict (sample_output 2)))
      /\ attrs s' !! "Y_PREDICT_mean"
         = attrs sample_object !! "Y_PREDICT_mean".
Proof.
  split; [reflexivity|]. split; [reflexivity|].
  destruct (load_model_on_a_dictionary swapped_env "gp_model.pkl" None
              sample_object tt (sample_output 2) eq_refl eq_refl)
    as (s' & Hrun & Hmodel & _ & Hrest).
  exists s'. split; [exact Hrun|]. split; [exact Hmodel|].
  by apply Forall_cons in Hrest as [H _].
Defined.

(** ** The output dictionary and its keys *)

Section output_keys.

Implicit Types (env : environment) (self : GridData) (d : gmap string array).

Lemma first_missing_None d :
  first_missing d = None <->
  forall name, name ∈ prediction_attributes -> is_Some (d !! name).
Proof.
  unfold first_missing. split.
  - intros Hnone name Hin. apply list_elem_of_In in Hin.
    pose proof (find_none _ _ Hnone name Hin) as H. simpl in H.
    by destruct (d !! name).
  - intros Hall.
    destruct (List.find _ prediction_attributes) as [key|] eqn:Hfind; [|done].
    apply find_some in Hfind as [Hin Hkey].
    apply list_elem_of_In, Hall in Hin. destruct Hin as [a Ha].
    by rewrite Ha in Hkey.
Qed.

Lemma first_missing_Some d key :
  first_missing d = Some key ->
  key ∈ prediction_attributes /\ d !! key = None.
Proof.
  unfold first_missing. intros Hfind.
  apply find_some in Hfind as [Hin Hkey]. split; [by apply list_elem_of_In|].
  by destruct (d !! key).
Qed.

(** The run stops at the first key the dictionary lacks. *)
Lemma load_model_output_stops env output_file self d key :
  files env !! output_file = Some (PDict d) ->
  first_missing d = Some key ->
  exists s',
    load_model_output env output_file self = Raises (KeyError key) s'
    /\ attrs s' !! "COVID_CUTOFF" = Some (VInt 1881)
    /\ attrs s' !! "output_dict" = Some (VObj (PDict d))
    /\ attrs s' !! key = attrs self !! key.
Proof.
  intros Hfile Hfm. unfold load_model_output, load_pickle.
  exec_method. rewrite Hfile. exec_method.
  unfold first_missing, prediction_attributes in Hfm.
  cbn [List.find] in Hfm.
  repeat (match type of Hfm with
          | context [d !! ?k] => destruct (d !! k) eqn:?
          end;
          [ exec_method
          | injection Hfm as <-; exec_method; eexists;
            split; [reflexivity|]; cbn [attrs with_attrs];
            split; [ repeat (rewrite lookup_insert_ne by done);
                     by rewrite lookup_insert_eq |];
            split; [ repeat (rewrite lookup_insert_ne by done);
                     by rewrite lookup_insert_eq
                   | by rewrite !lookup_insert_ne ] ]).
  discriminate Hfm.
Qed.

End output_keys.


(** X5. When the dictionary lacks one of the seven keys,
    [load_model_output] raises [KeyError] for the first missing key in
    the order the code reads them; [output_dict] is set by then, and the
    attribute of the missing key is as before. *)
Theorem load_model_output_missing_key
        (env : environment) (output_file : string) (self : GridData)
        (d : gmap string array) (key : string) :
  files env !! output_file = Some (PDict d) ->
  first_missing d = Some key ->
  key ∈ prediction_attributes
  /\ d !! key = None
  /\ exists s',
      load_model_output env output_file self = Raises (KeyError key) s'
      /\ attrs s' !! "COVID_CUTOFF" = Some (VInt 1881)
      /\ attrs s' !! "output_dict" = Some (VObj (PDict d))
      /\ attrs s' !! key = attrs self !! key.
Proof.
  intros Hfile Hfm.
  destruct (first_missing_Some d key Hfm) as [Hin Hnone].
  split; [done|]. split; [done|].
  destruct (load_model_output_stops env output_file self d key Hfile Hfm)
    as (s' & Hrun & Hcut & Hdict & Hkey).
  by exists s'.
Qed.

Lemma load_model_output_missing_key_witness :
  files truncated_env !! "gp_output.pkl"
  = Some (PDict (delete "Y_PREDICT_conf" (sample_output 2)))
  /\ first_missing (delete "Y_PREDICT_conf" (sample_output 2))
     = Some "Y_PREDICT_conf"%string
  /\ exists s',
      load_model_output truncated_env "gp_output.pkl" sample_object
      = Raises (KeyError "Y_PREDICT_conf") s'
      /\ attrs s' !! "Y_PREDICT_conf" = None.
Proof.
  split; [reflexivity|]. split; [reflexivity|].
  destruct (load_model_output_missing_key truncated_env "gp_output.pkl"
              sample_object (delete "Y_PREDICT_conf" (sample_output 2))
              "Y_PREDICT_conf" eq_refl eq_refl)
    as (_ & _ & s' & Hrun & _ & _ & Hkey).
  exists s'. split; [exact Hrun|]. rewrite Hkey. reflexivity.
Defined.

(** ** Loading twice *)

Section reload_facts.

Implicit Types (env : environment) (self : GridData).

Lemma load_model_attrs_absorbs predict limit self :
  load_model_attrs predict limit
    (with_attrs self (load_model_attrs predict limit self))
  = load_model_attrs predict limit self.
Proof.
  unfold load_model_attrs. cbn [X Y attrs with_attrs].
  do 10 (rewrite insert_id;
         [| repeat (rewrite lookup_insert_ne by done);
            apply lookup_insert_eq ]).
  reflexivity.
Qed.

Lemma load_model_output_attrs_absorbs d (a : string -> array) self :
  load_model_output_attrs d a
    (with_attrs self (load_model_output_attrs d a self))
  = load_model_output_attrs d a self.
Proof.
  unfold load_model_output_attrs. cbn [attrs with_attrs].
  do 10 (rewrite insert_id;
         [| repeat (rewrite lookup_insert_ne by done);
            apply lookup_insert_eq ]).
  reflexivity.
Qed.

Lemma load_model_output_returns env output_file self s' :
  load_model_output env output_file self = Return tt s' ->
  exists d (a : string -> array),
    files env !! output_file = Some (PDict d)
    /\ (forall name, name ∈ prediction_attributes -> d !! name = Some (a name))
    /\ s' = with_attrs self (load_model_output_attrs d a self).
Proof.
  intros Hrun.
  destruct (files env !! output_file) as [[predict|d]|] eqn:Hfile.
  - by rewrite (load_model_output_not_a_dict _ _ _ predict) in Hrun.
  - destruct (first_missing d) as [key|] eqn:Hfm.
    + destruct (load_model_output_stops env output_file self d key Hfile Hfm)
        as (s'' & Hstop & _).
      by rewrite Hstop in Hrun.
    + exists d, (fun name => default [] (d !! name)).
      assert (Hkeys : forall name, name ∈ prediction_attributes ->
                d !! name = Some (default [] (d !! name))).
      { intros name Hin.
        destruct (proj1 (first_missing_None d) Hfm name Hin) as [b ->].
        done. }
      split; [done|]. split; [done|].
      rewrite (load_model_output_run _ _ _ d _ Hfile Hkeys) in Hrun.
      by injection Hrun as <-.
  - by rewrite load_model_output_no_file in Hrun.
Qed.

End reload_facts.

(** X6. Both loaders are idempotent: a call that returned normally,
    repeated with the same arguments on the object it left, returns
    normally again and leaves the object as it is. *)
Theorem loaders_idempotent
        (env : environment) (file : string) (forecast_limit : option Q)
        (self s1 : GridData) :
  (load_model env file forecast_limit self = Return tt s1 ->
   load_model env file forecast_limit s1 = Return tt s1)
  /\ (load_model_output env file self = Return tt s1 ->
      load_model_output env file s1 = Return tt s1).
Proof.
  split.
  - intros Hrun. destruct (import_GPy env) as [u|e] eqn:Himp.
    + destruct (load_model_returns _ _ _ _ _ _ Himp Hrun)
        as (predict & Hfile & ->).
      rewrite (load_model_run _ _ _ _ predict u Himp Hfile).
      f_equal. unfold with_attrs at 1. cbn [grid grid_average X Y with_attrs].
      try rewrite load_model_attrs_absorbs; reflexivity.
    + revert Hrun. unfold load_model. rewrite Himp.
      destruct e; try done.
  - intros Hrun.
    destruct (load_model_output_returns _ _ _ _ Hrun)
      as (d & a & Hfile & Hkeys & ->).
    rewrite (load_model_output_run _ _ _ d a Hfile Hkeys).
    f_equal. unfold with_attrs at 1. cbn [grid grid_average X Y with_attrs].
    try rewrite load_model_output_attrs_absorbs; reflexivity.
Qed.

Lemma loaders_idempotent_witness :
  load_model sample_env "gp_model.pkl" None sample_object
  = Return tt sample_state
  /\ load_model sample_env "gp_model.pkl" None sample_state
     = Return tt sample_state.
Proof.
  pose proof (load_model_run sample_env "gp_model.pkl" None sample_object
                sample_predict tt eq_refl eq_refl) as Hrun.
  split; [exact Hrun|].
  exact (proj1 (loaders_idempotent sample_env "gp_model.pkl" None
                  sample_object sample_state) Hrun).
Defined.

(** ** The forecast limit after [load_model_output] *)

Lemma lookup_forecast_limit_output d (a : string -> array) self :
  load_model_output_attrs d a self !! "forecast_limit" = Some (VInt 7).
Proof.
  unfold load_model_output_attrs.
  repeat (rewrite lookup_insert_ne by done). by rewrite lookup_insert_eq.
Qed.

(** X7. [load_model_output] records a forecast limit of 7 whatever grid
    the dictionary holds: given the arrays of a [load_model] run made
    with limit [f], it leaves [forecast_limit = 7] beside an [X_PREDICT]
    that ends at [f]. *)
Theorem forecast_limit_not_restored
        (env env' : environment) (model_file output_file : string)
        (f : Q) (self self' s1 : GridData) (u : unit)
        (d : gmap string array) :
  import_GPy env = Ok u ->
  load_model env model_file (Some f) self = Return tt s1 ->
  files env' !! output_file = Some (PDict d) ->
  corresponds d s1 ->
  exists s2 x_predict,
    load_model_output env' output_file self' = Return tt s2
    /\ attrs s1 !! "forecast_limit" = Some (VNum f)
    /\ attrs s2 !! "forecast_limit" = Some (VInt 7)
    /\ attrs s1 !! "X_PREDICT" = Some (VArray x_predict)
    /\ attrs s2 !! "X_PREDICT" = Some (VArray x_predict)
    /\ flatten x_predict !! 999%nat = Some f.
Proof.
  intros Himp Hrun Hfile Hd.
  destruct (load_model_returns _ _ _ _ _ _ Himp Hrun) as (predict & _ & ->).
  destruct (lookup_load_model_attrs predict (default 7%Q (Some f)) self)
    as (_ & Hlimit & Hx & _).
  set (a := fun name : string => default [] (d !! name)).
  assert (Hda : forall name, name ∈ prediction_attributes ->
            d !! name = Some (a name)).
  { intros name Hin.
    destruct (load_model_attrs_arrays predict (default 7%Q (Some f)) self
                name Hin) as [b Hb].
    specialize (Hd name Hin). cbn [attrs with_attrs] in Hd.
    rewrite Hb in Hd. unfold a.
    destruct (d !! name); [done|discriminate Hd]. }
  exists (with_attrs self' (load_model_output_attrs d a self')),
         (expand_dims_1 (np_linspace 0 f 1000)).
  split; [by apply load_model_output_run|].
  split; [exact Hlimit|].
  split; [apply lookup_forecast_limit_output|].
  split; [exact Hx|]. split.
  - assert (Hin : "X_PREDICT"%string ∈ prediction_attributes)
      by in_prediction_attributes.
    cbn [attrs with_attrs].
    rewrite (proj2 (lookup_load_model_output_attrs d a self') _ Hin).
    specialize (Hd _ Hin). cbn [attrs with_attrs] in Hd.
    rewrite (Hda _ Hin) in Hd. simpl in Hd.
    change (default 7%Q (Some f)) with f in Hx. rewrite Hx in Hd.
    congruence.
  - rewrite flatten_expand_dims_1.
    apply (np_linspace_last 0 f 1000). lia.
Qed.

Lemma short_state_run :
  load_model sample_env "gp_model.pkl" (Some 5%Q) sample_object
  = Return tt short_state.
Proof.
  exact (load_model_run sample_env "gp_model.pkl" (Some 5%Q) sample_object
                        sample_predict tt eq_refl eq_refl).
Qed.

Lemma short_state_corresponds :
  corresponds (output_of short_state) short_state.
Proof.
  apply output_of_corresponds. intros name Hin.
  by apply load_model_attrs_arrays.
Qed.

Lemma forecast_limit_not_restored_witness :
  import_GPy sample_env = Ok tt
  /\ load_model sample_env "gp_model.pkl" (Some 5%Q) sample_object
     = Return tt short_state
  /\ files short_dictionary_env !! "gp_output.pkl"
     = Some (PDict (output_of short_state))
  /\ corresponds (output_of short_state) short_state
  /\ exists s2 x_predict,
      load_model_output short_dictionary_env "gp_output.pkl" sample_object
      = Return tt s2
      /\ attrs s2 !! "forecast_limit" = Some (VInt 7)
      /\ attrs s2 !! "X_PREDICT" = Some (VArray x_predict)
      /\ flatten x_predict !! 999%nat = Some 5%Q.
Proof.
  split; [reflexivity|]. split; [exact short_state_run|].
  split; [reflexivity|]. split; [exact short_state_corresponds|].
  destruct (forecast_limit_not_restored sample_env short_dictionary_env
              "gp_model.pkl" "gp_output.pkl" 5 sample_object sample_object
              short_state tt (output_of short_state) eq_refl short_state_run
              eq_refl short_state_corresponds)
    as (s2 & x_predict & Hrun & _ & Hlimit & _ & Hx & Hlast).
  exists s2, x_predict. split; [exact Hrun|]. split; [exact Hlimit|].
  split; [exact Hx|exact Hlast].
Defined.

(** ** The time axis, row by row *)

Section alignment_facts.

Implicit Types (ga : list average_row) (years : list Z).

Lemma DOY_of_year_rows ga y : DOY_of_year ga y = map DOY (rows_of_year ga y).
Proof. reflexivity. Qed.

Lemma py_max_last_DOY ga y :
  y ∈ map YEAR ga -> py_max (DOY_of_year ga y) = Ok (last_DOY ga y).
Proof.
  intros Hin. apply DOY_of_year_nonempty in Hin. unfold last_DOY, py_max.
  by destruct (DOY_of_year ga y).
Qed.

Lemma offset_among_later ga years y :
  Forall (fun y' => y <= y') years -> offset_among ga years y = 0.
Proof.
  induction 1 as [|y' years Hle _ IH]; [done|]. simpl.
  destruct (Z.ltb_spec y' y); [lia|done].
Qed.

Lemma rows_of_year_YEAR ga y r : r ∈ rows_of_year ga y -> YEAR r = y.
Proof.
  unfold rows_of_year. rewrite list_elem_of_In, filter_In. lia.
Qed.

(** The loop, year by year: the rows of year [y] get the offset reached
    when the loop arrives at [y]. *)
Lemma X_loop_by_year ga years OFFSET X0 :
  Forall (fun y => y ∈ map YEAR ga) years ->
  StronglySorted Z.lt years ->
  X_loop ga years OFFSET X0
  = Ok (X0 ++ concat (map (fun y =>
                             map (fun r => OFFSET + offset_among ga years y
                                           + DOY r)
                                 (rows_of_year ga y)) years)).
Proof.
  intros Hin Hs. revert OFFSET X0.
  induction Hs as [|y years Hs IH Hlt]; intros OFFSET X0.
  - simpl. by rewrite app_nil_r.
  - apply Forall_cons in Hin as [Hy Hin]. simpl.
    rewrite (py_max_last_DOY _ _ Hy). simpl. rewrite (IH Hin).
    rewrite <- app_assoc. do 2 f_equal. f_equal.
    + rewrite Z.ltb_irrefl, offset_among_later
        by (eapply Forall_impl; [exact Hlt|]; simpl; lia).
      rewrite DOY_of_year_rows, map_map. apply map_ext. intros r. lia.
    + f_equal. apply map_ext_in. intros y' Hy'.
      rewrite Forall_forall in Hlt. apply list_elem_of_In, Hlt in Hy'.
      destruct (Z.ltb_spec y y'); [|lia].
      apply map_ext. intros r. lia.
Qed.

Lemma rows_of_year_none ga y :
  Forall (fun r => y < YEAR r) ga -> rows_of_year ga y = [].
Proof.
  induction 1 as [|r ga Hr _ IH]; [done|]. unfold rows_of_year in *. simpl.
  destruct (Z.eqb_spec (YEAR r) y); [lia|done].
Qed.

(** In a table sorted by year, the rows of the least year come first. *)
Lemma rows_of_least_year ga y :
  year_sorted ga ->
  Forall (fun r => y <= YEAR r) ga ->
  rows_of_year ga y ++ List.filter (fun r => negb (YEAR r =? y)) ga = ga.
Proof.
  unfold year_sorted. intros Hs.
  induction Hs as [|r ga Hs IH Hall]; intros Hle; [done|].
  apply Forall_cons in Hle as [Hr Hle]. unfold rows_of_year in *. simpl.
  destruct (Z.eqb_spec (YEAR r) y) as [Hy|Hy]; simpl.
  - f_equal. by apply IH.
  - assert (Hlater : Forall (fun r' => y < YEAR r') ga).
    { eapply Forall_impl; [exact Hall|]. simpl. lia. }
    pose proof (rows_of_year_none ga y Hlater) as Hnone.
    unfold rows_of_year in Hnone. rewrite Hnone. simpl. f_equal.
    clear -Hlater. induction Hlater as [|r' ga Hr' _ IH]; [done|]. simpl.
    destruct (Z.eqb_spec (YEAR r') y); [lia|]. simpl. by rewrite IH.
Qed.

Lemma rows_of_year_other ga y y' :
  y' <> y ->
  rows_of_year (List.filter (fun r => negb (YEAR r =? y)) ga) y'
  = rows_of_year ga y'.
Proof.
  intros Hne. unfold rows_of_year. induction ga as [|r ga IH]; [done|].
  simpl. destruct (Z.eqb_spec (YEAR r) y) as [Hy|Hy]; simpl.
  - destruct (Z.eqb_spec (YEAR r) y'); [lia|done].
  - by rewrite IH.
Qed.

(** Taking the rows year by year, over the distinct years in ascending
    order, gives back a table sorted by year. *)
Lemma concat_rows_of_year ga years :
  StronglySorted Z.lt years ->
  year_sorted ga ->
  Forall (fun r => YEAR r ∈ years) ga ->
  concat (map (rows_of_year ga) years) = ga.
Proof.
  intros Hs. revert ga.
  induction Hs as [|y years Hs IH Hlt]; intros ga Hsorted Hin.
  - destruct ga as [|r ga]; [done|].
    apply Forall_cons in Hin as [Hr _]. by apply elem_of_nil in Hr.
  - simpl. rewrite Forall_forall in Hlt.
    set (rest := List.filter (fun r => negb (YEAR r =? y)) ga).
    assert (Hrest : concat (map (rows_of_year ga) years) = rest).
    { rewrite <- (IH rest).
      - f_equal. apply map_ext_in. intros y' Hy'.
        apply list_elem_of_In, Hlt in Hy'. symmetry.
        apply rows_of_year_other. lia.
      - unfold year_sorted, rest. clear -Hsorted.
        induction Hsorted as [|r ga Hs IH Hall]; [constructor|]. simpl.
        destruct (negb (YEAR r =? y)); [|done].
        constructor; [done|]. apply Forall_forall. intros r' Hr'.
        apply list_elem_of_In, filter_In in Hr' as [Hr' _].
        rewrite Forall_forall in Hall. by apply Hall, list_elem_of_In.
      - apply Forall_forall. intros r Hr. unfold rest in Hr.
        apply list_elem_of_In, filter_In in Hr as [Hr Hy].
        rewrite Forall_forall in Hin. apply list_elem_of_In, Hin in Hr.
        apply elem_of_cons in Hr as [Hr|Hr]; [|done].
        rewrite Hr, Z.eqb_refl in Hy. done. }
    rewrite Hrest. apply rows_of_least_year; [done|].
    eapply Forall_impl; [exact Hin|]. simpl. intros r Hr.
    apply elem_of_cons in Hr as [->|Hr]; [lia|]. apply Hlt in Hr. lia.
Qed.

Lemma make_grid_average_year_sorted (l : list grid_row) :
  year_sorted (make_grid_average l).
Proof.
  unfold year_sorted, make_grid_average.
  pose proof (groupby_DATE_sorted l) as Hs.
  induction (groupby_DATE l) as [|[k vs] gs IH]; [constructor|].
  simpl in *. apply StronglySorted_inv in Hs as [Hs Hall].
  constructor; [by apply IH|].
  apply Forall_forall. intros r Hr.
  apply list_elem_of_In, in_map_iff in Hr as ([k' vs'] & <- & Hin). simpl.
  rewrite Forall_forall in Hall.
  assert (Hk : date_lt k k').
  { apply Hall, list_elem_of_fmap. exists (k', vs').
    by rewrite <- list_elem_of_In in Hin. }
  unfold date_lt in Hk. lia.
Qed.

Lemma concat_map_rows ga years (g : Z -> Z) :
  concat (map (fun y => map (fun r => g y + DOY r) (rows_of_year ga y)) years)
  = map (fun r => g (YEAR r) + DOY r) (concat (map (rows_of_year ga) years)).
Proof.
  induction years as [|y years IH]; [done|]. simpl.
  rewrite map_app, IH. f_equal. apply map_ext_in. intros r Hr.
  apply list_elem_of_In, rows_of_year_YEAR in Hr. by rewrite Hr.
Qed.

(** The pseudo-day of a row is its day-of-year plus the offset of its
    year. *)
Lemma pseudo_days_by_row ga :
  year_sorted ga ->
  pseudo_days ga
  = Ok (map (fun r => offset_before ga (YEAR r) + DOY r) ga).
Proof.
  intros Hsorted. unfold pseudo_days.
  rewrite X_loop_by_year.
  - simpl. f_equal.
    rewrite (concat_map_rows ga _
               (fun y => offset_among ga (np_unique (map YEAR ga)) y)).
    rewrite concat_rows_of_year; [done|apply np_unique_sorted|done|].
    apply Forall_forall. intros r Hr. apply np_unique_elem.
    apply list_elem_of_fmap. by exists r.
  - apply Forall_forall. intros y. by rewrite np_unique_elem.
  - apply np_unique_sorted.
Qed.

End alignment_facts.

(** X8. The constructor completes on every frame, and row [i] of [X]
    and row [i] of [Y] describe row [i] of the daily aggregate: [X] holds
    the row's day-of-year plus the offset of its year, over 365, and [Y]
    the row's mean over 1000.  The offset of a year is the sum, over the
    earlier years present, of the greatest day-of-year seen in each; it
    is 0 for the rows of the first year. *)
Theorem axes_row_by_row (grid_frame : list grid_row) :
  exists g,
    init grid_frame = Ok g
    /\ length (X g) = length (grid_average g)
    /\ length (Y g) = length (grid_average g)
    /\ (forall (i : nat) (r : average_row),
          grid_average g !! i = Some r ->
          X g !! i
          = Some [(inject_Z (offset_before (grid_average g) (YEAR r) + DOY r)
                   / 365)%Q]
          /\ Y g !! i = Some [(DEMAND_AVERAGE r / 1000)%Q])
    /\ (forall r : average_row,
          r ∈ grid_average g ->
          (forall r', r' ∈ grid_average g -> YEAR r <= YEAR r') ->
          offset_before (grid_average g) (YEAR r) = 0).
Proof.
  destruct (init_ok grid_frame) as [g Hg]. exists g. split; [done|].
  destruct (init_lengths _ _ Hg) as [HlenX HlenY].
  split; [done|]. split; [done|].
  destruct (init_axes _ _ Hg) as (days & Hdays & HX & HY).
  assert (Hsorted : year_sorted (grid_average g)).
  { rewrite (init_grid_average _ _ Hg). apply make_grid_average_year_sorted. }
  rewrite (pseudo_days_by_row _ Hsorted) in Hdays. injection Hdays as <-.
  split.
  - intros i r Hr. rewrite HX, HY. unfold expand_dims_1, to_years, to_GW.
    rewrite !list_lookup_fmap, Hr. done.
  - intros r Hr Hleast. apply offset_among_later.
    apply Forall_forall. intros y Hy.
    apply np_unique_elem, list_elem_of_fmap in Hy as (r' & -> & Hr').
    by apply Hleast.
Qed.

(** ** Steps of the time axis *)

Section step_facts.

Implicit Types (ga : list average_row) (years : list Z).

Lemma aggregated_year_sorted ga : aggregated ga -> year_sorted ga.
Proof.
  intros [Hs Hv]. unfold year_sorted.
  induction ga as [|r ga IH]; [constructor|].
  simpl in Hs. apply StronglySorted_inv in Hs as [Hs Hall].
  apply Forall_cons in Hv as [(_ & Hy & _) Hv].
  constructor; [by apply IH|].
  apply Forall_forall. intros r' Hr'.
  rewrite Forall_forall in Hall. rewrite Forall_forall in Hv.
  destruct (Hv _ Hr') as (_ & Hy' & _).
  assert (Hlt : date_lt (avg_DATE r) (avg_DATE r')).
  { apply Hall, list_elem_of_fmap. by exists r'. }
  rewrite Hy, Hy'. unfold date_lt in Hlt. lia.
Qed.

Lemma year_sorted_lookup ga (i j : nat) r r' :
  year_sorted ga -> (i < j)%nat ->
  ga !! i = Some r -> ga !! j = Some r' -> YEAR r <= YEAR r'.
Proof.
  intros Hs. apply (StronglySorted_lookup (fun a b => YEAR a <= YEAR b)).
  exact Hs.
Qed.

(** Between the years of two adjacent rows no year is present. *)
Lemma adjacent_years ga (i : nat) r1 r2 y :
  year_sorted ga ->
  ga !! i = Some r1 -> ga !! S i = Some r2 ->
  y ∈ map YEAR ga -> y <= YEAR r1 \/ YEAR r2 <= y.
Proof.
  intros Hs H1 H2 Hy.
  apply list_elem_of_fmap in Hy as (r & -> & Hr).
  apply list_elem_of_lookup in Hr as [j Hj].
  destruct (decide (j <= i)%nat) as [Hle|Hgt].
  - left. destruct (decide (j = i)) as [->|Hne]; [by simplify_eq|].
    eapply (year_sorted_lookup ga j i); [exact Hs|lia|done|done].
  - right. destruct (decide (j = S i)) as [->|Hne]; [by simplify_eq|].
    eapply (year_sorted_lookup ga (S i) j); [exact Hs|lia|done|done].
Qed.

Lemma offset_among_next ga years y1 y2 :
  StronglySorted Z.lt years ->
  y1 ∈ years -> y1 < y2 ->
  Forall (fun y => y <= y1 \/ y2 <= y) years ->
  offset_among ga years y2 = offset_among ga years y1 + last_DOY ga y1.
Proof.
  intros Hs. induction Hs as [|y years Hs IH Hlt]; intros Hin H12 Hgap.
  - by apply elem_of_nil in Hin.
  - apply Forall_cons in Hgap as [Hy Hgap]. simpl.
    apply elem_of_cons in Hin as [<-|Hin].
    + rewrite Z.ltb_irrefl. destruct (Z.ltb_spec y1 y2); [|lia].
      rewrite Forall_forall in Hlt. rewrite Forall_forall in Hgap.
      rewrite !offset_among_later; [lia| |].
      * apply Forall_forall. intros y Hy'. apply Hlt in Hy'. lia.
      * apply Forall_forall. intros y Hy'.
        pose proof (Hlt _ Hy'). destruct (Hgap _ Hy'); lia.
    + rewrite Forall_forall in Hlt. pose proof (Hlt _ Hin).
      destruct (Z.ltb_spec y y2); [|lia]. destruct (Z.ltb_spec y y1); [|lia].
      rewrite IH by done. lia.
Qed.

(** The last row of a year carries the greatest day-of-year of its
    year. *)
Lemma last_row_of_year ga (i : nat) r1 r2 :
  aggregated ga ->
  ga !! i = Some r1 -> ga !! S i = Some r2 ->
  YEAR r1 <> YEAR r2 ->
  last_DOY ga (YEAR r1) = DOY r1.
Proof.
  intros Hagg H1 H2 Hne.
  pose proof (aggregated_year_sorted _ Hagg) as Hys.
  assert (Hin1 : YEAR r1 ∈ map YEAR ga).
  { apply list_elem_of_fmap. exists r1. split; [done|].
    by eapply list_elem_of_lookup_2. }
  destruct (py_max_ok (DOY_of_year ga (YEAR r1)))
    as (m & Hm & Hmin & Hmax); [by apply DOY_of_year_nonempty|].
  rewrite (py_max_last_DOY _ _ Hin1) in Hm. injection Hm as ->.
  rewrite Forall_forall in Hmax.
  assert (Hle : DOY r1 <= m).
  { apply Hmax, elem_of_DOY_of_year. exists r1.
    split; [by eapply list_elem_of_lookup_2|done]. }
  apply elem_of_DOY_of_year in Hmin as (r & Hr & Hy & Hd).
  apply list_elem_of_lookup in Hr as [j Hj].
  assert (H12 : YEAR r1 <= YEAR r2).
  { eapply (year_sorted_lookup ga i (S i)); [exact Hys|lia|done|done]. }
  destruct (decide (j = i)) as [->|Hji]; [by simplify_eq|].
  destruct (decide (j < i)%nat) as [Hlt|Hgt].
  - destruct Hagg as [Hs Hv]. rewrite Forall_forall in Hv.
    destruct (Hv r) as (Hvr & Hyr & Hdr); [by eapply list_elem_of_lookup_2|].
    destruct (Hv r1) as (Hv1 & Hy1 & Hd1); [by eapply list_elem_of_lookup_2|].
    assert (Hdate : date_lt (avg_DATE r) (avg_DATE r1)).
    { apply (StronglySorted_lookup date_lt (map avg_DATE ga) j i);
        [exact Hs|lia| |]; by rewrite list_lookup_fmap, ?Hj, ?H1. }
    pose proof (dayofyear_mono _ _ Hvr Hv1) as Hmono.
    assert (dayofyear (avg_DATE r) < dayofyear (avg_DATE r1)); [|lia].
    apply Hmono; [congruence|done].
  - assert (Hyr : YEAR r2 <= YEAR r).
    { destruct (decide (j = S i)) as [->|Hne']; [by simplify_eq|].
      eapply (year_sorted_lookup ga (S i) j);
        [exact Hys|lia|done|done]. }
    lia.
Qed.

(** Across a year boundary the offset grows by the day-of-year of the
    row before the boundary. *)
Lemma offset_before_next ga (i : nat) r1 r2 :
  aggregated ga ->
  ga !! i = Some r1 -> ga !! S i = Some r2 ->
  YEAR r1 <> YEAR r2 ->
  offset_before ga (YEAR r2) = offset_before ga (YEAR r1) + DOY r1.
Proof.
  intros Hagg H1 H2 Hne.
  pose proof (aggregated_year_sorted _ Hagg) as Hys.
  assert (H12 : YEAR r1 <= YEAR r2).
  { eapply (year_sorted_lookup ga i (S i)); [exact Hys|lia|done|done]. }
  unfold offset_before.
  rewrite (offset_among_next ga _ (YEAR r1) (YEAR r2)).
  - by rewrite (last_row_of_year ga i r1 r2).
  - apply np_unique_sorted.
  - apply np_unique_elem, list_elem_of_fmap. exists r1.
    split; [done|]. by eapply list_elem_of_lookup_2.
  - lia.
  - apply Forall_forall. intros y Hy. rewrite np_unique_elem in Hy.
    by eapply adjacent_years.
Qed.

End step_facts.

(** X9. On a frame of calendar dates, the time axis advances from one
    row to the next by the difference of their days-of-year when both
    are in the same year, and by the day-of-year of the later row alone
    when they are not -- however many days or years lie between the
    two dates (each over 365). *)
Theorem time_axis_steps (grid_frame : list grid_row) :
  Forall (fun r => valid_date (DATE r)) grid_frame ->
  exists g,
    init grid_frame = Ok g
    /\ forall (i : nat) (r1 r2 : average_row) (x1 x2 : Q),
         grid_average g !! i = Some r1 ->
         grid_average g !! S i = Some r2 ->
         flatten (X g) !! i = Some x1 ->
         flatten (X g) !! S i = Some x2 ->
         (YEAR r1 = YEAR r2 ->
          (x2 - x1 == inject_Z (DOY r2 - DOY r1) / 365)%Q)
         /\ (YEAR r1 <> YEAR r2 ->
             (x2 - x1 == inject_Z (DOY r2) / 365)%Q).
Proof.
  intros Hv. destruct (init_ok grid_frame) as [g Hg]. exists g.
  split; [done|].
  destruct (init_axes _ _ Hg) as (days & Hdays & HX & _).
  assert (Hagg : aggregated (grid_average g)).
  { rewrite (init_grid_average _ _ Hg).
    by apply make_grid_average_aggregated. }
  rewrite (pseudo_days_by_row _ (aggregated_year_sorted _ Hagg)) in Hdays.
  injection Hdays as <-.
  intros i r1 r2 x1 x2 H1 H2 Hx1 Hx2.
  rewrite HX, flatten_expand_dims_1 in Hx1, Hx2. unfold to_years in Hx1, Hx2.
  rewrite !list_lookup_fmap in Hx1, Hx2. rewrite H1 in Hx1. rewrite H2 in Hx2.
  simpl in Hx1, Hx2. injection Hx1 as <-. injection Hx2 as <-.
  split.
  - intros Hy. rewrite Hy.
    rewrite <- (Qmult_inj_l _ _ 365) by discriminate.
    unfold Zminus. rewrite !inject_Z_plus, !inject_Z_opp. field.
  - intros Hy.
    rewrite (offset_before_next _ i r1 r2 Hagg H1 H2 Hy).
    rewrite !inject_Z_plus. field.
Qed.

Lemma time_axis_steps_witness :
  Forall (fun r => valid_date (DATE r)) sample_frame
  /\ exists g,
      init sample_frame = Ok g
      /\ exists r1 r2 x1 x2,
          grid_average g !! 0%nat = Some r1
          /\ grid_average g !! 1%nat = Some r2
          /\ flatten (X g) !! 0%nat = Some x1
          /\ flatten (X g) !! 1%nat = Some x2
          /\ YEAR r1 <> YEAR r2
          /\ DOY r2 = 1
          /\ (x2 - x1 == inject_Z (DOY r2) / 365)%Q.
Proof.
  assert (Hv : Forall (fun r => valid_date (DATE r)) sample_frame).
  { repeat constructor; simpl; lia. }
  split; [exact Hv|].
  destruct (time_axis_steps sample_frame Hv) as (g & Hg & Hstep).
  exists g. split; [exact Hg|].
  vm_compute in Hg. injection Hg as <-.
  eexists _, _, _, _.
  split; [reflexivity|]. split; [reflexivity|]. split; [reflexivity|].
  split; [reflexivity|]. split; [discriminate|]. split; [reflexivity|].
  refine (proj2 (Hstep 0%nat _ _ _ _ eq_refl eq_refl eq_refl eq_refl) _).
  discriminate.
Defined.

(** ** The order of the CSV rows *)

Section row_order_facts.

Lemma filter_Permutation {A} (f : A -> bool) (l1 l2 : list A) :
  l1 ≡ₚ l2 -> List.filter f l1 ≡ₚ List.filter f l2.
Proof.
  induction 1 as [|a l1 l2 _ IH|a b l|l1 l2 l3 _ IH1 _ IH2]; simpl.
  - done.
  - destruct (f a); [by constructor|done].
  - destruct (f a), (f b); try done. apply perm_swap.
  - by etrans.
Qed.

Lemma readings_Permutation (l1 l2 : list grid_row) (k : date) :
  l1 ≡ₚ l2 -> readings l1 k ≡ₚ readings l2 k.
Proof.
  intros Hp. unfold readings. apply Permutation_map.
  by apply filter_Permutation.
Qed.

(** The dates of the groups depend on the set of dates alone. *)
Lemma groupby_DATE_keys_Permutation (l1 l2 : list grid_row) :
  l1 ≡ₚ l2 -> (groupby_DATE l1).*1 = (groupby_DATE l2).*1.
Proof.
  intros Hp. apply (StronglySorted_unique_strong date_lt).
  - intros k1 k2 _ _ H12 H21.
    destruct (date_lt_irrefl k1). by eapply date_lt_trans.
  - apply groupby_DATE_sorted.
  - apply groupby_DATE_sorted.
  - apply NoDup_Permutation.
    + apply date_sorted_NoDup, groupby_DATE_sorted.
    + apply date_sorted_NoDup, groupby_DATE_sorted.
    + intros k. rewrite !groupby_DATE_keys.
      by rewrite (Permutation_map DATE Hp).
Qed.

Lemma make_grid_average_calendar (l : list grid_row) :
  map YEAR (make_grid_average l) = map year (groupby_DATE l).*1
  /\ map DOY (make_grid_average l) = map dayofyear (groupby_DATE l).*1.
Proof.
  unfold make_grid_average.
  induction (groupby_DATE l) as [|g gs [IHy IHd]]; [done|]. simpl.
  by rewrite IHy, IHd.
Qed.

Lemma DOY_of_year_columns (ga : list average_row) (y : Z) :
  DOY_of_year ga y
  = map snd (List.filter (fun p => p.1 =? y) (combine (map YEAR ga) (map DOY ga))).
Proof.
  unfold DOY_of_year. induction ga as [|r ga IH]; [done|]. simpl.
  destruct (YEAR r =? y); simpl; by rewrite IH.
Qed.

(** The loop reads the [YEAR] and [DOY] columns only. *)
Lemma pseudo_days_columns (ga1 ga2 : list average_row) :
  map YEAR ga1 = map YEAR ga2 ->
  map DOY ga1 = map DOY ga2 ->
  pseudo_days ga1 = pseudo_days ga2.
Proof.
  intros Hy Hd. unfold pseudo_days. rewrite Hy.
  generalize (np_unique (map YEAR ga2)) 0 (@nil Z).
  intros years. induction years as [|y years IH]; intros OFFSET X0; [done|].
  simpl. rewrite !DOY_of_year_columns, Hy, Hd.
  destruct (py_max _); simpl; [apply IH|done].
Qed.

End row_order_facts.

(** X10. The order of the CSV rows does not matter to the dates: two
    frames with the same rows in different orders give daily aggregates
    with the same [DATE], [YEAR] and [DOY] columns and the same time
    axis [X], and each date groups the same readings (in file order). *)
Theorem row_order_irrelevant (frame1 frame2 : list grid_row) :
  frame1 ≡ₚ frame2 ->
  exists g1 g2,
    init frame1 = Ok g1 /\ init frame2 = Ok g2
    /\ map avg_DATE (grid_average g1) = map avg_DATE (grid_average g2)
    /\ map YEAR (grid_average g1) = map YEAR (grid_average g2)
    /\ map DOY (grid_average g1) = map DOY (grid_average g2)
    /\ X g1 = X g2
    /\ forall k : date, readings frame1 k ≡ₚ readings frame2 k.
Proof.
  intros Hp.
  destruct (init_ok frame1) as [g1 Hg1]. destruct (init_ok frame2) as [g2 Hg2].
  exists g1, g2. split; [done|]. split; [done|].
  pose proof (groupby_DATE_keys_Permutation _ _ Hp) as Hkeys.
  destruct (make_grid_average_calendar frame1) as [Hy1 Hd1].
  destruct (make_grid_average_calendar frame2) as [Hy2 Hd2].
  rewrite (init_grid_average _ _ Hg1), (init_grid_average _ _ Hg2).
  rewrite !make_grid_average_dates.
  assert (HY : map YEAR (make_grid_average frame1)
               = map YEAR (make_grid_average frame2)) by congruence.
  assert (HD : map DOY (make_grid_average frame1)
               = map DOY (make_grid_average frame2)) by congruence.
  split; [done|]. split; [done|]. split; [done|]. split.
  - destruct (init_axes _ _ Hg1) as (days1 & Hdays1 & -> & _).
    destruct (init_axes _ _ Hg2) as (days2 & Hdays2 & -> & _).
    rewrite (init_grid_average _ _ Hg1) in Hdays1.
    rewrite (init_grid_average _ _ Hg2) in Hdays2.
    rewrite (pseudo_days_columns _ _ HY HD) in Hdays1. congruence.
  - intros k. by apply readings_Permutation.
Qed.

Lemma row_order_irrelevant_witness :
  sample_frame ≡ₚ rev sample_frame
  /\ exists g1 g2,
      init sample_frame = Ok g1 /\ init (rev sample_frame) = Ok g2
      /\ map avg_DATE (grid_average g1) = map avg_DATE (grid_average g2)
      /\ X g1 = X g2.
Proof.
  split; [apply Permutation_rev|].
  destruct (row_order_irrelevant sample_frame (rev sample_frame)
              (Permutation_rev sample_frame))
    as (g1 & g2 & H1 & H2 & Hdates & _ & _ & HX & _).
  exists g1, g2. split; [exact H1|]. split; [exact H2|].
  split; [exact Hdates|exact HX].
Defined.

(** ** The lines of [plot_demand_bkh] *)

Section year_line_facts.

Implicit Types (ga : list average_row) (years : list Z) (p : figure).

Lemma year_lines_run ga years (i : nat) p :
  (i + length years <= length colors)%nat ->
  year_lines ga years i p
  = Ok (add_glyph_list (imap (fun k y => year_line ga (i + k) y) years) p).
Proof.
  revert i p. induction years as [|y years IH]; intros i p Hi.
  - simpl. unfold add_glyph_list. rewrite app_nil_r. by destruct p.
  - simpl in Hi. simpl.
    destruct (py_index_ok colors i) as (c & -> & Hc); [simpl in *; lia|].
    simpl. rewrite IH by (simpl in *; lia).
    unfold add_glyph_list, add_glyph. simpl. rewrite <- app_assoc. simpl.
    do 3 f_equal. f_equal.
    + unfold year_line. by rewrite Nat.add_0_r, Hc.
    + apply imap_ext. intros k y' _. simpl. f_equal. lia.
Qed.

Lemma map_imap_const {A B C} (f : nat -> A -> B) (h : B -> C) (h' : A -> C)
      (l : list A) :
  (forall k a, h (f k a) = h' a) -> map h (imap f l) = map h' l.
Proof.
  revert f. induction l as [|a l IH]; intros f Hf; [done|]. simpl.
  rewrite Hf. f_equal. apply IH. intros k b. apply Hf.
Qed.

Lemma concat_map_column {A} (f : average_row -> A) ga years :
  concat (map (fun y => map f (rows_of_year ga y)) years)
  = map f (concat (map (rows_of_year ga) years)).
Proof.
  induction years as [|y years IH]; [done|]. simpl.
  by rewrite map_app, IH.
Qed.

End year_line_facts.

(** X11. When the table has at most six distinct years,
    [plot_demand_bkh] with [collapse=True] completes with one line per
    year, labelled with the years in ascending order; read line after
    line, the x-values are the [DOY] column and the y-values the
    [DEMAND_AVERAGE] column of the aggregate, so every row is drawn once;
    and line [k] has opacity [0.4 + 0.1 k], at most 0.9. *)
Theorem plot_demand_lines
        (grid_frame : list grid_row) (g : GridData)
        (c : string) (figsize : Z * Z) :
  init grid_frame = Ok g ->
  (length (remove_dups (map YEAR (grid_average g))) <= 6)%nat ->
  exists p,
    plot_demand_bkh true c figsize g = Ok p
    /\ map legend_label (glyphs p)
       = map (fun y => Some (pretty y)) (np_unique (map YEAR (grid_average g)))
    /\ concat (map (fun l => ints_of (x_data l)) (glyphs p))
       = map DOY (grid_average g)
    /\ concat (map (fun l => floats_of (y_data l)) (glyphs p))
       = map DEMAND_AVERAGE (grid_average g)
    /\ forall (k : nat) (l : glyph),
         glyphs p !! k = Some l ->
         exists a, alpha l = Some a
                   /\ (a == (4 # 10) + (1 # 10) * inject_Z (Z.of_nat k))%Q
                   /\ (4 # 10 <= a)%Q /\ (a <= 9 # 10)%Q.
Proof.
  intros Hg Hn. rewrite <- np_unique_length in Hn.
  set (ga := grid_average g) in *. set (years := np_unique (map YEAR ga)) in *.
  assert (Hcat : concat (map (rows_of_year ga) years) = ga).
  { apply concat_rows_of_year.
    - apply np_unique_sorted.
    - unfold ga. rewrite (init_grid_average _ _ Hg).
      apply make_grid_average_year_sorted.
    - apply Forall_forall. intros r Hr. apply np_unique_elem.
      apply list_elem_of_fmap. by exists r. }
  unfold plot_demand_bkh. fold ga. fold years.
  rewrite year_lines_run by (simpl; lia). simpl.
  eexists. split; [reflexivity|]. simpl.
  split; [by apply map_imap_const|]. split; [|split].
  - transitivity (concat (map (fun y => map DOY (rows_of_year ga y)) years)).
    + f_equal. by apply map_imap_const.
    + by rewrite concat_map_column, Hcat.
  - transitivity (concat (map (fun y => map DEMAND_AVERAGE
                                             (rows_of_year ga y)) years)).
    + f_equal. by apply map_imap_const.
    + by rewrite concat_map_column, Hcat.
  - intros k l Hl. rewrite list_lookup_imap in Hl.
    destruct (years !! k) as [y|] eqn:Hy; [|done].
    simpl in Hl. injection Hl as <-. simpl.
    apply lookup_lt_Some in Hy.
    eexists. split; [reflexivity|]. split; [reflexivity|].
    assert (H0 : (0 <= inject_Z (Z.of_nat k))%Q).
    { change 0%Q with (inject_Z 0). rewrite <- Zle_Qle. lia. }
    assert (H5 : (inject_Z (Z.of_nat k) <= 5)%Q).
    { change 5%Q with (inject_Z 5). rewrite <- Zle_Qle. lia. }
    split; lra.
Qed.

Lemma plot_demand_lines_witness :
  init sample_frame = Ok sample_object
  /\ (length (remove_dups (map YEAR (grid_average sample_object))) <= 6)%nat
  /\ exists p,
      plot_demand_bkh true "black" (600, 300) sample_object = Ok p
      /\ map legend_label (glyphs p) = [Some "2015"; Some "2016"]%string
      /\ concat (map (fun l => ints_of (x_data l)) (glyphs p)) = [365; 1; 366].
Proof.
  split; [reflexivity|]. split; [vm_compute; lia|].
  destruct (plot_demand_lines sample_frame sample_object "black" (600, 300)
              eq_refl)
    as (p & Hp & Hlabels & Hx & _); [vm_compute; lia|].
  exists p. split; [exact Hp|]. split; [exact Hlabels|exact Hx].
Defined.

(** ** Column vectors *)

Section column_facts.

Implicit Types (a b : array).

Lemma is_column_flatten_length a : is_column a -> length (flatten a) = length a.
Proof.
  unfold flatten. induction 1 as [|row a Hrow _ IH]; [done|]. simpl.
  rewrite length_app, IH, Hrow. done.
Qed.

Lemma is_column_expand_dims_1 (v : list Q) : is_column (expand_dims_1 v).
Proof.
  unfold is_column, expand_dims_1. apply Forall_forall. intros row Hrow.
  by apply list_elem_of_fmap in Hrow as (q & -> & _).
Qed.

Lemma is_column_drop a (n : nat) : is_column a -> is_column (drop n a).
Proof. apply Forall_drop. Qed.

Lemma is_column_take a (n : nat) : is_column a -> is_column (take n a).
Proof. apply Forall_take. Qed.

Lemma is_column_slice_from a (n : Z) : is_column a -> is_column (slice_from n a).
Proof.
  unfold slice_from. destruct (n <? 0); apply is_column_drop.
Qed.

Lemma slice_to_from {A} (n : Z) (l : list A) : slice_to n l ++ slice_from n l = l.
Proof.
  unfold slice_to, slice_from. destruct (n <? 0); apply take_drop.
Qed.

Lemma init_columns (grid_frame : list grid_row) (g : GridData) :
  init grid_frame = Ok g -> is_column (X g) /\ is_column (Y g).
Proof.
  intros Hg. destruct (init_axes _ _ Hg) as (days & _ & -> & ->).
  split; apply is_column_expand_dims_1.
Qed.

Lemma sequence_cons {A} (r : result A) (l : list (result A)) :
  sequence (r :: l) = (x <-! r; xs <-! sequence l; Ok (x :: xs)).
Proof. reflexivity. Qed.

(** On two columns of one length, a two-dimensional operation works row
    by row. *)
Lemma broadcast_2d_columns (f : Q -> Q -> Q) a b :
  is_column a -> is_column b -> length a = length b ->
  exists r,
    broadcast_2d f a b = Ok r
    /\ length r = length a
    /\ is_column r
    /\ flatten r = zip_with f (flatten a) (flatten b).
Proof.
  intros Ha Hb Hlen. unfold broadcast_2d.
  rewrite broadcast_same_length by done.
  change (exists r,
    sequence (zip_with (broadcast f) a b) = Ok r
    /\ length r = length a /\ is_column r
    /\ flatten r = zip_with f (flatten a) (flatten b)).
  revert b Hb Hlen. induction Ha as [|ra a Hra Ha IH]; intros b Hb Hlen.
  - destruct b; [|done]. exists []. by repeat split.
  - destruct b as [|rb b]; [done|]. simpl in Hlen.
    apply Forall_cons in Hb as [Hrb Hb].
    destruct (IH b Hb) as (r & Hr & Hlr & Hcol & Hflat); [lia|].
    destruct ra as [|x [|? ?]]; try done.
    destruct rb as [|y [|? ?]]; try done.
    cbn [zip_with]. rewrite sequence_cons, Hr.
    exists ([f x y] :: r). split; [done|]. split; [simpl; by rewrite Hlr|].
    split; [by constructor|]. unfold flatten in *. simpl. by rewrite Hflat.
Qed.

End column_facts.

(** ** [plot_model_bkh] *)

Section plot_model_facts.

Implicit Types (self : GridData) (a mean conf : array).

Lemma flatten_app {A} (l1 l2 : list (list A)) :
  flatten (l1 ++ l2) = flatten l1 ++ flatten l2.
Proof. apply concat_app. Qed.

Lemma prediction_line_run self x_predict mean :
  attrs self !! "X_PREDICT" = Some (VArray x_predict) ->
  attrs self !! "Y_PREDICT_mean" = Some (VArray mean) ->
  prediction_line self
  = Ok {| kind := line;
          x_data := Floats (np_add_scalar (flatten x_predict) 2015);
          y_data := Floats (flatten mean);
          y2_data := None;
          line_width := None;
          alpha := None;
          legend_label := Some "Mean"%string;
          color := None;
          line_dash := None |}.
Proof.
  intros Hx Hm. unfold prediction_line.
  rewrite (read_attr_array _ _ _ Hx). simpl.
  by rewrite (read_attr_array _ _ _ Hm).
Qed.

Lemma prediction_band_run self x_predict mean conf :
  attrs self !! "X_PREDICT" = Some (VArray x_predict) ->
  attrs self !! "Y_PREDICT_mean" = Some (VArray mean) ->
  attrs self !! "Y_PREDICT_conf" = Some (VArray conf) ->
  is_column mean -> is_column conf -> length mean = length conf ->
  prediction_band self
  = Ok {| kind := varea;
          x_data := Floats (np_add_scalar (flatten x_predict) 2015);
          y_data := Floats (zip_with Qminus (flatten mean) (flatten conf));
          y2_data := Some (Floats (zip_with Qplus (flatten mean)
                                            (flatten conf)));
          line_width := None;
          alpha := Some (2 # 10)%Q;
          legend_label := Some "Confidence"%string;
          color := None;
          line_dash := None |}.
Proof.
  intros Hx Hm Hc Hcm Hcc Hlen. unfold prediction_band.
  rewrite (read_attr_array _ _ _ Hx). simpl.
  rewrite (read_attr_array _ _ _ Hm). simpl.
  rewrite (read_attr_array _ _ _ Hc). simpl.
  destruct (broadcast_2d_columns Qminus mean conf Hcm Hcc Hlen)
    as (lower & Hlower & _ & _ & Hfl).
  destruct (broadcast_2d_columns Qplus mean conf Hcm Hcc Hlen)
    as (upper & Hupper & _ & _ & Hfu).
  rewrite Hlower. simpl. rewrite Hupper. simpl. by rewrite Hfl, Hfu.
Qed.

Lemma data_points_run (slice : Z -> array -> array) (c label : string)
      self cutoff :
  attrs self !! "COVID_CUTOFF" = Some (VInt cutoff) ->
  data_points slice c label self
  = Ok {| marker_x := np_add_scalar (flatten (slice cutoff (X self))) 2015;
          marker_y := flatten (slice cutoff (Y self));
          marker_color := c;
          marker_alpha := (5 # 10)%Q;
          marker_label := label |}.
Proof.
  intros Hc. unfold data_points. by rewrite (read_attr_int _ _ _ Hc).
Qed.

Lemma plot_model_needs_cutoff (figsize : Z * Z) self p :
  plot_model_bkh figsize self = Ok p ->
  exists cutoff, attrs self !! "COVID_CUTOFF" = Some (VInt cutoff).
Proof.
  unfold plot_model_bkh.
  destruct (prediction_band self); [|done].
  destruct (prediction_line self); [|done]. simpl.
  unfold data_points at 1, read_attr at 1.
  destruct (attrs self !! "COVID_CUTOFF") as [[n| | |]|]; try done.
  eauto.
Qed.

End plot_model_facts.

(** X12. Whenever [plot_model_bkh] completes, its figure holds the
    confidence area, the mean line, the black crosses and the red
    crosses, in this order, and the two sets of crosses split the data
    at the cutoff without loss or overlap: black then red x-values are
    [X + 2015], black then red y-values are [Y]. *)
Theorem plot_model_crosses
        (figsize : Z * Z) (self : GridData) (p : model_figure) :
  plot_model_bkh figsize self = Ok p ->
  exists band curve before after,
    renderers p = [Glyph band; Glyph curve;
                   CrossMarkers before; CrossMarkers after]
    /\ kind band = varea /\ kind curve = line
    /\ marker_color before = "black"%string
    /\ marker_color after = "red"%string
    /\ marker_x before ++ marker_x after
       = np_add_scalar (flatten (X self)) 2015
    /\ marker_y before ++ marker_y after = flatten (Y self).
Proof.
  intros Hp. destruct (plot_model_needs_cutoff _ _ _ Hp) as [cutoff Hc].
  revert Hp. unfold plot_model_bkh.
  destruct (prediction_band self) as [band|] eqn:Hband; [|done].
  destruct (prediction_line self) as [curve|] eqn:Hcurve; [|done]. simpl.
  rewrite !(data_points_run _ _ _ _ _ Hc). simpl. intros [= <-]. simpl.
  exists band, curve. eexists _, _. split; [reflexivity|]. simpl.
  assert (Hkb : kind band = varea).
  { revert Hband. unfold prediction_band.
    repeat (match goal with
            | |- context [bind ?r _] => destruct r; simpl; [|done]
            end).
    by intros [= <-]. }
  assert (Hkc : kind curve = line).
  { revert Hcurve. unfold prediction_line.
    repeat (match goal with
            | |- context [bind ?r _] => destruct r; simpl; [|done]
            end).
    by intros [= <-]. }
  split; [done|]. split; [done|]. split; [done|]. split; [done|].
  unfold np_add_scalar. rewrite <- map_app, <- !flatten_app.
  by rewrite !slice_to_from.
Qed.

Lemma plot_model_crosses_witness :
  exists p,
    plot_model_bkh (600, 300) small_output_state = Ok p
    /\ exists band curve before after,
        renderers p = [Glyph band; Glyph curve;
                       CrossMarkers before; CrossMarkers after]
        /\ kind band = varea /\ kind curve = line
        /\ marker_color before = "black"%string
        /\ marker_color after = "red"%string
        /\ marker_x before ++ marker_x after
           = np_add_scalar (flatten (X small_output_state)) 2015
        /\ marker_y before ++ marker_y after
           = flatten (Y small_output_state).
Proof.
  eexists. split; [vm_compute; reflexivity|].
  apply (plot_model_crosses (600, 300) small_output_state).
  vm_compute. reflexivity.
Defined.

(** ** The plots after [load_model] *)

Section plots_after_load_model.

Implicit Types (env : environment) (self g : GridData) (a : array).

Lemma lookup_load_model_predictions predict limit self :
  load_model_attrs predict limit self !! "Y_PREDICT_mean"
  = Some (VArray (predict (expand_dims_1 (np_linspace 0 limit 1000))).1)
  /\ load_model_attrs predict limit self !! "Y_PREDICT_conf"
     = Some (VArray (predict (expand_dims_1 (np_linspace 0 limit 1000))).2)
  /\ load_model_attrs predict limit self !! "Y_COVID_PREDICT_mean"
     = Some (VArray (predict (slice_from 1881 (X self))).1)
  /\ load_model_attrs predict limit self !! "Y_COVID_PREDICT_conf"
     = Some (VArray (predict (slice_from 1881 (X self))).2).
Proof.
  unfold load_model_attrs.
  repeat split; repeat (rewrite lookup_insert_ne by done);
    by rewrite lookup_insert_eq.
Qed.

Lemma init_attrs (grid_frame : list grid_row) g :
  init grid_frame = Ok g -> attrs g = ∅.
Proof.
  unfold init. intros Hinit.
  destruct (pseudo_days (make_grid_average grid_frame)); [|done].
  simpl in Hinit. by injection Hinit as <-.
Qed.

Lemma is_column_slice_to a (n : Z) : is_column a -> is_column (slice_to n a).
Proof.
  unfold slice_to. destruct (n <? 0); apply is_column_take.
Qed.

Lemma length_slice_to_1881 {A} (l : list A) :
  length (slice_to 1881 l) = (1881 `min` length l)%nat.
Proof.
  unfold slice_to. change (1881 <? 0) with false. cbv iota.
  by rewrite length_take.
Qed.

Lemma length_slice_from_1881 {A} (l : list A) :
  length (slice_from 1881 l) = (length l - 1881)%nat.
Proof.
  rewrite slice_from_nonneg by lia. by rewrite length_drop.
Qed.

Lemma sample_predict_column_model : column_model sample_predict.
Proof.
  intros a Ha. unfold sample_predict. simpl. rewrite !length_map.
  repeat split; try done.
  - apply Forall_forall. intros row Hrow.
    apply list_elem_of_fmap in Hrow as (r & -> & Hr). rewrite length_map.
    unfold is_column in Ha. rewrite Forall_forall in Ha. by apply Ha.
  - apply Forall_forall. intros row Hrow.
    apply list_elem_of_fmap in Hrow as (r & -> & Hr). rewrite length_map.
    unfold is_column in Ha. rewrite Forall_forall in Ha. by apply Ha.
Qed.

End plots_after_load_model.

(** X13. On a constructed object, once [load_model] has run with a model
    that predicts column vectors, [plot_model_bkh] completes: the
    confidence area and the mean line share one x-axis of 1000 points
    that ends at [2015 + forecast_limit], their y-values have 1000
    points each, and the black and the red crosses number
    [min 1881 n] and [n - 1881] for a table of [n] days. *)
Theorem plot_model_after_load_model
        (env : environment) (model_file : string) (forecast_limit : option Q)
        (grid_frame : list grid_row) (g : GridData)
        (predict : array -> array * array) (u : unit) (figsize : Z * Z) :
  init grid_frame = Ok g ->
  import_GPy env = Ok u ->
  files env !! model_file = Some (PModel predict) ->
  column_model predict ->
  exists s' p band curve before after xs lower upper,
    load_model env model_file forecast_limit g = Return tt s'
    /\ plot_model_bkh figsize s' = Ok p
    /\ renderers p = [Glyph band; Glyph curve;
                      CrossMarkers before; CrossMarkers after]
    /\ x_data band = Floats xs /\ x_data curve = Floats xs
    /\ length xs = 1000%nat
    /\ xs !! 999%nat = Some (default 7%Q forecast_limit + 2015)%Q
    /\ y_data band = Floats lower /\ y2_data band = Some (Floats upper)
    /\ length lower = 1000%nat /\ length upper = 1000%nat
    /\ length (floats_of (y_data curve)) = 1000%nat
    /\ length (marker_x before) = (1881 `min` length (grid_average g))%nat
    /\ length (marker_y before) = (1881 `min` length (grid_average g))%nat
    /\ length (marker_x after) = (length (grid_average g) - 1881)%nat
    /\ length (marker_y after) = (length (grid_average g) - 1881)%nat.
Proof.
  intros Hinit Hgpy Hfile Hcol.
  destruct (init_lengths _ _ Hinit) as [HlX HlY].
  destruct (init_columns _ _ Hinit) as [HcX HcY].
  set (limit := default 7%Q forecast_limit).
  set (x_predict := expand_dims_1 (np_linspace 0 limit 1000)).
  destruct (lookup_load_model_attrs predict limit g) as (Hc & _ & Hx & _ & _).
  destruct (lookup_load_model_predictions predict limit g)
    as (Hm & Hcf & _ & _).
  destruct (Hcol x_predict (is_column_expand_dims_1 _))
    as (Hl1 & Hc1 & Hl2 & Hc2).
  set (s' := with_attrs g (load_model_attrs predict limit g)).
  assert (Hband := prediction_band_run s' _ _ _ Hx Hm Hcf Hc1 Hc2
                     (eq_trans Hl1 (eq_sym Hl2))).
  assert (Hcurve := prediction_line_run s' _ _ Hx Hm).
  assert (Hbefore := data_points_run slice_to "black" "Before Lockdown"
                       s' 1881 Hc).
  assert (Hafter := data_points_run slice_from "red" "After Lockdown"
                      s' 1881 Hc).
  assert (Hlen : length x_predict = 1000%nat).
  { unfold x_predict, expand_dims_1.
    by rewrite length_map, np_linspace_length. }
  exists s'. eexists _, _, _, _, _, _, _, _.
  split; [by apply (load_model_run _ _ _ _ _ u)|].
  split.
  { unfold plot_model_bkh. rewrite Hband. cbn [bind]. rewrite Hcurve.
    cbn [bind]. rewrite Hbefore. cbn [bind]. rewrite Hafter. cbn [bind].
    reflexivity. }
  split; [reflexivity|]. split; [reflexivity|]. split; [reflexivity|].
  unfold np_add_scalar.
  split.
  { by rewrite length_map, flatten_expand_dims_1, np_linspace_length. }
  split.
  { rewrite flatten_expand_dims_1, list_lookup_fmap.
    change 999%nat with (1000 - 1)%nat.
    rewrite np_linspace_last by lia. reflexivity. }
  split; [reflexivity|]. split; [reflexivity|].
  cbn [y_data floats_of marker_x marker_y]. fold x_predict.
  split.
  { rewrite length_zip_with, !is_column_flatten_length by done. lia. }
  split.
  { rewrite length_zip_with, !is_column_flatten_length by done. lia. }
  split.
  { rewrite is_column_flatten_length by done. lia. }
  change (X s') with (X g). change (Y s') with (Y g).
  rewrite !length_map.
  rewrite !is_column_flatten_length
    by (apply is_column_slice_to || apply is_column_slice_from; done).
  rewrite !length_slice_to_1881, !length_slice_from_1881, HlX, HlY.
  done.
Qed.

Lemma plot_model_after_load_model_witness :
  init sample_frame = Ok sample_object
  /\ import_GPy sample_env = Ok tt
  /\ files sample_env !! "gp_model.pkl" = Some (PModel sample_predict)
  /\ column_model sample_predict
  /\ exists s' p xs before after,
      load_model sample_env "gp_model.pkl" (Some 5%Q) sample_object
      = Return tt s'
      /\ plot_model_bkh (600, 300) s' = Ok p
      /\ renderers p !! 2%nat = Some (CrossMarkers before)
      /\ renderers p !! 3%nat = Some (CrossMarkers after)
      /\ length xs = 1000%nat
      /\ xs !! 999%nat = Some (5 + 2015)%Q
      /\ length (marker_x before) = 3%nat
      /\ length (marker_x after) = 0%nat.
Proof.
  split; [reflexivity|]. split; [reflexivity|]. split; [reflexivity|].
  split; [apply sample_predict_column_model|].
  destruct (plot_model_after_load_model sample_env "gp_model.pkl" (Some 5%Q)
              sample_frame sample_object sample_predict tt (600, 300)
              eq_refl eq_refl eq_refl sample_predict_column_model)
    as (s' & p & band & curve & before & after & xs & lower & upper
        & Hrun & Hp & Hr & _ & _ & Hxs & Hlast & _ & _ & _ & _ & _
        & Hb & _ & Ha & _).
  exists s', p, xs, before, after.
  split; [exact Hrun|]. split; [exact Hp|].
  split; [by rewrite Hr|]. split; [by rewrite Hr|].
  split; [exact Hxs|]. split; [exact Hlast|].
  split; [exact Hb|exact Ha].
Defined.

(** X14. On a constructed object, once [load_model] has run with a model
    that predicts column vectors, [plot_demand_discrepancy_bkh]
    completes with or without the band; it draws three glyphs or two,
    every one of them over the dates from row 1881 on and with as many
    y-values as there are such dates. *)
Theorem discrepancy_after_load_model
        (env : environment) (model_file : string) (forecast_limit : option Q)
        (grid_frame : list grid_row) (g : GridData)
        (predict : array -> array * array) (u : unit) (figsize : Z * Z)
        (plot_confidence : bool) :
  init grid_frame = Ok g ->
  import_GPy env = Ok u ->
  files env !! model_file = Some (PModel predict) ->
  column_model predict ->
  exists s' p,
    load_model env model_file forecast_limit g = Return tt s'
    /\ plot_demand_discrepancy_bkh figsize plot_confidence s' = Ok p
    /\ length (glyphs p) = (if plot_confidence then 3 else 2)%nat
    /\ Forall (fun gl =>
         x_data gl = Dates (drop 1881 (map avg_DATE (grid_average g)))
         /\ column_length (y_data gl) = (length (grid_average g) - 1881)%nat
         /\ forall c, y2_data gl = Some c ->
              column_length c = (length (grid_average g) - 1881)%nat)
         (glyphs p).
Proof.
  intros Hinit Hgpy Hfile Hcol.
  destruct (init_lengths _ _ Hinit) as [HlX HlY].
  destruct (init_columns _ _ Hinit) as [HcX HcY].
  set (limit := default 7%Q forecast_limit).
  destruct (lookup_load_model_attrs predict limit g)
    as (Hc & _ & _ & _ & Hy).
  destruct (lookup_load_model_predictions predict limit g)
    as (_ & _ & Hm & Hcf).
  destruct (Hcol (slice_from 1881 (X g)) (is_column_slice_from _ _ HcX))
    as (Hl1 & Hc1 & Hl2 & Hc2).
  set (s' := with_attrs g (load_model_attrs predict limit g)).
  set (n := (length (grid_average g) - 1881)%nat).
  assert (Hny : length (flatten (slice_from 1881 (Y g))) = n).
  { rewrite is_column_flatten_length by by apply is_column_slice_from.
    by rewrite length_slice_from_1881, HlY. }
  assert (Hnm : length (flatten (predict (slice_from 1881 (X g))).1) = n).
  { rewrite is_column_flatten_length by done.
    by rewrite Hl1, length_slice_from_1881, HlX. }
  assert (Hnc : length (flatten (predict (slice_from 1881 (X g))).2) = n).
  { rewrite is_column_flatten_length by done.
    by rewrite Hl2, length_slice_from_1881, HlX. }
  assert (Hnd : length (drop 1881 (map avg_DATE (grid_average g))) = n).
  { by rewrite length_drop, length_map. }
  assert (Hband := confidence_band_run s' _ _ _ _ Hc Hy Hm Hcf
                     (eq_trans Hny (eq_sym Hnm)) (eq_trans Hnc (eq_sym Hnm))).
  assert (Href := reference_line_run s' _ Hc).
  assert (Hmean := mean_line_run s' _ _ _ Hc Hy Hm
                     (eq_trans Hny (eq_sym Hnm))).
  rewrite slice_from_nonneg in Hband, Href, Hmean by done.
  change (Z.to_nat 1881) with 1881%nat in Hband, Href, Hmean.
  change (grid_average s') with (grid_average g) in Hband, Href, Hmean.
  cbv zeta in Href.
  exists s'. unfold plot_demand_discrepancy_bkh.
  destruct plot_confidence; eexists;
    (split; [by apply (load_model_run _ _ _ _ _ u)|]).
  - rewrite Hband. cbn [bind]. rewrite Href. cbn [bind]. rewrite Hmean.
    cbn [bind]. split; [reflexivity|].
    cbn [glyphs set_labels add_glyph new_figure app length].
    split; [reflexivity|].
    repeat apply Forall_cons_2; try apply Forall_nil_2;
      cbn [x_data y_data y2_data column_length];
      (split; [reflexivity|]); (split; [|intros c [= <-]; cbn [column_length]]);
      rewrite ?length_replicate, ?length_zip_with, ?Hny, ?Hnm, ?Hnc, ?Hnd;
      try done; lia.
  - rewrite Href. cbn [bind]. rewrite Hmean.
    cbn [bind]. split; [reflexivity|].
    cbn [glyphs set_labels add_glyph new_figure app length].
    split; [reflexivity|].
    repeat apply Forall_cons_2; try apply Forall_nil_2;
      cbn [x_data y_data y2_data column_length];
      (split; [reflexivity|]); (split; [|intros c [= <-]; cbn [column_length]]);
      rewrite ?length_replicate, ?length_zip_with, ?Hny, ?Hnm, ?Hnc, ?Hnd;
      try done; lia.
Qed.

Lemma discrepancy_after_load_model_witness :
  init long_frame = Ok long_object
  /\ import_GPy sample_env = Ok tt
  /\ files sample_env !! "gp_model.pkl" = Some (PModel sample_predict)
  /\ column_model sample_predict
  /\ length (grid_average long_object) = 2000%nat
  /\ exists s' p,
      load_model sample_env "gp_model.pkl" None long_object = Return tt s'
      /\ plot_demand_discrepancy_bkh (600, 300) true s' = Ok p
      /\ length (glyphs p) = 3%nat.
Proof.
  pose proof (the_object_init long_frame) as Hinit.
  destruct (discrepancy_after_load_model sample_env "gp_model.pkl" None
              long_frame long_object sample_predict tt (600, 300) true
              Hinit eq_refl eq_refl sample_predict_column_model)
    as (s' & p & Hrun & Hp & Hlen & _).
  split; [exact Hinit|]. split; [reflexivity|]. split; [reflexivity|].
  split; [apply sample_predict_column_model|].
  split; [apply long_object_rows|].
  exists s', p. split; [exact Hrun|]. split; [exact Hp|exact Hlen].
Defined.

(** X15. When GPy is missing, [load_model] returns without a word and
    the object has no prediction attributes: on a constructed object a
    later [plot_model_bkh] raises [AttributeError] on [X_PREDICT], and a
    later [plot_demand_discrepancy_bkh] raises [AttributeError] on
    [COVID_CUTOFF], with or without the band. *)
Theorem plots_after_silent_return
        (env : environment) (model_file : string) (forecast_limit : option Q)
        (grid_frame : list grid_row) (g : GridData) (module : string)
        (figsize : Z * Z) (plot_confidence : bool) :
  init grid_frame = Ok g ->
  import_GPy env = Raise (ModuleNotFoundError module) ->
  exists s',
    load_model env model_file forecast_limit g = Return tt s'
    /\ plot_model_bkh figsize s' = Raise (AttributeError "X_PREDICT")
    /\ plot_demand_discrepancy_bkh figsize plot_confidence s'
       = Raise (AttributeError "COVID_CUTOFF").
Proof.
  intros Hinit Himp. apply init_attrs in Hinit as Hattrs.
  exists g. split; [unfold load_model; by rewrite Himp|].
  split.
  - unfold plot_model_bkh, prediction_band, read_attr.
    by rewrite Hattrs, lookup_empty.
  - unfold plot_demand_discrepancy_bkh, confidence_band, reference_line,
      post_cutoff_dates, read_attr.
    rewrite Hattrs, lookup_empty. by destruct plot_confidence.
Qed.

Lemma plots_after_silent_return_witness :
  init sample_frame = Ok sample_object
  /\ import_GPy no_GPy_env = Raise (ModuleNotFoundError "GPy")
  /\ exists s',
      load_model no_GPy_env "gp_model.pkl" None sample_object = Return tt s'
      /\ plot_model_bkh (600, 300) s' = Raise (AttributeError "X_PREDICT")
      /\ plot_demand_discrepancy_bkh (600, 300) true s'
         = Raise (AttributeError "COVID_CUTOFF").
Proof.
  split; [reflexivity|]. split; [reflexivity|].
  apply (plots_after_silent_return no_GPy_env "gp_model.pkl" None
           sample_frame sample_object "GPy" (600, 300) true);
    reflexivity.
Defined.

(** ** The band and the mean line *)

Section band_order.

Lemma Qdiv_le_divisor (a d1 d2 : Q) :
  (0 <= a)%Q -> (0 < d1)%Q -> (d1 <= d2)%Q -> (a / d2 <= a / d1)%Q.
Proof.
  intros Ha Hd1 Hd.
  assert (Hd2 : (0 < d2)%Q) by lra.
  apply Qle_shift_div_l; [done|].
  assert (Hq : (0 <= a / d2)%Q).
  { apply Qle_shift_div_l; [done|]. lra. }
  assert (Heq : (a / d2 * d2 == a)%Q) by (field; lra).
  rewrite <- Heq at 2.
  rewrite (Qmult_comm (a / d2) d1), (Qmult_comm (a / d2) d2).
  by apply Qmult_le_compat_r.
Qed.

Lemma flatten_column_of (n : nat) (q : Q) :
  flatten (column_of n q) = replicate n q.
Proof.
  unfold flatten, column_of. induction n as [|n IH]; [done|].
  simpl. by rewrite IH.
Qed.

End band_order.

(** X16. Where the post-cutoff demand is not negative and the confidence
    lies between zero and the predicted mean, every quotient of the band
    is a number and the band encloses the mean line: at each date
    [Y / (mean + conf) <= Y / mean <= Y / (mean - conf)]. *)
Theorem discrepancy_band_encloses_mean
        (self : GridData) (figsize : Z * Z)
        (cutoff : Z) (y_covid mean conf : array) :
  attrs self !! "COVID_CUTOFF" = Some (VInt cutoff) ->
  attrs self !! "Y_COVID" = Some (VArray y_covid) ->
  attrs self !! "Y_COVID_PREDICT_mean" = Some (VArray mean) ->
  attrs self !! "Y_COVID_PREDICT_conf" = Some (VArray conf) ->
  length (flatten y_covid) = length (flatten mean) ->
  length (flatten conf) = length (flatten mean) ->
  (forall (i : nat) (a m c : Q),
     flatten y_covid !! i = Some a ->
     flatten mean !! i = Some m ->
     flatten conf !! i = Some c ->
     (0 <= a)%Q /\ (0 <= c)%Q /\ (c < m)%Q) ->
  exists p band reference mean_l below above ratio,
    plot_demand_discrepancy_bkh figsize true self = Ok p
    /\ glyphs p = [band; reference; mean_l]
    /\ y_data band = Quotients below
    /\ y2_data band = Some (Quotients above)
    /\ y_data mean_l = Quotients ratio
    /\ length below = length (flatten y_covid)
    /\ length above = length (flatten y_covid)
    /\ length ratio = length (flatten y_covid)
    /\ forall (i : nat) (a m c : Q),
         flatten y_covid !! i = Some a ->
         flatten mean !! i = Some m ->
         flatten conf !! i = Some c ->
         below !! i = Some (Some (a / (m + c))%Q)
         /\ ratio !! i = Some (Some (a / m)%Q)
         /\ above !! i = Some (Some (a / (m - c))%Q)
         /\ (a / (m + c) <= a / m)%Q /\ (a / m <= a / (m - c))%Q.
Proof.
  intros Hc Hy Hm Hf Hlen Hlen' Hsign.
  pose proof (confidence_band_run _ _ _ _ _ Hc Hy Hm Hf Hlen Hlen') as Hband.
  pose proof (reference_line_run _ _ Hc) as Href. cbv zeta in Href.
  pose proof (mean_line_run _ _ _ _ Hc Hy Hm Hlen) as Hmean.
  unfold plot_demand_discrepancy_bkh.
  rewrite Hband. cbn [bind]. rewrite Href. cbn [bind]. rewrite Hmean.
  cbn [bind].
  eexists _, _, _, _, _, _, _. split; [reflexivity|].
  cbn [glyphs set_labels add_glyph new_figure app].
  split; [reflexivity|]. split; [reflexivity|]. split; [reflexivity|].
  split; [reflexivity|].
  rewrite !length_zip_with.
  split; [lia|]. split; [lia|]. split; [lia|].
  intros i a m c Ha Hmi Hci.
  destruct (Hsign i a m c Ha Hmi Hci) as (Ha0 & Hc0 & Hcm).
  rewrite !lookup_zip_with, Ha, Hmi, Hci. cbn [mbind option_bind].
  rewrite !np_div_Some by lra.
  split; [reflexivity|]. split; [reflexivity|]. split; [reflexivity|].
  split; apply Qdiv_le_divisor; lra.
Qed.

Lemma discrepancy_band_encloses_mean_witness :
  load_model_output (output_env 2) "gp_output.pkl" long_object
  = Return tt (loaded_object 2)
  /\ exists p band reference mean_l below above ratio,
      plot_demand_discrepancy_bkh (600, 300) true (loaded_object 2) = Ok p
      /\ glyphs p = [band; reference; mean_l]
      /\ y_data band = Quotients below
      /\ y2_data band = Some (Quotients above)
      /\ y_data mean_l = Quotients ratio
      /\ below !! 0%nat = Some (Some (30 / (32 + 2))%Q)
      /\ ratio !! 0%nat = Some (Some (30 / 32)%Q)
      /\ above !! 0%nat = Some (Some (30 / (32 - 2))%Q).
Proof.
  split; [apply loaded_object_run|].
  destruct (discrepancy_band_encloses_mean (loaded_object 2) (600, 300) 1881
              (column_of 119 30) (column_of 119 32) (column_of 119 2))
    as (p & band & reference & mean_l & below & above & ratio
        & Hp & Hg & Hb & Ha & Hr & _ & _ & _ & Hpt).
  - apply lookup_load_model_output_attrs.
  - apply (loaded_object_array 2 "Y_COVID"). in_prediction_attributes.
  - apply (loaded_object_array 2 "Y_COVID_PREDICT_mean").
    in_prediction_attributes.
  - apply (loaded_object_array 2 "Y_COVID_PREDICT_conf").
    in_prediction_attributes.
  - reflexivity.
  - reflexivity.
  - intros i a m c. rewrite !flatten_column_of.
    intros [-> _]%lookup_replicate [-> _]%lookup_replicate
           [-> _]%lookup_replicate.
    repeat split; unfold Qle, Qlt; simpl; lia.
  - exists p, band, reference, mean_l, below, above, ratio.
    split; [exact Hp|]. split; [exact Hg|]. split; [exact Hb|].
    split; [exact Ha|]. split; [exact Hr|].
    destruct (Hpt 0%nat 30%Q 32%Q 2%Q eq_refl eq_refl eq_refl)
      as (H1 & H2 & H3 & _).
    split; [exact H1|]. split; [exact H2|exact H3].
Defined.
